(** * The idea and label store of [server.js]

    A shallow embedding of the persistence layer of the ideas site: the two
    JSON documents of the file store, the two tables of the Supabase store,
    and the eight repository functions ([listIdeas], [getIdea], [createIdea],
    [updateIdea], [deleteIdea], [listLabels], [addLabel], [removeLabel])
    that branch on [useSupabase]; then the two text generators
    ([buildResearchBrief], [generateAIReply]) and the request handler
    that calls them all. *)

From stdpp Require Import gmap strings list fin_maps pretty sorting.
From Stdlib Require Import String Ascii.

Set Warnings "-register-all".

(** ** Exceptions and completions

    Pure code either yields a result or throws.  The exceptions the
    modelled code can raise by itself are [TypeError]s: a property read on
    [null], a spread of something that cannot be iterated, a conversion to
    text of an object that has no usable [toString].  [StoreError] stands
    for the [error] a Supabase call reports, which every call site rethrows
    with [if (error) throw error]. *)

Inductive exn := TypeError | StoreError (msg : string).

Inductive completion (A : Type) := Normal (a : A) | Abrupt (e : exn).
Arguments Normal {A} a.
Arguments Abrupt {A} e.

#[global] Instance completion_ret : MRet completion := λ A a, Normal a.
#[global] Instance completion_bind : MBind completion := λ A B f m,
  match m with Normal a => f a | Abrupt e => Abrupt e end.

(** ** JavaScript values

    The values that flow through the store are the ones [JSON.parse] yields.
    A string is the sequence of its code units (code units below 256 only).
    Numbers are IEEE doubles in the source; the model keeps them abstract and
    asks only for the two observations the program makes of a number: its
    truthiness and the text [String(n)] produces. *)

Class JsNumber (number : Type) := {
  number_truthy : number → bool;
  number_to_string : number → string
}.

Section values.
Context `{JsNumber number}.

Inductive value :=
| JNull
| JBool (b : bool)
| JNum (n : number)
| JStr (s : string)
| JArr (xs : list value)
| JObj (o : gmap string value).

(** An expression of the program evaluates to a [value] or to
    [undefined]; [option value] is the type of such results, with [None]
    for [undefined].  An object property holding [undefined] reads the
    same as a missing one and is dropped by [JSON.stringify], so the
    model identifies the two. *)

(** ToBoolean. *)
Definition truthy (v : option value) : bool :=
  match v with
  | None | Some JNull => false
  | Some (JBool b) => b
  | Some (JNum n) => number_truthy n
  | Some (JStr s) => negb (String.eqb s "")
  | Some (JArr _) | Some (JObj _) => true
  end.

(** [a || b] with a right operand that is never [undefined]. *)
Definition or_else (a : option value) (b : value) : value :=
  match a with
  | Some v => if truthy a then v else b
  | None => b
  end.

(** [Array.isArray(v)] *)
Definition isArray (v : option value) : bool :=
  match v with Some (JArr _) => true | _ => false end.

(** [Array.isArray(v) ? v : []] *)
Definition array_or_empty (v : option value) : value :=
  match v with Some (JArr xs) => JArr xs | _ => JArr [] end.

(** [v === s] for a string [s]: strict equality never converts. *)
Definition strict_eq_str (v : option value) (s : string) : bool :=
  match v with Some (JStr t) => String.eqb t s | _ => false end.

(** [String(v)], which is also what a template literal and [join] apply.
    An array prints its elements joined by commas, with [null] elements
    printed as the empty string.  An object prints through its [toString]
    property: the inherited one gives ["[object Object]"]; an own property
    of that name, which in a JSON value is never a function, hides it, and
    the conversion throws a [TypeError] ([valueOf] returns the object). *)
Fixpoint ToString (v : value) : completion string :=
  match v with
  | JNull => Normal "null"
  | JBool true => Normal "true"
  | JBool false => Normal "false"
  | JNum n => Normal (number_to_string n)
  | JStr s => Normal s
  | JArr xs =>
      (fix join (l : list value) : completion string :=
         match l with
         | [] => Normal ""
         | [x] => match x with JNull => Normal "" | _ => ToString x end
         | x :: rest =>
             s ← (match x with JNull => Normal "" | _ => ToString x end);
             r ← join rest;
             Normal (s +:+ "," +:+ r)
         end) xs
  | JObj o =>
      match o !! "toString" with
      | Some _ => Abrupt TypeError
      | None => Normal "[object Object]"
      end
  end.

(** The conversion returns. *)
Definition printable (v : value) : bool :=
  match ToString v with Normal _ => true | Abrupt _ => false end.

(** The text it returns, when it returns. *)
Definition text (v : value) : string :=
  match ToString v with Normal s => s | Abrupt _ => "" end.

(** Own enumerable properties, as copied by the spread [{...v}]: those of
    an object; the indexed elements of an array or of a string; none for
    [null], booleans and numbers. *)
Definition indexed (xs : list value) : gmap string value :=
  list_to_map (imap (λ n x, (pretty n, x)) xs).

Definition chars (s : string) : list value :=
  (λ c, JStr (String c "")) <$> list_ascii_of_string s.

Definition spread (v : value) : gmap string value :=
  match v with
  | JObj o => o
  | JArr xs => indexed xs
  | JStr s => indexed (chars s)
  | JNull | JBool _ | JNum _ => ∅
  end.

(** [{...o, k: v}] where [v] may be [undefined]. *)
Definition set_opt (k : string) (v : option value)
    (o : gmap string value) : gmap string value :=
  match v with
  | Some x => <[k := x]> o
  | None => delete k o
  end.

(** An object literal [{...base, k1: v1, ..., kn: vn}]: later keys win. *)
Definition literal (base : gmap string value)
    (fields : list (string * option value)) : gmap string value :=
  foldl (λ o kv, set_opt kv.1 kv.2 o) base fields.
End values.

Arguments value : clear implicits.
Arguments JNull {number}.
Arguments JBool {number} b.
Arguments JStr {number} s.
Arguments JArr {number} xs.
Arguments JObj {number} o.

Abbreviation object number := (gmap string (value number)).

(** ** Strings: [String.prototype.trim]

    The white space and line terminator code units below 256: TAB, LF, VT,
    FF, CR, SP and NBSP. *)

Definition is_white (c : ascii) : bool :=
  let n := nat_of_ascii c in
  (Nat.leb 9 n && Nat.leb n 13) || Nat.eqb n 32 || Nat.eqb n 160.

Fixpoint trimStart (s : string) : string :=
  match s with
  | EmptyString => EmptyString
  | String c r => if is_white c then trimStart r else s
  end.

Fixpoint trimEnd (s : string) : string :=
  match s with
  | EmptyString => EmptyString
  | String c r =>
      match trimEnd r with
      | EmptyString => if is_white c then EmptyString else String c EmptyString
      | r' => String c r'
      end
  end.

Definition trim (s : string) : string := trimEnd (trimStart s).

Fixpoint all_white (s : string) : bool :=
  match s with
  | EmptyString => true
  | String c r => is_white c && all_white r
  end.

Definition starts_white (s : string) : bool :=
  match s with String c _ => is_white c | EmptyString => false end.

Fixpoint ends_white (s : string) : bool :=
  match s with
  | EmptyString => false
  | String c EmptyString => is_white c
  | String _ r => ends_white r
  end.

(** ** Identifiers: [crypto.randomUUID()]

    A version 4 UUID printed from 122 random bits: 36 characters, hexadecimal
    digits in groups of 8-4-4-4-12. *)

Definition hex_digit (n : N) : ascii :=
  let d := N.to_nat (n mod 16)%N in
  ascii_of_nat (if Nat.ltb d 10 then 48 + d else 87 + d).

Fixpoint hex (digits : nat) (n : N) : string :=
  match digits with
  | O => EmptyString
  | S d => String (hex_digit n) (hex d (n / 16)%N)
  end.

Definition uuid_of_bits (r : N) : string :=
  hex 8 r +:+ "-" +:+ hex 4 (N.shiftr r 32) +:+ "-4" +:+ hex 3 (N.shiftr r 48)
    +:+ "-" +:+ String (hex_digit (8 + N.shiftr r 60 mod 4)%N) (hex 3 (N.shiftr r 62))
    +:+ "-" +:+ hex 12 (N.shiftr r 74).

(** ** Identifiers in the database: the type [uuid]

    The schema declares [ideas.id] as [uuid].  The input function of that
    type reads thirty-two hexadecimal digits in either case, optionally in
    braces, with an optional hyphen after any group of four digits, and
    reports a syntax error for any other text; the value prints in lower
    case, in groups of 8-4-4-4-12.  [uuid_in s] is the printed value, or
    [None] for the syntax error. *)

Definition hex_value (c : ascii) : option ascii :=
  let n := nat_of_ascii c in
  if (Nat.leb 48 n && Nat.leb n 57) || (Nat.leb 97 n && Nat.leb n 102)
  then Some c
  else if Nat.leb 65 n && Nat.leb n 70 then Some (ascii_of_nat (n + 32))
  else None.

(** The bytes still to read, sixteen in all; byte [15 - todo'] is the one
    being read. *)
Fixpoint uuid_bytes (todo : nat) (s : string) : option (list ascii * string) :=
  match todo with
  | O => Some ([], s)
  | S todo' =>
      match s with
      | String a (String b rest) =>
          a' ← hex_value a;
          b' ← hex_value b;
          let i := 15 - todo' in
          let rest' :=
            match rest with
            | String c r =>
                if Nat.odd i && Nat.ltb i 15 && Ascii.eqb c "-" then r else rest
            | EmptyString => rest
            end in
          '(ds, tail) ← uuid_bytes todo' rest';
          Some (a' :: b' :: ds, tail)
      | _ => None
      end
  end.

Fixpoint uuid_out (groups : list nat) (ds : list ascii) : string :=
  match groups with
  | [] => string_of_list_ascii ds
  | n :: groups =>
      string_of_list_ascii (take n ds) +:+ "-" +:+ uuid_out groups (drop n ds)
  end.

Definition uuid_in (s : string) : option string :=
  let braces := match s with String c _ => Ascii.eqb c "{" | _ => false end in
  let body :=
    match s with String c r => if Ascii.eqb c "{" then r else s | _ => s end in
  '(ds, tail) ← uuid_bytes 16 body;
  tail' ← (if braces
           then match tail with
                | String c r => if Ascii.eqb c "}" then Some r else None
                | EmptyString => None
                end
           else Some tail);
  if String.eqb tail' "" then Some (uuid_out [8; 4; 4; 4] ds) else None.

(** A hexadecimal digit in lower case. *)
Definition lower_hex (c : ascii) : Prop := hex_value c = Some c.

Section store.
Context `{JsNumber number}.

(** ** Property reads

    [v.k] for the property names the program uses ([id], [title],
    [label], [tags], ...), none of which is a built-in property of a
    primitive or of an array: reading one from [null] throws, reading
    one from any other non-object yields [undefined]. *)
Definition get (v : value number) (k : string)
    : completion (option (value number)) :=
  match v with
  | JNull => Abrupt TypeError
  | JObj o => Normal (o !! k)
  | _ => Normal None
  end.

(** ** The state of the process and of its two stores

    A document is what [JSON.parse(fs.readFileSync(...))] makes of a file:
    an exception (missing file, malformed text) or a JSON value.
    [DEFAULT_LABELS] is the module-level array; [readLabelsFile] hands out
    that very array, so it is part of the mutable state.  The [ideas]
    table is keyed by [id] and the [labels] table by [name], as the schema
    declares them, and a row of [ideas] holds the nine other columns with
    the types the schema gives them: four texts, three [jsonb] values and
    two time stamps, none of them [NULL].  A time stamp is kept as the text
    it was sent as (the database prints it in a format of its own).  A key
    of the map that is not the printed form of a [uuid] is no row of the
    table: the operations below never see it.  The wall clock and the random
    source are streams that the process consumes one reading at a time; the
    readings of the clock are ISO-8601 texts.  [JSON_text] is the text the
    database makes of a JSON array or object that is sent for a text column
    (its JSON text; the objects of the model do not keep the order of their
    keys, so that text is left open). *)
Inductive document := Unreadable | Parsed (v : value number).

Record row := Row {
  title : string;
  description : string;
  status : string;
  label : string;
  tags : value number;
  attachments : value number;
  ai_chat : value number;
  created_at : string;
  updated_at : string
}.

Record world := World {
  useSupabase : bool;
  DATA_FILE : document;
  LABELS_FILE : document;
  DEFAULT_LABELS : list (value number);
  ideas_table : gmap string row;
  labels_table : gset string;
  clock : nat → string;
  clock_reads : nat;
  entropy : nat → N;
  uuid_draws : nat;
  JSON_text : value number → string
}.

Definition set_DATA_FILE (d : document) (w : world) : world :=
  World (useSupabase w) d (LABELS_FILE w) (DEFAULT_LABELS w)
    (ideas_table w) (labels_table w) (clock w) (clock_reads w)
    (entropy w) (uuid_draws w) (JSON_text w).

Definition set_LABELS_FILE (d : document) (w : world) : world :=
  World (useSupabase w) (DATA_FILE w) d (DEFAULT_LABELS w)
    (ideas_table w) (labels_table w) (clock w) (clock_reads w)
    (entropy w) (uuid_draws w) (JSON_text w).

Definition set_DEFAULT_LABELS (l : list (value number)) (w : world) : world :=
  World (useSupabase w) (DATA_FILE w) (LABELS_FILE w) l
    (ideas_table w) (labels_table w) (clock w) (clock_reads w)
    (entropy w) (uuid_draws w) (JSON_text w).

Definition set_ideas_table (t : gmap string row) (w : world)
    : world :=
  World (useSupabase w) (DATA_FILE w) (LABELS_FILE w) (DEFAULT_LABELS w)
    t (labels_table w) (clock w) (clock_reads w)
    (entropy w) (uuid_draws w) (JSON_text w).

Definition set_labels_table (t : gset string) (w : world) : world :=
  World (useSupabase w) (DATA_FILE w) (LABELS_FILE w) (DEFAULT_LABELS w)
    (ideas_table w) t (clock w) (clock_reads w)
    (entropy w) (uuid_draws w) (JSON_text w).

Definition tick (w : world) : world :=
  World (useSupabase w) (DATA_FILE w) (LABELS_FILE w) (DEFAULT_LABELS w)
    (ideas_table w) (labels_table w) (clock w) (S (clock_reads w))
    (entropy w) (uuid_draws w) (JSON_text w).

Definition draw (w : world) : world :=
  World (useSupabase w) (DATA_FILE w) (LABELS_FILE w) (DEFAULT_LABELS w)
    (ideas_table w) (labels_table w) (clock w) (clock_reads w)
    (entropy w) (S (uuid_draws w)) (JSON_text w).

(** ** Programs: state passing with exceptions *)
Inductive outcome (A : Type) :=
| Returned (a : A) (w : world)
| Thrown (e : exn) (w : world).
Arguments Returned {A} a w.
Arguments Thrown {A} e w.

Definition js (A : Type) : Type := world → outcome A.

#[global] Instance js_ret : MRet js := λ A a w, Returned a w.
#[global] Instance js_bind : MBind js := λ A B f m w,
  match m w with
  | Returned a w' => f a w'
  | Thrown e w' => Thrown e w'
  end.

Definition throw {A} (e : exn) : js A := λ w, Thrown e w.

Definition lift {A} (c : completion A) : js A :=
  match c with Normal a => mret a | Abrupt e => throw e end.

Definition modify (f : world → world) : js unit := λ w, Returned tt (f w).

Definition reads {A} (f : world → A) : js A := λ w, Returned (f w) w.

(** [new Date().toISOString()] *)
Definition now (w : world) : string := clock w (clock_reads w).
Definition toISOString : js string := λ w, Returned (now w) (tick w).

(** [crypto.randomUUID()] *)
Definition next_uuid (w : world) : string :=
  uuid_of_bits (entropy w (uuid_draws w)).
Definition randomUUID : js string := λ w, Returned (next_uuid w) (draw w).
End store.

Arguments document : clear implicits.
Arguments row : clear implicits.
Arguments world : clear implicits.
Arguments outcome : clear implicits.
Arguments js : clear implicits.
Arguments Unreadable {number}.
Arguments Returned {number A} a w.
Arguments Thrown {number A} e w.


(** ** Arrays *)

(** [l.findIndex(p)], with [None] for [-1]. *)
Fixpoint findIndex {A} (p : A → bool) (l : list A) : option nat :=
  match l with
  | [] => None
  | x :: r => if p x then Some 0 else S <$> findIndex p r
  end.

(** [l.find(p)], with [None] for [undefined]. *)
Fixpoint find {A} (p : A → bool) (l : list A) : option A :=
  match l with
  | [] => None
  | x :: r => if p x then Some x else find p r
  end.

Section server.
Context `{JsNumber number}.

(** ** The file store *)

Definition normalizeIdea (i : value number) : completion (object number) :=
  label ← get i "label";
  tags ← get i "tags";
  attachments ← get i "attachments";
  aiChat ← get i "aiChat";
  mret (literal (spread i)
          [("label", Some (or_else label (JStr "")));
           ("tags", Some (array_or_empty tags));
           ("attachments", Some (array_or_empty attachments));
           ("aiChat", Some (array_or_empty aiChat))]).

(** The [try] block covers the parse, the shape test and the [map]: an
    exception in any of them makes the function return [[]]. *)
Definition readIdeasFile : js number (list (object number)) :=
  reads (λ w,
    match DATA_FILE w with
    | Parsed (JArr ideas) =>
        match mapM normalizeIdea ideas with
        | Normal l => l
        | Abrupt _ => []
        end
    | Parsed _ => []
    | Unreadable => []
    end).

Definition writeIdeasFile (ideas : list (object number)) : js number unit :=
  modify (set_DATA_FILE (Parsed (JArr (JObj <$> ideas)))).

(** [readLabelsFile] returns either the array it has just parsed or the
    array [DEFAULT_LABELS] itself.  The result is therefore a reference:
    a [push] through it reaches [DEFAULT_LABELS] in the second case. *)
Inductive array_ref :=
| Fresh (xs : list (value number))
| The_DEFAULT_LABELS.

Definition readLabelsFile : js number array_ref :=
  reads (λ w,
    match LABELS_FILE w with
    | Parsed (JArr labels) => Fresh labels
    | Parsed _ => The_DEFAULT_LABELS
    | Unreadable => The_DEFAULT_LABELS
    end).

Definition contents (r : array_ref) : js number (list (value number)) :=
  reads (λ w,
    match r with
    | Fresh xs => xs
    | The_DEFAULT_LABELS => DEFAULT_LABELS w
    end).

(** [r.push(v)]: the reference afterwards, and the array it denotes grown
    by one element. *)
Definition push (r : array_ref) (v : value number) : js number array_ref :=
  match r with
  | Fresh xs => mret (Fresh (xs ++ [v]))
  | The_DEFAULT_LABELS =>
      modify (λ w, set_DEFAULT_LABELS (DEFAULT_LABELS w ++ [v]) w);;
      mret The_DEFAULT_LABELS
  end.

Definition writeLabelsFile (labels : list (value number)) : js number unit :=
  modify (set_LABELS_FILE (Parsed (JArr labels))).

(** [labels.includes(name)] for a string [name]. *)
Definition includes (labels : list (value number)) (name : string) : bool :=
  existsb (λ l, strict_eq_str (Some l) name) labels.

(** ** The Supabase store

    The client and the database are not part of the repository; the model
    follows the schema of the two tables and the query each call site
    builds.  A call that reports [error] throws, as every call site rethrows
    it.  What the schema decides is modelled: the key is a [uuid], so a text
    that is not one is a syntax error wherever it is used as a key; no column
    accepts [NULL]; a text column turns a number or a boolean into its text.
    Network failures are not modelled, and neither are the limits the
    database puts on a text or on a time stamp, nor the form in which it
    prints a time stamp: a stamp is read back as the text that was sent. *)

(** The row under [key] as [select('*')] returns it. *)
Definition selected (key : string) (r : row number) : object number :=
  literal ∅
    [("id", Some (JStr key));
     ("title", Some (JStr (title r)));
     ("description", Some (JStr (description r)));
     ("status", Some (JStr (status r)));
     ("label", Some (JStr (label r)));
     ("tags", Some (tags r));
     ("attachments", Some (attachments r));
     ("ai_chat", Some (ai_chat r));
     ("created_at", Some (JStr (created_at r)));
     ("updated_at", Some (JStr (updated_at r)))].

(** The rows of the table: the entries under the printed form of a uuid. *)
Definition rows (t : gmap string (row number)) : list (string * row number) :=
  List.filter (λ kr, bool_decide (uuid_in kr.1 = Some kr.1)) (map_to_list t).

(** The order of [.order('updated_at', { ascending: false })]: timestamps
    are compared as ISO-8601 texts. *)
Definition newest_first : relation (string * row number) :=
  λ a b, String.leb (updated_at b.2) (updated_at a.2).

#[global] Instance newest_first_dec a b : Decision (newest_first a b).
Proof. unfold newest_first. apply _. Defined.

(** [from('ideas').select('*').order('updated_at', { ascending: false })] *)
Definition ideas_select_ordered : js number (list (object number)) :=
  reads (λ w,
    (λ kr, selected kr.1 kr.2) <$>
      merge_sort newest_first (rows (ideas_table w))).

Definition invalid_uuid : exn :=
  StoreError "invalid input syntax for type uuid".
Definition null_value : exn :=
  StoreError "null value violates not-null constraint".
Definition duplicate_key : exn :=
  StoreError "duplicate key value violates unique constraint".
Definition no_rows : exn := StoreError "no rows returned".
Definition invalid_timestamp : exn :=
  StoreError "invalid input syntax for type timestamp with time zone".

(** [from('ideas').select('*').eq('id', id).maybeSingle()] *)
Definition ideas_select_by_id (id : string) : js number (option (object number)) :=
  λ w,
    match uuid_in id with
    | None => Thrown invalid_uuid w
    | Some key => Returned (selected key <$> ideas_table w !! key) w
    end.

(** What a column makes of the value sent for it.  [missing] is what the
    column becomes when the request does not hold it: its present content in
    an [update], its default in an [insert]; [None] where there is no
    default ([title]) or where the default is not modelled ([id] and the two
    time stamps, which the program always sends). *)
Definition column_text (print : value number → string) (v : value number)
    : string :=
  match v with
  | JStr s => s
  | JBool true => "true"
  | JBool false => "false"
  | JNum n => number_to_string n
  | x => print x
  end.

Definition text_column (print : value number → string)
    (missing : option string) (v : option (value number)) : completion string :=
  match v with
  | None => match missing with Some s => Normal s | None => Abrupt null_value end
  | Some JNull => Abrupt null_value
  | Some x => Normal (column_text print x)
  end.

Definition jsonb_column (missing : option (value number))
    (v : option (value number)) : completion (value number) :=
  match v with
  | None => match missing with Some x => Normal x | None => Abrupt null_value end
  | Some JNull => Abrupt null_value
  | Some x => Normal x
  end.

Definition timestamptz_column (missing : option string)
    (v : option (value number)) : completion string :=
  match v with
  | None => match missing with Some s => Normal s | None => Abrupt null_value end
  | Some JNull => Abrupt null_value
  | Some (JStr s) => Normal s
  | Some _ => Abrupt invalid_timestamp
  end.

Definition uuid_column (missing : option string)
    (v : option (value number)) : completion string :=
  match v with
  | None => match missing with Some s => Normal s | None => Abrupt null_value end
  | Some JNull => Abrupt null_value
  | Some (JStr s) =>
      match uuid_in s with Some key => Normal key | None => Abrupt invalid_uuid end
  | Some _ => Abrupt invalid_uuid
  end.

(** The key and the row an [insert] of [sent] makes. *)
Definition inserted_row (print : value number → string) (sent : object number)
    : completion (string * row number) :=
  key ← uuid_column None (sent !! "id");
  title ← text_column print None (sent !! "title");
  description ← text_column print (Some "") (sent !! "description");
  status ← text_column print (Some "new") (sent !! "status");
  label ← text_column print (Some "") (sent !! "label");
  tags ← jsonb_column (Some (JArr [])) (sent !! "tags");
  attachments ← jsonb_column (Some (JArr [])) (sent !! "attachments");
  ai_chat ← jsonb_column (Some (JArr [])) (sent !! "ai_chat");
  created_at ← timestamptz_column None (sent !! "created_at");
  updated_at ← timestamptz_column None (sent !! "updated_at");
  mret (key, Row title description status label tags attachments ai_chat
               created_at updated_at).

(** The key and the row an [update] with [sent] makes of the row [old]
    under [key]: the columns present in [sent] replace those of [old]. *)
Definition updated_row (print : value number → string) (sent : object number)
    (key : string) (old : row number) : completion (string * row number) :=
  key ← uuid_column (Some key) (sent !! "id");
  title ← text_column print (Some (title old)) (sent !! "title");
  description ← text_column print (Some (description old)) (sent !! "description");
  status ← text_column print (Some (status old)) (sent !! "status");
  label ← text_column print (Some (label old)) (sent !! "label");
  tags ← jsonb_column (Some (tags old)) (sent !! "tags");
  attachments ← jsonb_column (Some (attachments old)) (sent !! "attachments");
  ai_chat ← jsonb_column (Some (ai_chat old)) (sent !! "ai_chat");
  created_at ← timestamptz_column (Some (created_at old)) (sent !! "created_at");
  updated_at ← timestamptz_column (Some (updated_at old)) (sent !! "updated_at");
  mret (key, Row title description status label tags attachments ai_chat
               created_at updated_at).

(** [from('ideas').insert(sent).select('*').single()] *)
Definition ideas_insert (sent : object number) : js number (object number) :=
  λ w,
    match inserted_row (JSON_text w) sent with
    | Abrupt e => Thrown e w
    | Normal (key, r) =>
        match ideas_table w !! key with
        | Some _ => Thrown duplicate_key w
        | None =>
            Returned (selected key r)
              (set_ideas_table (<[key := r]> (ideas_table w)) w)
        end
    end.

(** [from('ideas').update(sent).eq('id', id).select('*').single()];
    [single] reports an error when no row matched. *)
Definition ideas_update (sent : object number) (id : string)
    : js number (object number) :=
  λ w,
    match uuid_in id with
    | None => Thrown invalid_uuid w
    | Some key =>
        match ideas_table w !! key with
        | None => Thrown no_rows w
        | Some old =>
            match updated_row (JSON_text w) sent key old with
            | Abrupt e => Thrown e w
            | Normal (key', new) =>
                if bool_decide (key' = key) then
                  Returned (selected key new)
                    (set_ideas_table (<[key := new]> (ideas_table w)) w)
                else
                  match ideas_table w !! key' with
                  | Some _ => Thrown duplicate_key w
                  | None =>
                      Returned (selected key' new)
                        (set_ideas_table
                           (<[key' := new]> (delete key (ideas_table w))) w)
                  end
            end
        end
    end.

(** [from('ideas').delete({ count: 'exact' }).eq('id', id)] *)
Definition ideas_delete (id : string) : js number nat :=
  λ w,
    match uuid_in id with
    | None => Thrown invalid_uuid w
    | Some key =>
        match ideas_table w !! key with
        | Some _ => Returned 1 (set_ideas_table (delete key (ideas_table w)) w)
        | None => Returned 0 w
        end
    end.

(** [from('labels').select('name').order('name', { ascending: true })] *)
Definition labels_select_ordered : js number (list (object number)) :=
  reads (λ w,
    (λ n, {[ "name" := JStr n ]}) <$>
      merge_sort (λ a b, String.leb a b) (elements (labels_table w))).

(** [from('labels').upsert({ name })] *)
Definition labels_upsert (name : string) : js number unit :=
  modify (λ w, set_labels_table ({[ name ]} ∪ labels_table w) w).

(** [from('labels').delete().eq('name', name)] *)
Definition labels_delete (name : string) : js number unit :=
  modify (λ w, set_labels_table (labels_table w ∖ {[ name ]}) w).

(** ** Column mapping *)

Definition apiIdeaToDb (i : object number) : object number :=
  literal ∅
    [("id", i !! "id");
     ("title", i !! "title");
     ("description", i !! "description");
     ("status", i !! "status");
     ("label", i !! "label");
     ("tags", i !! "tags");
     ("attachments", i !! "attachments");
     ("ai_chat", i !! "aiChat");
     ("created_at", i !! "createdAt");
     ("updated_at", i !! "updatedAt")].

Definition dbIdeaToApi (i : object number) : completion (object number) :=
  normalizeIdea (JObj (literal ∅
    [("id", i !! "id");
     ("title", i !! "title");
     ("description", i !! "description");
     ("status", i !! "status");
     ("label", i !! "label");
     ("tags", i !! "tags");
     ("attachments", i !! "attachments");
     ("aiChat", i !! "ai_chat");
     ("createdAt", i !! "created_at");
     ("updatedAt", i !! "updated_at")])).
End server.

Arguments array_ref : clear implicits.
Arguments The_DEFAULT_LABELS {number}.

(** ** The repository functions *)

Section repository.
Context `{JsNumber number}.

(** [i => i.id === id] and [i => i.label === name] *)
Definition has_id (id : string) (i : object number) : bool :=
  strict_eq_str (i !! "id") id.

Definition has_label (name : string) (i : object number) : bool :=
  strict_eq_str (i !! "label") name.

Definition listIdeas : js number (list (object number)) :=
  supa ← reads useSupabase;
  if negb supa then readIdeasFile
  else
    data ← ideas_select_ordered;
    lift (mapM dbIdeaToApi data).

(** The result is the idea or [null]; [None] stands for [null]. *)
Definition getIdea (id : string) : js number (option (object number)) :=
  supa ← reads useSupabase;
  if negb supa then
    ideas ← readIdeasFile;
    mret (find (has_id id) ideas)
  else
    data ← ideas_select_by_id id;
    match data with
    | Some data => idea ← lift (dbIdeaToApi data); mret (Some idea)
    | None => mret None
    end.

(** [String(x || '').trim()] *)
Definition text_or_empty (x : option (value number))
    : completion (value number) :=
  s ← ToString (or_else x (JStr ""));
  mret (JStr (trim s)).

Definition createIdea (payload : value number) : js number (object number) :=
  now ← toISOString;
  id ← randomUUID;
  title ← lift (get payload "title");
  description ← lift (get payload "description");
  description ← lift (text_or_empty description);
  status ← lift (get payload "status");
  label ← lift (get payload "label");
  label ← lift (text_or_empty label);
  tags ← lift (get payload "tags");
  let idea :=
    literal ∅
      [("id", Some (JStr id));
       ("title", title);
       ("description", Some description);
       ("status", Some (or_else status (JStr "new")));
       ("label", Some label);
       ("tags", Some (array_or_empty tags));
       ("attachments", Some (JArr []));
       ("aiChat", Some (JArr []));
       ("createdAt", Some (JStr now));
       ("updatedAt", Some (JStr now))] in
  supa ← reads useSupabase;
  if negb supa then
    ideas ← readIdeasFile;
    writeIdeasFile (idea :: ideas);;
    mret idea
  else
    data ← ideas_insert (apiIdeaToDb idea);
    lift (dbIdeaToApi data).

(** [p !== undefined ? String(p).trim() : old] and
    [p !== undefined ? p : old] *)
Definition trimmed_or (p old : option (value number))
    : completion (option (value number)) :=
  match p with
  | Some v => s ← ToString v; mret (Some (JStr (trim s)))
  | None => mret old
  end.

Definition given_or (p old : option (value number)) : option (value number) :=
  match p with
  | Some v => Some v
  | None => old
  end.

(** The merged record [normalizeIdea({...existing, title: ..., updatedAt:
    new Date().toISOString()})]; the two branches of [updateIdea] build it
    with the same expression.  The fields are evaluated in the order of the
    literal, the clock last. *)
Definition merge (existing : object number) (payload : value number)
    : js number (object number) :=
  title ← lift (get payload "title");
  title ← lift (trimmed_or title (existing !! "title"));
  description ← lift (get payload "description");
  description ← lift (trimmed_or description (existing !! "description"));
  status ← lift (get payload "status");
  label ← lift (get payload "label");
  label ← lift (trimmed_or label (existing !! "label"));
  tags ← lift (get payload "tags");
  attachments ← lift (get payload "attachments");
  aiChat ← lift (get payload "aiChat");
  now ← toISOString;
  lift (normalizeIdea (JObj (literal existing
    [("title", title);
     ("description", description);
     ("status", given_or status (existing !! "status"));
     ("label", label);
     ("tags", given_or tags (existing !! "tags"));
     ("attachments", given_or attachments (existing !! "attachments"));
     ("aiChat", given_or aiChat (existing !! "aiChat"));
     ("updatedAt", Some (JStr now))]))).

Definition updateIdea (id : string) (payload : value number)
    : js number (option (object number)) :=
  supa ← reads useSupabase;
  if negb supa then
    ideas ← readIdeasFile;
    match findIndex (has_id id) ideas with
    | None => mret None
    | Some idx =>
        match ideas !! idx with
        | None => throw TypeError
        | Some current =>
            merged ← merge current payload;
            writeIdeasFile (<[idx := merged]> ideas);;
            mret (Some merged)
        end
    end
  else
    existing ← getIdea id;
    match existing with
    | None => mret None
    | Some existing =>
        merged ← merge existing payload;
        data ← ideas_update (apiIdeaToDb merged) id;
        idea ← lift (dbIdeaToApi data);
        mret (Some idea)
    end.

Definition deleteIdea (id : string) : js number bool :=
  supa ← reads useSupabase;
  if negb supa then
    ideas ← readIdeasFile;
    let next := List.filter (λ i, negb (has_id id i)) ideas in
    if Nat.eqb (List.length next) (List.length ideas) then mret false
    else writeIdeasFile next;; mret true
  else
    count ← ideas_delete id;
    mret (Nat.ltb 0 count).

Definition listLabels : js number (list (value number)) :=
  supa ← reads useSupabase;
  if negb supa then
    labels ← readLabelsFile;
    contents labels
  else
    data ← labels_select_ordered;
    mret ((λ x, default JNull (x !! "name")) <$> data).

Definition addLabel (name : string) : js number (list (value number)) :=
  supa ← reads useSupabase;
  if negb supa then
    labels ← readLabelsFile;
    present ← contents labels;
    labels ← (if negb (includes present name) then push labels (JStr name)
              else mret labels);
    written ← contents labels;
    writeLabelsFile written;;
    contents labels
  else
    labels_upsert name;;
    listLabels.

(** [for (const x of l) { await body(x) }] *)
Fixpoint for_of {A} (l : list A) (body : A → js number unit) : js number unit :=
  match l with
  | [] => mret tt
  | x :: rest => body x;; for_of rest body
  end.

(** In the cascade [updateIdea] receives [idea.id]; for a row read from
    the table this is the textual key.  Anything else could not be a
    filter on the [uuid] column. *)
Definition removeLabel (name : string) : js number (list (value number)) :=
  supa ← reads useSupabase;
  if negb supa then
    labels ← readLabelsFile;
    present ← contents labels;
    let next := List.filter (λ l, negb (strict_eq_str (Some l) name)) present in
    writeLabelsFile next;;
    stored ← readIdeasFile;
    let ideas :=
      (λ i, if has_label name i then literal i [("label", Some (JStr ""))] else i)
        <$> stored in
    writeIdeasFile ideas;;
    mret next
  else
    labels_delete name;;
    ideas ← listIdeas;
    let impacted := List.filter (has_label name) ideas in
    for_of impacted (λ idea,
      match idea !! "id" with
      | Some (JStr id) =>
          updateIdea id (JObj (literal idea [("label", Some (JStr ""))]));;
          mret tt
      | _ => throw (StoreError "invalid input syntax for type uuid")
      end);;
    listLabels.
End repository.

(** ** Concrete numbers and states

    The integers that a double holds exactly and prints in full (those
    below 2^53 in magnitude) are one instance of the number interface; the
    states below are the ones a fresh process starts from ([DEFAULT_LABELS]
    as the source initialises it, the [labels] table as the schema seeds it)
    with chosen documents or tables.  No example sends an array or an object
    for a text column, so their [JSON_text] is never asked. *)

#[global] Instance Z_number : JsNumber Z :=
  {| number_truthy z := negb (Z.eqb z 0); number_to_string z := pretty z |}.

Definition initial_DEFAULT_LABELS {number} : list (value number) :=
  [JStr "Agent"; JStr "Automation"; JStr "Research"].

(** The n-th reading of the clock is midnight of the (n+1)-th of January. *)
Definition january (n : nat) : string :=
  "2024-01-0" +:+ pretty (S n) +:+ "T00:00:00.000Z".

Definition file_store (ideas labels : document Z) : world Z :=
  World false ideas labels initial_DEFAULT_LABELS ∅ ∅ january 0 N.of_nat 0
    (λ _, "").

Definition supabase_store (ideas : gmap string (row Z)) (labels : gset string)
    : world Z :=
  World true (Parsed (JArr [])) (Parsed (JArr initial_DEFAULT_LABELS))
    initial_DEFAULT_LABELS ideas labels january 0 N.of_nat 0 (λ _, "").

(** What a program returns, if it returns. *)
Definition returned {number A} (o : outcome number A) : option A :=
  match o with Returned a _ => Some a | Thrown _ _ => None end.

Definition state_after {number A} (o : outcome number A) : world number :=
  match o with Returned _ w => w | Thrown _ w => w end.

(** ** Derived notions used in the statements *)

Section derived.
Context `{JsNumber number}.

(** A record in the shape [normalizeIdea] establishes: normalising it again
    changes nothing. *)
Definition normalized (o : object number) : Prop :=
  normalizeIdea (JObj o) = Normal o.

(** [v.k] where [v] is known not to be [null]. *)
Definition prop (v : value number) (k : string) : option (value number) :=
  match v with JObj o => o !! k | _ => None end.

(** [l || ''] leaves the label [l] as it is. *)
Definition settled_label (l : value number) : Prop :=
  or_else (Some l) (JStr "") = l.
End derived.

Section observations.
Context `{JsNumber number}.

(** The ideas the file store holds, as [readIdeasFile] reads them, and the
    ideas [listIdeas] returns. *)
Definition file_ideas (w : world number) : list (object number) :=
  default [] (returned (readIdeasFile w)).

Definition listed_ideas (w : world number) : list (object number) :=
  default [] (returned (listIdeas w)).

Definition listed_labels (w : world number) : list (value number) :=
  default [] (returned (listLabels w)).
End observations.

Section views.
Context `{JsNumber number}.

(** The record [dbIdeaToApi] makes of a row. *)
Definition api (row : object number) : object number :=
  default ∅ (match dbIdeaToApi row with Normal o => Some o | Abrupt _ => None end).

(** The key under which the store looks up an [id]: the text itself in the
    ideas document, the uuid it denotes in the table, if it denotes one. *)
Definition key (w : world number) (id : string) : option string :=
  if useSupabase w then uuid_in id else Some id.
End views.

Section merging.
Context `{JsNumber number}.

(** [p !== undefined ? String(p).trim() : old] where the conversion
    returns. *)
Definition trimmed_text (p old : option (value number))
    : option (value number) :=
  match p with
  | Some v => Some (JStr (trim (text v)))
  | None => old
  end.

(** The conversions [merge] makes return: the title, the description and
    the label of the payload, where it holds them, can be printed. *)
Definition printable_field (payload : value number) (k : string) : bool :=
  match prop payload k with Some v => printable v | None => true end.

Definition update_texts (payload : value number) : bool :=
  printable_field payload "title" && printable_field payload "description"
    && printable_field payload "label".

(** The record [merge] builds from a payload that is not [null] and whose
    texts can be printed, at clock reading [stamp]. *)
Definition merged (existing : object number) (payload : value number)
    (stamp : string) : object number :=
  let m :=
    literal existing
      [("title", trimmed_text (prop payload "title") (existing !! "title"));
       ("description",
          trimmed_text (prop payload "description") (existing !! "description"));
       ("status", given_or (prop payload "status") (existing !! "status"));
       ("label", trimmed_text (prop payload "label") (existing !! "label"));
       ("tags", given_or (prop payload "tags") (existing !! "tags"));
       ("attachments",
          given_or (prop payload "attachments") (existing !! "attachments"));
       ("aiChat", given_or (prop payload "aiChat") (existing !! "aiChat"));
       ("updatedAt", Some (JStr stamp))] in
  literal m
    [("label", Some (or_else (m !! "label") (JStr "")));
     ("tags", Some (array_or_empty (m !! "tags")));
     ("attachments", Some (array_or_empty (m !! "attachments")));
     ("aiChat", Some (array_or_empty (m !! "aiChat")))].
End merging.

Section label_notions.
Context `{JsNumber number}.


(** The labels document is a sequence. *)
Definition labels_document_ok (w : world number) : bool :=
  match LABELS_FILE w with Parsed (JArr _) => true | _ => false end.

(** The ideas document is a sequence. *)
Definition ideas_document_ok (w : world number) : bool :=
  match DATA_FILE w with Parsed (JArr _) => true | _ => false end.

(** [i => (i.label === name ? { ...i, label: '' } : i)] *)
Definition clear_label (name : string) (i : object number) : object number :=
  if has_label name i then literal i [("label", Some (JStr ""))] else i.

(** The names of the labels table in the order [listLabels] returns them. *)
Definition sorted_names (t : gset string) : list string :=
  merge_sort (λ a b, String.leb a b) (elements t).
End label_notions.

Section cascade_notions.
Context `{JsNumber number}.

(** The body of the cascade loop of [removeLabel]. *)
Definition clear_stored (idea : object number) : js number unit :=
  match idea !! "id" with
  | Some (JStr id) =>
      updateIdea id (JObj (literal idea [("label", Some (JStr ""))]));;
      mret tt
  | _ => throw (StoreError "invalid input syntax for type uuid")
  end.

(** The row stored under [id] has an empty label. *)
Definition label_cleared (w : world number) (id : string) : Prop :=
  ∃ r, ideas_table w !! id = Some r ∧ label r = "".

(** Some idea of the list carries the id [id]. *)
Definition mentions (ideas : list (object number)) (id : string) : Prop :=
  ∃ idea, idea ∈ ideas ∧ idea !! "id" = Some (JStr id).
End cascade_notions.

Section creation.
Context `{JsNumber number}.

(** [String(x || '').trim()] where the conversion returns. *)
Definition blank_or_text (x : option (value number)) : value number :=
  JStr (trim (text (or_else x (JStr "")))).

(** The conversions [createIdea] makes return: what stands for the
    description and for the label of the payload can be printed. *)
Definition create_texts (payload : value number) : bool :=
  printable (or_else (prop payload "description") (JStr ""))
    && printable (or_else (prop payload "label") (JStr "")).

(** The record [createIdea] builds from a payload that is not [null] and
    whose texts can be printed, with identifier [id] and clock reading
    [stamp]. *)
Definition created (payload : value number) (id stamp : string)
    : object number :=
  literal ∅
    [("id", Some (JStr id));
     ("title", prop payload "title");
     ("description", Some (blank_or_text (prop payload "description")));
     ("status", Some (or_else (prop payload "status") (JStr "new")));
     ("label", Some (blank_or_text (prop payload "label")));
     ("tags", Some (array_or_empty (prop payload "tags")));
     ("attachments", Some (JArr []));
     ("aiChat", Some (JArr []));
     ("createdAt", Some (JStr stamp));
     ("updatedAt", Some (JStr stamp))].
End creation.

(** The ten fields of an idea record. *)
Definition idea_fields : list string :=
  ["id"; "title"; "description"; "status"; "label"; "tags"; "attachments";
   "aiChat"; "createdAt"; "updatedAt"].

Section plain_records.
Context `{JsNumber number}.

(** A record with no field beyond the ten. *)
Definition plain (i : object number) : Prop :=
  ∀ k, k ∉ idea_fields → i !! k = None.

(** What a text column holds of a value that is not [null]. *)
Definition as_text (w : world number) (v : value number) : value number :=
  JStr (column_text (JSON_text w) v).

(** The record a store keeps of the record [i] it is given: the ideas
    document keeps it as it is, the table keeps its title and its status
    as texts. *)
Definition as_stored (w : world number) (i : object number) : object number :=
  literal i [("title", as_text w <$> i !! "title");
             ("status", as_text w <$> i !! "status")].

Definition recorded (w : world number) (i : object number) : object number :=
  if useSupabase w then as_stored w i else i.

(** A value a column accepts: it is there and is not [null]. *)
Definition not_null (v : option (value number)) : bool :=
  match v with Some JNull | None => false | Some _ => true end.

(** A value that is a text. *)
Definition is_text (v : option (value number)) : bool :=
  match v with Some (JStr _) => true | _ => false end.

(** A record the table accepts under the key [c]: what it holds for each
    column is of the column's type, or is turned into it. *)
Definition accepted (i : object number) (c : string) : Prop :=
  i !! "id" = Some (JStr c) ∧
  not_null (i !! "title") = true ∧
  is_text (i !! "description") = true ∧
  not_null (i !! "status") = true ∧
  is_text (i !! "label") = true ∧
  isArray (i !! "tags") = true ∧
  isArray (i !! "attachments") = true ∧
  isArray (i !! "aiChat") = true ∧
  is_text (i !! "createdAt") = true ∧
  is_text (i !! "updatedAt") = true.
End plain_records.

(** ** Example states

    The file store and the Supabase store of a process that has just
    started, and the states some calls lead to from there. *)

Definition fresh_file_store : world Z :=
  file_store (Parsed (JArr [])) (Parsed (JArr initial_DEFAULT_LABELS)).

Definition fresh_supabase_store : world Z :=
  supabase_store ∅ {[ "Agent"; "Automation"; "Research" ]}.

Definition first_id : string := "00000000-0000-4000-8000-000000000000".
Definition second_id : string := "10000000-0000-4000-8000-000000000000".

(** An idea labelled [Growth] has been created; no such label exists. *)
Definition growth_payload : value Z :=
  JObj {[ "title" := JStr "Ship v2"; "label" := JStr "Growth" ]}.

Definition file_store_with_idea : world Z :=
  state_after (createIdea growth_payload fresh_file_store).

Definition supabase_store_with_idea : world Z :=
  state_after (createIdea growth_payload fresh_supabase_store).

(** Two ideas have been created, the labelled one first. *)
Definition file_store_with_two : world Z :=
  state_after (createIdea (JObj {[ "title" := JStr "Write docs" ]})
                 file_store_with_idea).

(** The labels document holds a JSON object instead of a sequence. *)
Definition file_store_bad_labels : world Z :=
  file_store (Parsed (JArr [])) (Parsed (JObj ∅)).

(** The order [listIdeas] promises: no idea is older than its successor. *)
Definition updatedAt_text {number} (i : object number) : string :=
  match i !! "updatedAt" with Some (JStr s) => s | _ => "" end.

Definition newest_first_ideas {number} (ideas : list (object number)) : Prop :=
  Sorted (λ a b, String.leb (updatedAt_text b) (updatedAt_text a)) ideas.

(** The idea a call of [getIdea] or [updateIdea] returned, if it returned
    one. *)
Definition found {number} (o : outcome number (option (object number)))
    : option (object number) :=
  match o with Returned (Some i) _ => Some i | _ => None end.

(** A field of the idea that [getIdea(id)] returns in state [w]. *)
Definition field_of {number} `{JsNumber number}
    (w : world number) (id k : string) : option (value number) :=
  match found (getIdea id w) with Some i => i !! k | None => None end.

(** The same order, as a test. *)
Fixpoint newest_first_test {number} (ideas : list (object number)) : bool :=
  match ideas with
  | a :: rest =>
      match rest with
      | b :: _ => String.leb (updatedAt_text b) (updatedAt_text a)
      | [] => true
      end && newest_first_test rest
  | [] => true
  end.

(** The idea the example states hold under [first_id]. *)
Definition growth_idea : object Z :=
  created growth_payload first_id (january 0).


Section stamps.
Context `{JsNumber number}.

(** The row stored under [id] carries as [updated_at] a reading of the
    clock of [w0] taken at or after its [lo]-th reading and before the
    current reading of [w]. *)
Definition stamped (w0 : world number) (lo : nat) (w : world number)
    (id : string) : Prop :=
  ∃ r n,
    ideas_table w !! id = Some r ∧
    updated_at r = clock w0 n ∧
    lo ≤ n ∧ n < clock_reads w.
End stamps.

(** ** Strings: [toLowerCase], [includes], [split]

    For code units below 256 [toLowerCase] maps the letters A-Z and the
    Latin-1 capitals (192-222 other than the multiplication sign 215) to the
    code unit 32 above. *)

Definition lower_char (c : ascii) : ascii :=
  let n := nat_of_ascii c in
  if (Nat.leb 65 n && Nat.leb n 90)
     || (Nat.leb 192 n && Nat.leb n 222 && negb (Nat.eqb n 215))
  then ascii_of_nat (n + 32) else c.

Fixpoint toLowerCase (s : string) : string :=
  match s with
  | EmptyString => EmptyString
  | String c r => String (lower_char c) (toLowerCase r)
  end.

(** [s.includes(sub)] *)
Fixpoint str_includes (sub s : string) : bool :=
  String.prefix sub s ||
  match s with
  | EmptyString => false
  | String _ r => str_includes sub r
  end.

(** [s.split(sep)] for a separator of one code unit: never empty. *)
Fixpoint split (sep : ascii) (s : string) : list string :=
  match s with
  | EmptyString => [EmptyString]
  | String c r =>
      if Ascii.eqb c sep then EmptyString :: split sep r
      else match split sep r with
           | h :: t => String c h :: t
           | [] => [String c EmptyString]
           end
  end.

(** [l.pop()], with [None] for [undefined]. *)
Definition pop {A} (l : list A) : option A := last l.

(** The line feed and the double quote. *)
Definition LF : string := String (ascii_of_nat 10) EmptyString.
Definition QUOTE : string := String (ascii_of_nat 34) EmptyString.

(** [lines.join('\n')] for an array of strings. *)
Fixpoint join_lines (lines : list string) : string :=
  match lines with
  | [] => EmptyString
  | [x] => x
  | x :: rest => x +:+ LF +:+ join_lines rest
  end.

Section text_generators.
Context `{JsNumber number}.

(** A substitution [${v}] in a template literal. *)
Definition interpolate (v : option (value number)) : completion string :=
  match v with Some x => ToString x | None => Normal "undefined" end.

(** [xs.join(sep)]: [null] elements print as the empty string. *)
Fixpoint Array_join (sep : string) (xs : list (value number))
    : completion string :=
  match xs with
  | [] => Normal EmptyString
  | [x] => match x with JNull => Normal EmptyString | _ => ToString x end
  | x :: rest =>
      s ← (match x with JNull => Normal EmptyString | _ => ToString x end);
      r ← Array_join sep rest;
      mret (s +:+ sep +:+ r)
  end.

(** [(v || []).join(sep)]: only an array has [join]; [0], [''], [false]
    and [null] give way to the empty array. *)
Definition join_or_throw (sep : string) (v : option (value number))
    : completion string :=
  match or_else v (JArr []) with
  | JArr xs => Array_join sep xs
  | _ => Abrupt TypeError
  end.

(** [s || fallback] for two strings. *)
Definition nonempty_or (s fallback : string) : string :=
  if String.eqb s "" then fallback else s.

Definition buildResearchBrief (idea : object number) : completion string :=
  joined ← join_or_throw ", " (idea !! "tags");
  let tags := nonempty_or joined "none" in
  title ← interpolate (idea !! "title");
  status ← ToString (or_else (idea !! "status") (JStr "new"));
  label ← ToString (or_else (idea !! "label") (JStr "none"));
  description ←
    ToString (or_else (idea !! "description") (JStr "No description yet."));
  mret (join_lines
    ["Project: " +:+ title;
     "";
     "Research context:";
     "- Current status: " +:+ status;
     "- Label: " +:+ label;
     "- Tags: " +:+ tags;
     "";
     "Suggested research angles:";
     "- Competitors / existing tools solving similar problem";
     "- Technical feasibility: data sources, model choices, latency/cost constraints";
     "- Build scope for MVP (1-2 week version)";
     "- Risks: privacy, quality, over-automation, hallucination";
     "";
     "Concrete next steps:";
     "1) Write one-sentence user outcome";
     "2) Define smallest demo workflow";
     "3) List must-have integrations";
     "4) Choose one measurable success metric";
     "";
     "Idea notes: " +:+ description]).

(** The two replies that quote the title. *)
Definition mvp_plan (title : string) : string :=
  "MVP plan for " +:+ QUOTE +:+ title +:+ QUOTE +:+ ":"
    +:+ LF +:+ "1) Single core workflow only"
    +:+ LF +:+ "2) Manual fallback for weak AI parts"
    +:+ LF +:+ "3) Capture user feedback + one quality metric"
    +:+ LF +:+ "4) Ship in 7 days, then iterate.".

Definition good_question (title : string) : string :=
  "Good question. For " +:+ QUOTE +:+ title +:+ QUOTE
    +:+ ", define target user, map a 5-step happy path, then test on 3 real examples before expanding.".

Definition generateAIReply (idea : object number)
    (userMessage : option (value number)) : completion string :=
  msg ← ToString (or_else userMessage (JStr ""));
  let msg := trim msg in
  let lower := toLowerCase msg in
  if String.eqb msg "" then
    mret "Give me a question about this idea and I will help you scope, validate, or plan it."
  else if str_includes "mvp" lower || str_includes "first version" lower then
    title ← interpolate (idea !! "title");
    mret (mvp_plan title)
  else if str_includes "tech stack" lower || str_includes "stack" lower then
    mret ("Suggested stack:"
      +:+ LF +:+ "- Frontend: static pages"
      +:+ LF +:+ "- Backend: Node API"
      +:+ LF +:+ "- DB: Supabase Postgres"
      +:+ LF +:+ "- Optional AI API layer for deeper guidance.")
  else if str_includes "risk" lower || str_includes "problem" lower then
    mret "Top risks: unclear value, unreliable output, cost growth, and privacy. Mitigation: define one user metric first."
  else
    title ← interpolate (idea !! "title");
    mret (good_question title).
End text_generators.

(** ** The request handler

    A request is its method, the path name of its URL and its body; the
    body is absent (empty text), malformed, or a JSON value.  A response is
    what [sendJson] sends, the empty reply to [OPTIONS], the hand-over to
    [serveStatic], or the reply of the [catch] block, which reports the
    exception it caught.  A malformed body makes [getRequestBody] reject,
    which the [catch] block answers like an exception. *)

Section handler.
Context `{JsNumber number}.

(** [decodeURIComponent], which may throw a [URIError]. *)
Variable decodeURIComponent : string → option string.

Record request := Request {
  method : string;
  pathname : string;
  body : option (document number)
}.

Inductive cause := Raised (e : exn) | MalformedBody | MalformedURI.

Inductive response :=
| Json (code : nat) (data : value number)
| NoContent
| Static
| InternalError (c : cause).

Definition error (message : string) : value number :=
  JObj {[ "error" := JStr message ]}.

(** [/^\/api\/ideas\/[^/]+\/<action>$/]: five segments, the first empty,
    the fourth not. *)
Definition idea_action (action path : string) : bool :=
  match split "/" path with
  | [a; b; c; d; e] =>
      String.eqb a "" && String.eqb b "api" && String.eqb c "ideas"
        && negb (String.eqb d "") && String.eqb e action
  | _ => false
  end.

(** [url.pathname.split('/')[3]] and [url.pathname.split('/').pop()].  Where
    the handler reads the fourth segment the pattern above has matched, so
    that the segment exists; the [None] branches of [post_research] and
    [post_ai_chat] are never taken ([idea_action_path]). *)
Definition fourth_segment (path : string) : option string :=
  split "/" path !! 3.

Definition last_segment (path : string) : string :=
  default "" (pop (split "/" path)).

(** The continuation of a route once the body has been read. *)
Definition with_body (r : request)
    (k : value number → js number response) : js number response :=
  match body r with
  | None => k (JObj ∅)
  | Some (Parsed payload) => k payload
  | Some Unreadable => mret (InternalError MalformedBody)
  end.

Definition health : js number response :=
  reads useSupabase ≫= λ supa : bool,
  let storage : string := if supa then "supabase" else "file" in
  mret (Json 200 (JObj (literal ∅
          [("ok", Some (JBool true)); ("storage", Some (JStr storage))]))).

Definition post_label (r : request) : js number response :=
  with_body r (λ payload,
    name ← lift (get payload "name");
    name ← lift (ToString (or_else name (JStr "")));
    let name := trim name in
    if String.eqb name "" then mret (Json 400 (error "label name is required"))
    else labels ← addLabel name; mret (Json 201 (JArr labels))).

Definition delete_label (r : request) : js number response :=
  match decodeURIComponent (last_segment (pathname r)) with
  | None => mret (InternalError MalformedURI)
  | Some decoded =>
      labels ← removeLabel (trim decoded);
      mret (Json 200 (JArr labels))
  end.

Definition post_idea (r : request) : js number response :=
  with_body r (λ payload,
    title ← lift (get payload "title");
    title ← lift (ToString (or_else title (JStr "")));
    let title := trim title in
    if String.eqb title "" then mret (Json 400 (error "title is required"))
    else
      idea ← createIdea (JObj (literal (spread payload)
                                 [("title", Some (JStr title))]));
      mret (Json 201 (JObj idea))).

Definition post_research (r : request) : js number response :=
  match fourth_segment (pathname r) with
  | None => throw TypeError
  | Some id =>
      idea ← getIdea id;
      match idea with
      | Some idea =>
          research ← lift (buildResearchBrief idea);
          mret (Json 200 (JObj {[ "research" := JStr research ]}))
      | None => mret (Json 404 (error "not found"))
      end
  end.

(** [[...v]] for what [idea.aiChat || []] can be. *)
Definition array_spread (v : value number) : completion (list (value number)) :=
  match v with
  | JArr xs => Normal xs
  | JStr s => Normal (chars s)
  | _ => Abrupt TypeError
  end.

Definition chat_entry (role text stamp : string) : value number :=
  JObj {[ "role" := JStr role; "text" := JStr text; "at" := JStr stamp ]}.

Definition post_ai_chat (r : request) : js number response :=
  match fourth_segment (pathname r) with
  | None => throw TypeError
  | Some id =>
      idea ← getIdea id;
      match idea with
      | None => mret (Json 404 (error "not found"))
      | Some idea =>
          with_body r (λ payload,
            message ← lift (get payload "message");
            message ← lift (ToString (or_else message (JStr "")));
            let message := trim message in
            reply ← lift (generateAIReply idea (Some (JStr message)));
            now ← toISOString;
            previous ← lift (array_spread (or_else (idea !! "aiChat") (JArr [])));
            let chat :=
              previous ++ [chat_entry "user" message now;
                           chat_entry "assistant" reply now] in
            updated ← updateIdea id (JObj {[ "aiChat" := JArr chat ]});
            match updated with
            | None => throw TypeError
            | Some updated =>
                mret (Json 200 (JObj (literal ∅
                        [("reply", Some (JStr reply));
                         ("chat", updated !! "aiChat")])))
            end)
      end
  end.

Definition get_idea (r : request) : js number response :=
  idea ← getIdea (last_segment (pathname r));
  match idea with
  | None => mret (Json 404 (error "not found"))
  | Some idea => mret (Json 200 (JObj idea))
  end.

Definition put_idea (r : request) : js number response :=
  with_body r (λ payload,
    updated ← updateIdea (last_segment (pathname r)) payload;
    match updated with
    | None => mret (Json 404 (error "not found"))
    | Some updated => mret (Json 200 (JObj updated))
    end).

Definition delete_idea (r : request) : js number response :=
  ok ← deleteIdea (last_segment (pathname r));
  if negb ok then mret (Json 404 (error "not found"))
  else mret (Json 200 (JObj {[ "ok" := JBool true ]})).

(** The chain of [if]s inside the [try] block, in source order. *)
Definition routes (r : request) : js number response :=
  let path := pathname r in
  let m := method r in
  if String.eqb path "/api/health" && String.eqb m "GET" then health
  else if String.eqb path "/api/labels" && String.eqb m "GET" then
    labels ← listLabels; mret (Json 200 (JArr labels))
  else if String.eqb path "/api/labels" && String.eqb m "POST" then
    post_label r
  else if String.prefix "/api/labels/" path && String.eqb m "DELETE" then
    delete_label r
  else if String.eqb path "/api/ideas" && String.eqb m "GET" then
    ideas ← listIdeas; mret (Json 200 (JArr (JObj <$> ideas)))
  else if String.eqb path "/api/ideas" && String.eqb m "POST" then
    post_idea r
  else if idea_action "research" path && String.eqb m "POST" then
    post_research r
  else if idea_action "ai-chat" path && String.eqb m "POST" then
    post_ai_chat r
  else if String.prefix "/api/ideas/" path && String.eqb m "GET" then
    get_idea r
  else if String.prefix "/api/ideas/" path && String.eqb m "PUT" then
    put_idea r
  else if String.prefix "/api/ideas/" path && String.eqb m "DELETE" then
    delete_idea r
  else mret Static.

(** The handler: [OPTIONS] first, then the routes under [try], with the
    [catch] block turning an exception into a reply.  It returns the
    response and the state it leaves. *)
Definition handle (r : request) (w : world number)
    : response * world number :=
  if String.eqb (method r) "OPTIONS" then (NoContent, w)
  else
    match routes r w with
    | Returned resp w' => (resp, w')
    | Thrown e w' => (InternalError (Raised e), w')
    end.
End handler.

Arguments request : clear implicits.
Arguments response : clear implicits.
Arguments Request {number} method pathname body.
Arguments Json {number} code data.
Arguments NoContent {number}.
Arguments Static {number}.
Arguments InternalError {number} c.

(** [segments.join(sep)], the inverse of [split]. *)
Fixpoint unsplit (sep : ascii) (segments : list string) : string :=
  match segments with
  | [] => EmptyString
  | [x] => x
  | x :: rest => x +:+ String sep (unsplit sep rest)
  end.

(** The payload [getRequestBody] resolves to, if it resolves: the empty
    object for an empty body. *)
Definition request_payload {number} (r : request number)
    : option (value number) :=
  match body r with
  | None => Some (JObj ∅)
  | Some (Parsed payload) => Some payload
  | Some Unreadable => None
  end.

(** The text a handler makes of a payload field: [String(x || '').trim()]. *)
Definition field_text {number} `{JsNumber number}
    (payload : value number) (k : string) : completion string :=
  s ← ToString (or_else (prop payload k) (JStr ""));
  mret (trim s).

(** ** More example values *)

(** A raw entry of the ideas document, with text where the tags should be. *)
Definition raw_idea : value Z :=
  JObj {[ "title" := JStr "Ship v2"; "tags" := JStr "urgent" ]}.

Definition raw_idea_normalized : object Z :=
  {[ "title" := JStr "Ship v2"; "label" := JStr ""; "tags" := JArr [];
     "attachments" := JArr []; "aiChat" := JArr [] ]}.

Definition file_store_with_null_entry : world Z :=
  file_store (Parsed (JArr [raw_idea; JNull]))
    (Parsed (JArr initial_DEFAULT_LABELS)).

Definition file_store_with_raw_entries : world Z :=
  file_store (Parsed (JArr [raw_idea; JNum 5%Z; JStr "ab"]))
    (Parsed (JArr initial_DEFAULT_LABELS)).

(** The second idea of [file_store_with_two]. *)
Definition docs_idea : object Z :=
  created (JObj {[ "title" := JStr "Write docs" ]}) second_id (january 1).

(** A decoder for the examples: the identity. *)
Definition plain_decode (s : string) : option string := Some s.

Definition title_payload : value Z := JObj {[ "title" := JStr " New title " ]}.
Definition blank_title_payload : value Z := JObj {[ "title" := JStr "   " ]}.

Definition research_path : string := "/api/ideas/" +:+ first_id +:+ "/research".



(** * Properties *)

#[global] Arguments literal : simpl never.
#[global] Arguments set_opt : simpl never.
#[global] Arguments spread : simpl never.
#[global] Arguments normalizeIdea : simpl never.

(** ** Running programs *)

Ltac js_run :=
  unfold mbind, js_bind, mret, js_ret, reads, modify, lift, throw,
    toISOString, randomUUID in *; simpl in *.

Ltac literal_unfold :=
  unfold literal in *; cbn [foldl fst snd] in *.

(** ** Strings *)

Lemma trimStart_no_leading s : starts_white (trimStart s) = false.
Proof.
  induction s as [|c r IH]; simpl; [done|].
  destruct (is_white c) eqn:E; [done|]. simpl. done.
Qed.

Lemma trimEnd_no_trailing s : ends_white (trimEnd s) = false.
Proof.
  induction s as [|c r IH]; simpl; [done|].
  destruct (trimEnd r) as [|d r'] eqn:E.
  - destruct (is_white c) eqn:W; simpl; done.
  - simpl in *. done.
Qed.

Lemma trimEnd_keeps_start s :
  starts_white s = false → starts_white (trimEnd s) = false.
Proof.
  destruct s as [|c r]; simpl; [done|]. intros W.
  destruct (trimEnd r); [rewrite W|]; done.
Qed.

Lemma append_cons c s t : String c s +:+ t = String c (s +:+ t).
Proof. reflexivity. Qed.

Lemma trimStart_split s :
  ∃ pre, s = pre +:+ trimStart s ∧ all_white pre = true.
Proof.
  induction s as [|c r [pre [E W]]]; simpl.
  - by exists "".
  - destruct (is_white c) eqn:C.
    + exists (String c pre). simpl. rewrite C, W, append_cons, <- E. done.
    + by exists "".
Qed.

Lemma trimEnd_split s :
  ∃ post, s = trimEnd s +:+ post ∧ all_white post = true.
Proof.
  induction s as [|c r [post [E W]]]; simpl.
  - by exists "".
  - destruct (trimEnd r) as [|d r'] eqn:T.
    + destruct (is_white c) eqn:C.
      * exists (String c post). simpl in *. rewrite C, W. by subst r.
      * exists post. simpl in *. by subst r.
    + exists post. rewrite append_cons, <- E. done.
Qed.

(** [trim] removes a prefix and a suffix made of white space only, and what
    is left neither starts nor ends with white space. *)
Lemma trim_strips s :
  ∃ pre post,
    s = pre +:+ trim s +:+ post ∧ all_white pre = true ∧
    all_white post = true ∧
    starts_white (trim s) = false ∧ ends_white (trim s) = false.
Proof.
  destruct (trimStart_split s) as [pre [E1 W1]].
  destruct (trimEnd_split (trimStart s)) as [post [E2 W2]].
  exists pre, post. unfold trim. repeat split; try done.
  - by rewrite <- E2.
  - apply trimEnd_keeps_start, trimStart_no_leading.
  - apply trimEnd_no_trailing.
Qed.


(** ** The type [uuid] *)

Lemma hex_value_lower c c' : hex_value c = Some c' → lower_hex c'.
Proof.
  unfold lower_hex, hex_value.
  destruct ((Nat.leb 48 (nat_of_ascii c) && Nat.leb (nat_of_ascii c) 57)
            || (Nat.leb 97 (nat_of_ascii c) && Nat.leb (nat_of_ascii c) 102))
    eqn:Hlow.
  - intros [= <-]. by rewrite Hlow.
  - destruct (Nat.leb 65 (nat_of_ascii c) && Nat.leb (nat_of_ascii c) 70)
      eqn:Hup; [|done].
    intros [= <-]. apply andb_true_iff in Hup as [H1 H2].
    apply Nat.leb_le in H1, H2.
    rewrite nat_ascii_embedding by lia.
    assert (Nat.leb 97 (nat_of_ascii c + 32) = true) as ->
      by (apply Nat.leb_le; lia).
    assert (Nat.leb (nat_of_ascii c + 32) 102 = true) as ->
      by (apply Nat.leb_le; lia).
    by rewrite orb_true_r.
Qed.

Lemma lower_hex_not_hyphen c : lower_hex c → Ascii.eqb c "-" = false.
Proof.
  intros Hc. destruct (Ascii.eqb c "-") eqn:E; [|done].
  apply Ascii.eqb_eq in E. subst. discriminate Hc.
Qed.

Lemma lower_hex_not_brace c : lower_hex c → Ascii.eqb c "{" = false.
Proof.
  intros Hc. destruct (Ascii.eqb c "{") eqn:E; [|done].
  apply Ascii.eqb_eq in E. subst. discriminate Hc.
Qed.

Lemma hex_digit_lower n : lower_hex (hex_digit n).
Proof.
  unfold hex_digit.
  assert (N.to_nat (n mod 16) < 16) as Hlt.
  { pose proof (N.mod_upper_bound n 16). lia. }
  destruct (N.to_nat (n mod 16)) as [|d]; [reflexivity|].
  do 15 (destruct d as [|d]; [reflexivity|]). lia.
Qed.

(** What [uuid_bytes] has read are the digits in lower case. *)
Lemma uuid_bytes_digits n s ds tail :
  uuid_bytes n s = Some (ds, tail) →
  List.length ds = 2 * n ∧ Forall lower_hex ds.
Proof.
  revert s ds tail. induction n as [|n IH]; intros s ds tail.
  - intros [= <- <-]. split; [done|constructor].
  - cbn [uuid_bytes]. destruct s as [|a [|b rest]]; try done.
    destruct (hex_value a) as [a'|] eqn:Ha; [|done].
    destruct (hex_value b) as [b'|] eqn:Hb; [|done].
    cbn [mbind option_bind].
    match goal with |- context [uuid_bytes n ?r] =>
      destruct (uuid_bytes n r) as [[ds' tail']|] eqn:Hrec end; [|done].
    cbn. intros [= <- <-]. apply IH in Hrec as [Hlen Hall].
    split; [cbn; lia|].
    constructor; [by eapply hex_value_lower|].
    constructor; [by eapply hex_value_lower|done].
Qed.

Lemma uuid_bytes_pair n a b c rest :
  lower_hex a → lower_hex b →
  uuid_bytes (S n) (String a (String b (String c rest))) =
    '(ds, tail) ← uuid_bytes n
       (if Nat.odd (15 - n) && Nat.ltb (15 - n) 15 && Ascii.eqb c "-"
        then rest else String c rest);
    Some (a :: b :: ds, tail).
Proof. intros Ha Hb. cbn [uuid_bytes]. rewrite Ha, Hb. reflexivity. Qed.

Lemma uuid_bytes_last a b :
  lower_hex a → lower_hex b →
  uuid_bytes 1 (String a (String b "")) = Some ([a; b], "").
Proof. intros Ha Hb. cbn [uuid_bytes]. rewrite Ha, Hb. reflexivity. Qed.

Ltac uuid_byte :=
  rewrite uuid_bytes_pair by assumption;
  cbn [Nat.sub Nat.odd Nat.even negb Nat.ltb Nat.leb andb];
  rewrite ?Ascii.eqb_refl, ?lower_hex_not_hyphen by assumption.

(** The printed form of a uuid reads back as itself. *)
Lemma uuid_in_printed ds :
  List.length ds = 32 → Forall lower_hex ds →
  uuid_in (uuid_out [8; 4; 4; 4] ds) = Some (uuid_out [8; 4; 4; 4] ds).
Proof.
  intros Hlen Hall.
  do 32 (destruct ds as [|? ds]; [discriminate Hlen|]).
  destruct ds; [|discriminate Hlen]. clear Hlen.
  repeat match goal with
  | H : Forall _ (_ :: _) |- _ => apply Forall_cons in H as [? H]
  end.
  cbv beta iota delta [uuid_out take drop string_of_list_ascii String.append].
  unfold uuid_in.
  rewrite lower_hex_not_brace by assumption.
  do 15 uuid_byte.
  rewrite uuid_bytes_last by assumption.
  reflexivity.
Qed.

Lemma uuid_in_idem s c : uuid_in s = Some c → uuid_in c = Some c.
Proof.
  unfold uuid_in at 1.
  destruct (uuid_bytes 16 _) as [[ds tail]|] eqn:Hb; [|done].
  cbn [mbind option_bind].
  match goal with |- context [if ?b then _ else Some tail] =>
    destruct (if b then _ else Some tail) as [tail'|] end; [|done].
  cbn [mbind option_bind].
  destruct (String.eqb tail' ""); [|done]. intros [= <-].
  apply uuid_bytes_digits in Hb as [Hlen Hall]. by apply uuid_in_printed.
Qed.

(** What [crypto.randomUUID()] returns is the printed form of a uuid. *)
Lemma uuid_in_uuid_of_bits r : uuid_in (uuid_of_bits r) = Some (uuid_of_bits r).
Proof.
  unfold uuid_of_bits.
  cbv beta iota delta [hex String.append].
  repeat match goal with
  | |- context [hex_digit ?n] =>
      let c := fresh "c" in
      let Hc := fresh "Hc" in
      pose proof (hex_digit_lower n) as Hc;
      generalize dependent (hex_digit n); intros c Hc
  end.
  assert (lower_hex "4") as Hfour by reflexivity.
  unfold uuid_in.
  rewrite lower_hex_not_brace by assumption.
  do 15 uuid_byte.
  rewrite uuid_bytes_last by assumption.
  reflexivity.
Qed.

(** ** Objects *)

Section objects.
Context `{JsNumber number}.
Implicit Types (o : object number) (v : option (value number)) (k : string).

Lemma lookup_set_opt k v o k' :
  set_opt k v o !! k' = if decide (k = k') then v else o !! k'.
Proof.
  unfold set_opt. destruct v.
  - apply lookup_insert.
  - rewrite lookup_delete. by case_decide.
Qed.

Lemma set_opt_id k o : set_opt k (o !! k) o = o.
Proof.
  apply map_eq. intros k'. rewrite lookup_set_opt. case_decide; congruence.
Qed.

Lemma or_else_settled v : settled_label (or_else v (JStr "")).
Proof.
  unfold settled_label, or_else.
  destruct v as [x|]; [|done].
  destruct (truthy (Some x)) eqn:E; [by rewrite E|done].
Qed.

Lemma array_or_empty_isArray v : isArray (Some (array_or_empty v)) = true.
Proof. by destruct v as [[]|]. Qed.

Lemma array_or_empty_id v : isArray v = true → Some (array_or_empty v) = v.
Proof. by destruct v as [[]|]. Qed.

Lemma normalizeIdea_obj o :
  normalizeIdea (JObj o) =
    Normal (literal o
      [("label", Some (or_else (o !! "label") (JStr "")));
       ("tags", Some (array_or_empty (o !! "tags")));
       ("attachments", Some (array_or_empty (o !! "attachments")));
       ("aiChat", Some (array_or_empty (o !! "aiChat")))]).
Proof. reflexivity. Qed.

Lemma normalized_iff o :
  normalized o ↔
    (∃ l, o !! "label" = Some l ∧ settled_label l) ∧
    isArray (o !! "tags") = true ∧ isArray (o !! "attachments") = true ∧
    isArray (o !! "aiChat") = true.
Proof.
  unfold normalized. rewrite normalizeIdea_obj. split.
  - intros E. injection E as E.
    pose proof (f_equal (.!! "label") E) as El.
    pose proof (f_equal (.!! "tags") E) as Et.
    pose proof (f_equal (.!! "attachments") E) as Ea.
    pose proof (f_equal (.!! "aiChat") E) as Ec.
    clear E. literal_unfold.
    rewrite ?lookup_set_opt, ?lookup_insert in El, Et, Ea, Ec. simpl in *.
    repeat split.
    + eexists. split; [symmetry; exact El|]. apply or_else_settled.
    + rewrite <- Et. apply array_or_empty_isArray.
    + rewrite <- Ea. apply array_or_empty_isArray.
    + rewrite <- Ec. apply array_or_empty_isArray.
  - intros [[l [El Sl]] [Et [Ea Ec]]]. f_equal.
    apply map_eq. intros k. literal_unfold.
    rewrite !lookup_set_opt.
    repeat case_decide; subst; rewrite ?array_or_empty_id by done; try done.
    rewrite El. f_equal. exact Sl.
Qed.
End objects.

(** ** Normalisation and the ideas document *)

Section file_store.
Context `{JsNumber number}.
Implicit Types (o i : object number) (w : world number) (id : string).

Lemma literal_normalized (b : object number) l t a c :
  normalized (literal b
    [("label", Some (or_else l (JStr "")));
     ("tags", Some (array_or_empty t));
     ("attachments", Some (array_or_empty a));
     ("aiChat", Some (array_or_empty c))]).
Proof.
  apply normalized_iff. literal_unfold.
  rewrite ?lookup_set_opt. simpl.
  repeat split; try apply array_or_empty_isArray.
  eexists. split; [done|]. apply or_else_settled.
Qed.

Lemma Normal_inj {A} (a b : A) : Normal a = Normal b → a = b.
Proof. congruence. Qed.

Lemma normalizeIdea_eq (v : value number) :
  v ≠ JNull →
  normalizeIdea v = Normal (literal (spread v)
      [("label", Some (or_else (prop v "label") (JStr "")));
       ("tags", Some (array_or_empty (prop v "tags")));
       ("attachments", Some (array_or_empty (prop v "attachments")));
       ("aiChat", Some (array_or_empty (prop v "aiChat")))]).
Proof. destruct v; [done|reflexivity..]. Qed.

(** Normalisation is idempotent. *)
Lemma normalizeIdea_normalized (v : value number) o :
  normalizeIdea v = Normal o → normalized o.
Proof.
  destruct v as [|b|n|s|xs|o']; [discriminate|..];
    (rewrite normalizeIdea_eq by done; intros E; apply Normal_inj in E;
     rewrite <- E; apply literal_normalized).
Qed.

Lemma mapM_normalizeIdea_normalized (xs : list (value number)) l :
  mapM normalizeIdea xs = Normal l → Forall normalized l.
Proof.
  revert l. induction xs as [|x xs IH]; simpl; intros l E.
  - injection E as <-. constructor.
  - destruct (normalizeIdea x) as [o|] eqn:Ex; [|discriminate].
    simpl in E. destruct (mapM normalizeIdea xs) as [l'|]; [|discriminate].
    injection E as <-. constructor; [|by apply IH].
    by eapply normalizeIdea_normalized.
Qed.

Lemma mapM_normalizeIdea_id (l : list (object number)) :
  Forall normalized l → mapM normalizeIdea (JObj <$> l) = Normal l.
Proof.
  induction 1 as [|o l Ho _ IH]; [done|].
  cbn [fmap list_fmap mapM]. fold (@fmap list _ _ _ (@JObj number) l).
  unfold normalized in Ho. rewrite Ho. simpl. rewrite IH. done.
Qed.

Lemma readIdeasFile_eq w : readIdeasFile w = Returned (file_ideas w) w.
Proof. reflexivity. Qed.

Lemma file_ideas_normalized w : Forall normalized (file_ideas w).
Proof.
  unfold file_ideas, readIdeasFile. js_run.
  destruct (DATA_FILE w) as [|[]]; try constructor.
  destruct (mapM normalizeIdea xs) eqn:E; [|constructor].
  by eapply mapM_normalizeIdea_normalized.
Qed.

Lemma file_ideas_written l w :
  Forall normalized l →
  file_ideas (set_DATA_FILE (Parsed (JArr (JObj <$> l))) w) = l.
Proof.
  intros Hl. unfold file_ideas, readIdeasFile. js_run.
  by rewrite mapM_normalizeIdea_id.
Qed.

(** ** [find] and [findIndex] *)

Lemma findIndex_find {A} (p : A → bool) (l : list A) n :
  findIndex p l = Some n → l !! n = find p l ∧ is_Some (find p l).
Proof.
  revert n. induction l as [|x l IH]; simpl; [done|]. intros n.
  destruct (p x); [intros [= <-]; eauto|].
  destruct (findIndex p l) as [m|]; [|done]. intros [= <-]. by apply IH.
Qed.

Lemma findIndex_None {A} (p : A → bool) (l : list A) :
  findIndex p l = None ↔ find p l = None.
Proof.
  induction l as [|x l IH]; simpl; [done|].
  destruct (p x); [done|]. destruct (findIndex p l); simpl; [|tauto].
  split; [done|]. intros E. by apply IH in E.
Qed.

Lemma find_Some {A} (p : A → bool) (l : list A) x :
  find p l = Some x → x ∈ l ∧ p x = true.
Proof.
  induction l as [|y l IH]; simpl; [done|].
  destruct (p y) eqn:E.
  - intros [= <-]. split; [left|done].
  - intros Hx. destruct (IH Hx). split; [by right|done].
Qed.


Lemma find_insert {A} (p : A → bool) (l : list A) n y :
  findIndex p l = Some n → p y = true → find p (<[n := y]> l) = Some y.
Proof.
  revert n. induction l as [|x l IH]; simpl; [done|]. intros n.
  destruct (p x) eqn:E.
  - intros [= <-] Hy. simpl. by rewrite Hy.
  - destruct (findIndex p l) as [m|]; [|done]. intros [= <-] Hy.
    simpl. rewrite E. by apply IH.
Qed.

Lemma find_fmap {A} (p : A → bool) (f : A → A) (l : list A) :
  (∀ x, p (f x) = p x) → find p (f <$> l) = f <$> find p l.
Proof.
  intros Hp. induction l as [|x l IH]; simpl; [done|].
  rewrite Hp. by destruct (p x).
Qed.
End file_store.

(** ** The functions, backend by backend *)

Section equations.
Context `{JsNumber number}.
Implicit Types (o i : object number) (w : world number) (id : string).

Lemma dbIdeaToApi_eq (row : object number) : dbIdeaToApi row = Normal (api row).
Proof. reflexivity. Qed.

Lemma api_normalized row : normalized (api row).
Proof. eapply normalizeIdea_normalized, dbIdeaToApi_eq. Qed.

Lemma mapM_dbIdeaToApi (l : list (object number)) :
  mapM dbIdeaToApi l = Normal (api <$> l).
Proof.
  induction l as [|x l IH]; [done|].
  cbn [mapM]. rewrite dbIdeaToApi_eq.
  cbn [mbind completion_bind]. fold (mapM dbIdeaToApi l). rewrite IH. done.
Qed.

Lemma listIdeas_file w :
  useSupabase w = false → listIdeas w = Returned (file_ideas w) w.
Proof. intros E. unfold listIdeas. js_run. by rewrite E. Qed.

Lemma listIdeas_supabase w :
  useSupabase w = true →
  listIdeas w =
    Returned ((λ kr, api (selected kr.1 kr.2)) <$>
                merge_sort newest_first (rows (ideas_table w))) w.
Proof.
  intros E. unfold listIdeas, ideas_select_ordered. js_run. rewrite E. simpl.
  by rewrite mapM_dbIdeaToApi, <- list_fmap_compose.
Qed.

Lemma getIdea_file w id :
  useSupabase w = false →
  getIdea id w = Returned (find (has_id id) (file_ideas w)) w.
Proof. intros E. unfold getIdea. js_run. by rewrite E. Qed.

Lemma getIdea_supabase w id c :
  useSupabase w = true →
  uuid_in id = Some c →
  getIdea id w =
    Returned ((λ r, api (selected c r)) <$> ideas_table w !! c) w.
Proof.
  intros E Hc. unfold getIdea, ideas_select_by_id. js_run. rewrite E. simpl.
  rewrite Hc. by destruct (ideas_table w !! c).
Qed.

Lemma getIdea_supabase_invalid w id :
  useSupabase w = true →
  uuid_in id = None →
  getIdea id w = Thrown invalid_uuid w.
Proof.
  intros E Hc. unfold getIdea, ideas_select_by_id. js_run. rewrite E. simpl.
  by rewrite Hc.
Qed.

(** What [getIdea] finds in the table is a row under the uuid that the
    id denotes. *)
Lemma getIdea_supabase_found w id e u :
  useSupabase w = true →
  getIdea id w = Returned (Some e) u →
  ∃ c old, uuid_in id = Some c ∧ uuid_in c = Some c ∧
           ideas_table w !! c = Some old ∧ e = api (selected c old).
Proof.
  intros E Hget. destruct (uuid_in id) as [c|] eqn:Hc.
  - rewrite (getIdea_supabase w id c) in Hget by done.
    destruct (ideas_table w !! c) as [old|] eqn:Hold; [|discriminate].
    exists c, old. split; [done|]. split; [by eapply uuid_in_idem|].
    split; [done|]. cbn [fmap option_fmap option_map] in Hget. congruence.
  - rewrite getIdea_supabase_invalid in Hget by done. discriminate.
Qed.
End equations.

(** ** Column mapping *)

Ltac lookup_step :=
  rewrite lookup_set_opt; case_decide; try congruence.

Ltac lookups := literal_unfold; repeat lookup_step; rewrite ?lookup_empty.

Section mapping.
Context `{JsNumber number}.
Implicit Types (o i row : object number) (k : string).

Lemma api_eq row :
  api row = literal (literal ∅
    [("id", row !! "id");
     ("title", row !! "title");
     ("description", row !! "description");
     ("status", row !! "status");
     ("label", row !! "label");
     ("tags", row !! "tags");
     ("attachments", row !! "attachments");
     ("aiChat", row !! "ai_chat");
     ("createdAt", row !! "created_at");
     ("updatedAt", row !! "updated_at")])
    [("label", Some (or_else (row !! "label") (JStr "")));
     ("tags", Some (array_or_empty (row !! "tags")));
     ("attachments", Some (array_or_empty (row !! "attachments")));
     ("aiChat", Some (array_or_empty (row !! "ai_chat")))].
Proof.
  unfold api, dbIdeaToApi. rewrite normalizeIdea_obj. cbn [default].
  f_equal. repeat f_equal; f_equal; f_equal; by lookups.
Qed.

Lemma api_id row : api row !! "id" = row !! "id".
Proof. rewrite api_eq. by lookups. Qed.
Lemma api_title row : api row !! "title" = row !! "title".
Proof. rewrite api_eq. by lookups. Qed.
Lemma api_description row : api row !! "description" = row !! "description".
Proof. rewrite api_eq. by lookups. Qed.
Lemma api_status row : api row !! "status" = row !! "status".
Proof. rewrite api_eq. by lookups. Qed.
Lemma api_createdAt row : api row !! "createdAt" = row !! "created_at".
Proof. rewrite api_eq. by lookups. Qed.
Lemma api_updatedAt row : api row !! "updatedAt" = row !! "updated_at".
Proof. rewrite api_eq. by lookups. Qed.
Lemma api_label row :
  api row !! "label" = Some (or_else (row !! "label") (JStr "")).
Proof. rewrite api_eq. by lookups. Qed.
Lemma api_tags row :
  api row !! "tags" = Some (array_or_empty (row !! "tags")).
Proof. rewrite api_eq. by lookups. Qed.
Lemma api_attachments row :
  api row !! "attachments" = Some (array_or_empty (row !! "attachments")).
Proof. rewrite api_eq. by lookups. Qed.
Lemma api_aiChat row :
  api row !! "aiChat" = Some (array_or_empty (row !! "ai_chat")).
Proof. rewrite api_eq. by lookups. Qed.

Lemma apiIdeaToDb_id i : apiIdeaToDb i !! "id" = i !! "id".
Proof. unfold apiIdeaToDb. by lookups. Qed.
Lemma apiIdeaToDb_title i : apiIdeaToDb i !! "title" = i !! "title".
Proof. unfold apiIdeaToDb. by lookups. Qed.
Lemma apiIdeaToDb_description i :
  apiIdeaToDb i !! "description" = i !! "description".
Proof. unfold apiIdeaToDb. by lookups. Qed.
Lemma apiIdeaToDb_status i : apiIdeaToDb i !! "status" = i !! "status".
Proof. unfold apiIdeaToDb. by lookups. Qed.
Lemma apiIdeaToDb_label i : apiIdeaToDb i !! "label" = i !! "label".
Proof. unfold apiIdeaToDb. by lookups. Qed.
Lemma apiIdeaToDb_tags i : apiIdeaToDb i !! "tags" = i !! "tags".
Proof. unfold apiIdeaToDb. by lookups. Qed.
Lemma apiIdeaToDb_attachments i :
  apiIdeaToDb i !! "attachments" = i !! "attachments".
Proof. unfold apiIdeaToDb. by lookups. Qed.
Lemma apiIdeaToDb_ai_chat i : apiIdeaToDb i !! "ai_chat" = i !! "aiChat".
Proof. unfold apiIdeaToDb. by lookups. Qed.
Lemma apiIdeaToDb_created_at i :
  apiIdeaToDb i !! "created_at" = i !! "createdAt".
Proof. unfold apiIdeaToDb. by lookups. Qed.
Lemma apiIdeaToDb_updated_at i :
  apiIdeaToDb i !! "updated_at" = i !! "updatedAt".
Proof. unfold apiIdeaToDb. by lookups. Qed.
End mapping.


(** ** The rows of the ideas table *)

Section table.
Context `{JsNumber number}.
Implicit Types (o i : object number) (w : world number) (id c : string).
Implicit Types (r old : row number).

Lemma or_else_text (s : string) :
  or_else (Some (@JStr number s)) (JStr "") = JStr s.
Proof.
  unfold or_else, truthy. destruct (String.eqb s "") eqn:Es; [|done].
  apply String.eqb_eq in Es. by subst.
Qed.

Lemma listed_ideas_file w :
  useSupabase w = false → listed_ideas w = file_ideas w.
Proof. intros E. unfold listed_ideas. by rewrite listIdeas_file. Qed.

Lemma listed_ideas_supabase w :
  useSupabase w = true →
  listed_ideas w =
    (λ kr, api (selected kr.1 kr.2)) <$>
      merge_sort newest_first (rows (ideas_table w)).
Proof. intros E. unfold listed_ideas. by rewrite listIdeas_supabase. Qed.

Lemma elem_of_rows (t : gmap string (row number)) c r :
  (c, r) ∈ rows t ↔ uuid_in c = Some c ∧ t !! c = Some r.
Proof.
  unfold rows. rewrite list_elem_of_In, filter_In, <- list_elem_of_In.
  rewrite elem_of_map_to_list, bool_decide_eq_true. cbn [fst]. tauto.
Qed.

Lemma elem_of_listed_supabase w i :
  useSupabase w = true →
  i ∈ listed_ideas w ↔
    ∃ c r, uuid_in c = Some c ∧ ideas_table w !! c = Some r ∧
           i = api (selected c r).
Proof.
  intros E. rewrite listed_ideas_supabase by done.
  rewrite list_elem_of_fmap. split.
  - intros ([c r] & -> & Hin). rewrite merge_sort_Permutation in Hin.
    apply elem_of_rows in Hin as [Hc Hr]. by exists c, r.
  - intros (c & r & Hc & Hr & ->). exists (c, r). split; [done|].
    rewrite merge_sort_Permutation. by apply elem_of_rows.
Qed.

(** The record [dbIdeaToApi] makes of a stored row, field by field. *)
Lemma read_id c r : api (selected c r) !! "id" = Some (JStr c).
Proof. rewrite api_id. unfold selected. by lookups. Qed.

Lemma read_title c r : api (selected c r) !! "title" = Some (JStr (title r)).
Proof. rewrite api_title. unfold selected. by lookups. Qed.

Lemma read_description c r :
  api (selected c r) !! "description" = Some (JStr (description r)).
Proof. rewrite api_description. unfold selected. by lookups. Qed.

Lemma read_status c r : api (selected c r) !! "status" = Some (JStr (status r)).
Proof. rewrite api_status. unfold selected. by lookups. Qed.

Lemma read_label c r : api (selected c r) !! "label" = Some (JStr (label r)).
Proof.
  rewrite api_label.
  assert (selected c r !! "label" = Some (JStr (label r))) as ->
    by (unfold selected; by lookups).
  by rewrite or_else_text.
Qed.

Lemma read_tags c r :
  api (selected c r) !! "tags" = Some (array_or_empty (Some (tags r))).
Proof.
  rewrite api_tags.
  assert (selected c r !! "tags" = Some (tags r)) as ->
    by (unfold selected; by lookups).
  done.
Qed.

Lemma read_attachments c r :
  api (selected c r) !! "attachments" =
    Some (array_or_empty (Some (attachments r))).
Proof.
  rewrite api_attachments.
  assert (selected c r !! "attachments" = Some (attachments r)) as ->
    by (unfold selected; by lookups).
  done.
Qed.

Lemma read_aiChat c r :
  api (selected c r) !! "aiChat" = Some (array_or_empty (Some (ai_chat r))).
Proof.
  rewrite api_aiChat.
  assert (selected c r !! "ai_chat" = Some (ai_chat r)) as ->
    by (unfold selected; by lookups).
  done.
Qed.

Lemma read_createdAt c r :
  api (selected c r) !! "createdAt" = Some (JStr (created_at r)).
Proof. rewrite api_createdAt. unfold selected. by lookups. Qed.

Lemma read_updatedAt c r :
  api (selected c r) !! "updatedAt" = Some (JStr (updated_at r)).
Proof. rewrite api_updatedAt. unfold selected. by lookups. Qed.


Lemma has_id_selected_iff id c r :
  has_id id (api (selected c r)) = true ↔ id = c.
Proof.
  unfold has_id. rewrite read_id. simpl. rewrite String.eqb_eq. naive_solver.
Qed.

Lemma has_label_selected name c r :
  has_label name (api (selected c r)) = String.eqb (label r) name.
Proof. unfold has_label. by rewrite read_label. Qed.
End table.

(** ** Conversions to text *)

Section texts.
Context `{JsNumber number}.
Implicit Types (v x : value number) (p old : option (value number)).
Implicit Types (payload : value number).

Lemma printable_text v : printable v = true → ToString v = Normal (text v).
Proof. unfold printable, text. by destruct (ToString v). Qed.

Lemma printable_Normal v s : ToString v = Normal s → printable v = true.
Proof. unfold printable. by intros ->. Qed.

Lemma text_Normal v s : ToString v = Normal s → text v = s.
Proof. unfold text. by intros ->. Qed.

Lemma unprintable_throws v : printable v = false → ∃ e, ToString v = Abrupt e.
Proof. unfold printable. destruct (ToString v); [done|eauto]. Qed.

Lemma trimmed_or_printable p old :
  match p with Some v => printable v | None => true end = true →
  trimmed_or p old = Normal (trimmed_text p old).
Proof.
  destruct p as [v|]; [|done]. intros Hv%printable_text.
  cbn [trimmed_or trimmed_text]. by rewrite Hv.
Qed.

Lemma trimmed_or_unprintable v old :
  printable v = false → ∃ e, trimmed_or (Some v) old = Abrupt e.
Proof.
  intros [e He]%unprintable_throws. exists e. cbn [trimmed_or]. by rewrite He.
Qed.

Lemma text_or_empty_printable p :
  printable (or_else p (JStr "")) = true →
  text_or_empty p = Normal (blank_or_text p).
Proof.
  intros Hv%printable_text. unfold text_or_empty, blank_or_text.
  by rewrite Hv.
Qed.

Lemma text_or_empty_unprintable p :
  printable (or_else p (JStr "")) = false →
  ∃ e, text_or_empty p = Abrupt e.
Proof.
  intros [e He]%unprintable_throws. exists e. unfold text_or_empty.
  by rewrite He.
Qed.

Lemma get_prop payload k :
  payload ≠ JNull → get payload k = Normal (prop payload k).
Proof. by destruct payload. Qed.

(** A text that has been trimmed is a text. *)
Lemma trimmed_text_text p (s : string) :
  is_text (trimmed_text p (Some (JStr s))) = true.
Proof. by destruct p. Qed.
End texts.

(** ** [updateIdea] *)

Section update.
Context `{JsNumber number}.
Implicit Types (o i : object number) (w : world number) (id c : string).
Implicit Types (payload : value number) (r old : row number).


Lemma lift_Normal {A B} (a : A) (k : A → js number B) w :
  (lift (Normal a) ≫= k) w = k a w.
Proof. reflexivity. Qed.

Ltac lift_step := rewrite lift_Normal; cbv beta.

Lemma merge_eq existing payload w :
  payload ≠ JNull →
  update_texts payload = true →
  merge existing payload w = Returned (merged existing payload (now w)) (tick w).
Proof.
  intros Hp Ht. unfold update_texts, printable_field in Ht.
  apply andb_true_iff in Ht as [Ht Hl]. apply andb_true_iff in Ht as [Ht Hd].
  unfold merge. rewrite !get_prop by done.
  lift_step. rewrite (trimmed_or_printable (prop payload "title")) by done.
  do 2 lift_step.
  rewrite (trimmed_or_printable (prop payload "description")) by done.
  do 3 lift_step.
  rewrite (trimmed_or_printable (prop payload "label")) by done.
  reflexivity.
Qed.

Lemma merge_null existing w : merge existing JNull w = Thrown TypeError w.
Proof. reflexivity. Qed.

(** When a conversion throws, [merge] throws before the clock is read. *)
Lemma merge_throws existing payload w :
  payload ≠ JNull →
  update_texts payload = false →
  ∃ e, merge existing payload w = Thrown e w.
Proof.
  intros Hp Ht. unfold update_texts, printable_field in Ht.
  unfold merge. rewrite !get_prop by done. lift_step.
  destruct (prop payload "title") as [t|] eqn:Et;
    [destruct (printable t) eqn:Pt|].
  2: { destruct (trimmed_or_unprintable t (existing !! "title") Pt) as [e ->].
       by exists e. }
  all: rewrite (trimmed_or_printable _ (existing !! "title")) by done;
    do 2 lift_step;
    (destruct (prop payload "description") as [d|] eqn:Ed;
      [destruct (printable d) eqn:Pd|]).
  all: try (destruct (trimmed_or_unprintable d (existing !! "description") Pd)
              as [e ->]; by exists e).
  all: rewrite (trimmed_or_printable _ (existing !! "description")) by done;
    do 3 lift_step;
    (destruct (prop payload "label") as [l|] eqn:El; [|done]);
    cbn [andb] in Ht;
    destruct (trimmed_or_unprintable l (existing !! "label") Ht) as [e ->];
    by exists e.
Qed.

Lemma merged_normalized existing payload stamp :
  normalized (merged existing payload stamp).
Proof. apply literal_normalized. Qed.

Lemma updateIdea_file_absent w id payload :
  useSupabase w = false →
  find (has_id id) (file_ideas w) = None →
  updateIdea id payload w = Returned None w.
Proof.
  intros E Hf. apply findIndex_None in Hf.
  unfold updateIdea. unfold mbind at 1, js_bind at 1, reads. rewrite E. cbn [negb].
  unfold mbind at 1, js_bind at 1. rewrite readIdeasFile_eq.
  by rewrite Hf.
Qed.

Lemma updateIdea_file_step w id payload idx current :
  useSupabase w = false →
  findIndex (has_id id) (file_ideas w) = Some idx →
  file_ideas w !! idx = Some current →
  updateIdea id payload w =
    (merged ← merge current payload;
     writeIdeasFile (<[idx := merged]> (file_ideas w));;
     mret (Some merged)) w.
Proof.
  intros E Hidx Hcur.
  unfold updateIdea. unfold mbind at 1, js_bind at 1, reads. rewrite E. cbn [negb].
  unfold mbind at 1, js_bind at 1. rewrite readIdeasFile_eq.
  by rewrite Hidx, Hcur.
Qed.

Lemma updateIdea_file_found w id payload idx current :
  useSupabase w = false →
  findIndex (has_id id) (file_ideas w) = Some idx →
  file_ideas w !! idx = Some current →
  payload ≠ JNull →
  update_texts payload = true →
  let m := merged current payload (now w) in
  updateIdea id payload w =
    Returned (Some m)
      (set_DATA_FILE (Parsed (JArr (JObj <$> <[idx := m]> (file_ideas w))))
         (tick w)).
Proof.
  intros E Hidx Hcur Hp Ht m.
  rewrite (updateIdea_file_step w id payload idx current) by done.
  unfold mbind at 1, js_bind at 1. rewrite merge_eq by done.
  reflexivity.
Qed.

Lemma updateIdea_supabase_invalid w id payload :
  useSupabase w = true →
  uuid_in id = None →
  updateIdea id payload w = Thrown invalid_uuid w.
Proof.
  intros E Hc.
  unfold updateIdea. unfold mbind at 1, js_bind at 1, reads. rewrite E. cbn [negb].
  unfold mbind at 1, js_bind at 1.
  by rewrite getIdea_supabase_invalid.
Qed.


Lemma updateIdea_supabase_step w id c old payload :
  useSupabase w = true →
  uuid_in id = Some c →
  ideas_table w !! c = Some old →
  updateIdea id payload w =
    (merged ← merge (api (selected c old)) payload;
     data ← ideas_update (apiIdeaToDb merged) id;
     idea ← lift (dbIdeaToApi data);
     mret (Some idea)) w.
Proof.
  intros E Hc Hold.
  unfold updateIdea. unfold mbind at 1, js_bind at 1, reads. rewrite E. cbn [negb].
  unfold mbind at 1, js_bind at 1. rewrite (getIdea_supabase w id c) by done.
  by rewrite Hold.
Qed.

(** On the table, [updateIdea] of a row that is there either stores the
    row the database makes of the merged record, or throws the database's
    error after the clock has been read. *)
Lemma updateIdea_supabase_found w id c old payload :
  useSupabase w = true →
  uuid_in id = Some c →
  ideas_table w !! c = Some old →
  payload ≠ JNull →
  update_texts payload = true →
  let m := merged (api (selected c old)) payload (now w) in
  updateIdea id payload w =
    match updated_row (JSON_text w) (apiIdeaToDb m) c old with
    | Abrupt e => Thrown e (tick w)
    | Normal (c', new) =>
        if bool_decide (c' = c) then
          Returned (Some (api (selected c new)))
            (set_ideas_table (<[c := new]> (ideas_table w)) (tick w))
        else
          match ideas_table w !! c' with
          | Some _ => Thrown duplicate_key (tick w)
          | None =>
              Returned (Some (api (selected c' new)))
                (set_ideas_table
                   (<[c' := new]> (delete c (ideas_table w))) (tick w))
          end
    end.
Proof.
  intros E Hc Hold Hp Ht m.
  rewrite (updateIdea_supabase_step w id c old) by done.
  unfold mbind at 1, js_bind at 1. rewrite merge_eq by done. fold m.
  unfold mbind at 1, js_bind at 1. unfold ideas_update.
  rewrite Hc. cbn [ideas_table tick JSON_text]. rewrite Hold.
  destruct (updated_row (JSON_text w) (apiIdeaToDb m) c old) as [[c' new]|e];
    [|done].
  destruct (bool_decide (c' = c)).
  - by rewrite dbIdeaToApi_eq.
  - destruct (ideas_table w !! c'); [done|]. by rewrite dbIdeaToApi_eq.
Qed.
End update.

(** ** The fields of a record read from a row and of a merged record *)

Section fields.
Context `{JsNumber number}.
Implicit Types (e row : object number) (p : value number) (t : string).

Lemma api_other row k : k ∉ idea_fields → api row !! k = None.
Proof.
  intros Hk. rewrite api_eq. unfold idea_fields in Hk.
  rewrite !not_elem_of_cons in Hk.
  destruct Hk as (?&?&?&?&?&?&?&?&?&?&_).
  by lookups.
Qed.

Lemma api_plain row : plain (api row).
Proof. intros k Hk. by apply api_other. Qed.

Lemma merged_title e p t :
  merged e p t !! "title" = trimmed_text (prop p "title") (e !! "title").
Proof. unfold merged. by lookups. Qed.

Lemma merged_description e p t :
  merged e p t !! "description" =
    trimmed_text (prop p "description") (e !! "description").
Proof. unfold merged. by lookups. Qed.

Lemma merged_status e p t :
  merged e p t !! "status" = given_or (prop p "status") (e !! "status").
Proof. unfold merged. by lookups. Qed.

Lemma merged_label e p t :
  merged e p t !! "label" =
    Some (or_else (trimmed_text (prop p "label") (e !! "label")) (JStr "")).
Proof. unfold merged. by lookups. Qed.

Lemma merged_tags e p t :
  merged e p t !! "tags" =
    Some (array_or_empty (given_or (prop p "tags") (e !! "tags"))).
Proof. unfold merged. by lookups. Qed.

Lemma merged_attachments e p t :
  merged e p t !! "attachments" =
    Some (array_or_empty
            (given_or (prop p "attachments") (e !! "attachments"))).
Proof. unfold merged. by lookups. Qed.

Lemma merged_aiChat e p t :
  merged e p t !! "aiChat" =
    Some (array_or_empty (given_or (prop p "aiChat") (e !! "aiChat"))).
Proof. unfold merged. by lookups. Qed.

Lemma merged_updatedAt e p t : merged e p t !! "updatedAt" = Some (JStr t).
Proof. unfold merged. by lookups. Qed.

Lemma merged_other e p t k :
  k ∉ ["title"; "description"; "status"; "label"; "tags"; "attachments";
       "aiChat"; "updatedAt"] →
  merged e p t !! k = e !! k.
Proof.
  intros Hk. rewrite !not_elem_of_cons in Hk.
  destruct Hk as (?&?&?&?&?&?&?&?&_).
  unfold merged. by lookups.
Qed.

Lemma merged_id e p t : merged e p t !! "id" = e !! "id".
Proof.
  apply merged_other. rewrite !not_elem_of_cons. repeat split; try done.
  apply not_elem_of_nil.
Qed.

Lemma merged_createdAt e p t : merged e p t !! "createdAt" = e !! "createdAt".
Proof.
  apply merged_other. rewrite !not_elem_of_cons. repeat split; try done.
  apply not_elem_of_nil.
Qed.

Lemma merged_plain e p t : plain e → plain (merged e p t).
Proof.
  intros He k Hk. rewrite merged_other; [by apply He|].
  unfold idea_fields in Hk. rewrite !not_elem_of_cons in *. tauto.
Qed.
End fields.

(** ** What the table makes of a record *)

Section stored.
Context `{JsNumber number}.
Implicit Types (o i m : object number) (w : world number) (id c : string).
Implicit Types (payload : value number) (r old : row number).
Implicit Types (v : option (value number)).

Lemma text_column_not_null print missing v :
  not_null v = true →
  ∃ x, v = Some x ∧ text_column print missing v = Normal (column_text print x).
Proof. destruct v as [[]|]; try done; eauto. Qed.

Lemma text_column_text print missing v :
  is_text v = true →
  ∃ s, v = Some (JStr s) ∧ text_column print missing v = Normal s.
Proof. destruct v as [[]|]; try done; eauto. Qed.

Lemma jsonb_column_array missing v :
  isArray v = true →
  ∃ xs, v = Some (JArr xs) ∧ jsonb_column missing v = Normal (JArr xs).
Proof. destruct v as [[]|]; try done; eauto. Qed.

Lemma timestamptz_column_text missing v :
  is_text v = true →
  ∃ s, v = Some (JStr s) ∧ timestamptz_column missing v = Normal s.
Proof. destruct v as [[]|]; try done; eauto. Qed.

Lemma as_stored_title w i :
  as_stored w i !! "title" = as_text w <$> i !! "title".
Proof. unfold as_stored. by lookups. Qed.

Lemma as_stored_status w i :
  as_stored w i !! "status" = as_text w <$> i !! "status".
Proof. unfold as_stored. by lookups. Qed.

Lemma as_stored_other w i k :
  k ≠ "title" → k ≠ "status" → as_stored w i !! k = i !! k.
Proof. intros ? ?. unfold as_stored. by lookups. Qed.

Lemma as_text_text w (s : string) : as_text w (JStr s) = JStr s.
Proof. done. Qed.

(** A record whose title and status are texts is stored as it is. *)
Lemma as_stored_id w i :
  is_text (i !! "title") = true → is_text (i !! "status") = true →
  as_stored w i = i.
Proof.
  intros Ht Hs. apply map_eq. intros k.
  destruct (decide (k = "title")) as [->|Hkt].
  { rewrite as_stored_title. by destruct (i !! "title") as [[]|]. }
  destruct (decide (k = "status")) as [->|Hks].
  { rewrite as_stored_status. by destruct (i !! "status") as [[]|]. }
  by apply as_stored_other.
Qed.


(** The record read back from the row that is made of an accepted record
    is that record with its title and status as texts. *)
Lemma read_back w m c t d s l g a ch ca ua :
  plain m →
  m !! "id" = Some (JStr c) →
  m !! "title" = Some t → m !! "description" = Some (JStr d) →
  m !! "status" = Some s → m !! "label" = Some (JStr l) →
  m !! "tags" = Some (JArr g) → m !! "attachments" = Some (JArr a) →
  m !! "aiChat" = Some (JArr ch) →
  m !! "createdAt" = Some (JStr ca) → m !! "updatedAt" = Some (JStr ua) →
  api (selected c
         (Row (column_text (JSON_text w) t) d (column_text (JSON_text w) s) l
              (JArr g) (JArr a) (JArr ch) ca ua))
    = as_stored w m.
Proof.
  intros Hplain Hid Ht Hd Hs Hl Hg Ha Hch Hca Hua.
  apply map_eq. intros k.
  destruct (decide (k ∈ idea_fields)) as [Hk|Hk].
  - unfold idea_fields in Hk. rewrite !elem_of_cons in Hk.
    destruct Hk as [->|[->|[->|[->|[->|[->|[->|[->|[->|[->|Hk]]]]]]]]]];
      [..|by apply elem_of_nil in Hk].
    + by rewrite read_id, as_stored_other, Hid.
    + by rewrite read_title, as_stored_title, Ht.
    + by rewrite read_description, as_stored_other, Hd.
    + by rewrite read_status, as_stored_status, Hs.
    + by rewrite read_label, as_stored_other, Hl.
    + by rewrite read_tags, as_stored_other, Hg.
    + by rewrite read_attachments, as_stored_other, Ha.
    + by rewrite read_aiChat, as_stored_other, Hch.
    + by rewrite read_createdAt, as_stored_other, Hca.
    + by rewrite read_updatedAt, as_stored_other, Hua.
  - rewrite api_other by done. symmetry.
    rewrite as_stored_other.
    + by apply Hplain.
    + intros ->. apply Hk. unfold idea_fields. set_solver.
    + intros ->. apply Hk. unfold idea_fields. set_solver.
Qed.

Lemma updated_row_accepted w m c old :
  uuid_in c = Some c → accepted m c → plain m →
  ∃ new,
    updated_row (JSON_text w) (apiIdeaToDb m) c old = Normal (c, new) ∧
    api (selected c new) = as_stored w m.
Proof.
  intros Hc (Hid & Ht & Hd & Hs & Hl & Hg & Ha & Hch & Hca & Hua) Hplain.
  destruct (text_column_not_null (JSON_text w) (Some (title old)) _ Ht)
    as (t & Et & Ct).
  destruct (text_column_text (JSON_text w) (Some (description old)) _ Hd)
    as (d & Ed & Cd).
  destruct (text_column_not_null (JSON_text w) (Some (status old)) _ Hs)
    as (s & Es & Cs).
  destruct (text_column_text (JSON_text w) (Some (label old)) _ Hl)
    as (l & El & Cl).
  destruct (jsonb_column_array (Some (tags old)) _ Hg) as (g & Eg & Cg).
  destruct (jsonb_column_array (Some (attachments old)) _ Ha) as (a & Ea & Ca).
  destruct (jsonb_column_array (Some (ai_chat old)) _ Hch) as (ch & Ech & Cch).
  destruct (timestamptz_column_text (Some (created_at old)) _ Hca)
    as (ca & Eca & Cca).
  destruct (timestamptz_column_text (Some (updated_at old)) _ Hua)
    as (ua & Eua & Cua).
  eexists. split.
  - unfold updated_row.
    rewrite apiIdeaToDb_id, apiIdeaToDb_title, apiIdeaToDb_description,
      apiIdeaToDb_status, apiIdeaToDb_label, apiIdeaToDb_tags,
      apiIdeaToDb_attachments, apiIdeaToDb_ai_chat, apiIdeaToDb_created_at,
      apiIdeaToDb_updated_at.
    rewrite Hid. cbn [uuid_column]. rewrite Hc.
    rewrite Ct, Cd, Cs, Cl, Cg, Ca, Cch, Cca, Cua. reflexivity.
  - by apply read_back.
Qed.

Lemma inserted_row_accepted w m c :
  uuid_in c = Some c → accepted m c → plain m →
  ∃ new,
    inserted_row (JSON_text w) (apiIdeaToDb m) = Normal (c, new) ∧
    api (selected c new) = as_stored w m.
Proof.
  intros Hc (Hid & Ht & Hd & Hs & Hl & Hg & Ha & Hch & Hca & Hua) Hplain.
  destruct (text_column_not_null (JSON_text w) None _ Ht) as (t & Et & Ct).
  destruct (text_column_text (JSON_text w) (Some "") _ Hd) as (d & Ed & Cd).
  destruct (text_column_not_null (JSON_text w) (Some "new") _ Hs)
    as (s & Es & Cs).
  destruct (text_column_text (JSON_text w) (Some "") _ Hl) as (l & El & Cl).
  destruct (jsonb_column_array (Some (JArr [])) _ Hg) as (g & Eg & Cg).
  destruct (jsonb_column_array (Some (JArr [])) _ Ha) as (a & Ea & Ca).
  destruct (jsonb_column_array (Some (JArr [])) _ Hch) as (ch & Ech & Cch).
  destruct (timestamptz_column_text None _ Hca) as (ca & Eca & Cca).
  destruct (timestamptz_column_text None _ Hua) as (ua & Eua & Cua).
  eexists. split.
  - unfold inserted_row.
    rewrite apiIdeaToDb_id, apiIdeaToDb_title, apiIdeaToDb_description,
      apiIdeaToDb_status, apiIdeaToDb_label, apiIdeaToDb_tags,
      apiIdeaToDb_attachments, apiIdeaToDb_ai_chat, apiIdeaToDb_created_at,
      apiIdeaToDb_updated_at.
    rewrite Hid. cbn [uuid_column]. rewrite Hc.
    rewrite Ct, Cd, Cs, Cl, Cg, Ca, Cch, Cca, Cua. reflexivity.
  - by apply read_back.
Qed.
End stored.

(** ** What [updateIdea] returns and stores *)

Section results.
Context `{JsNumber number}.
Implicit Types (o i m e : object number) (w : world number) (id c : string).
Implicit Types (payload : value number) (r old : row number).

Lemma trimmed_text_is_text p (s : string) :
  is_text (trimmed_text p (Some (JStr s))) = true.
Proof. by destruct p. Qed.

Lemma or_else_trimmed_text p (s : string) :
  is_text (Some (or_else (trimmed_text p (Some (JStr s))) (JStr ""))) = true.
Proof.
  destruct p as [v|]; cbn [trimmed_text].
  - by destruct (trim (text v)).
  - by destruct s.
Qed.

(** The table accepts the record merged over a row of its own, unless the
    payload sets the status to [null]. *)
Lemma merged_accepted c old payload stamp :
  prop payload "status" ≠ Some JNull →
  accepted (merged (api (selected c old)) payload stamp) c.
Proof.
  intros Hs. unfold accepted.
  rewrite merged_id, merged_title, merged_description, merged_status,
    merged_label, merged_tags, merged_attachments, merged_aiChat,
    merged_createdAt, merged_updatedAt.
  rewrite read_id, read_title, read_description, read_status, read_label,
    read_createdAt.
  repeat split; try done.
  - destruct (prop payload "title"); done.
  - apply trimmed_text_is_text.
  - destruct (prop payload "status") as [[]|]; done.
  - apply or_else_trimmed_text.
  - apply array_or_empty_isArray.
  - apply array_or_empty_isArray.
  - apply array_or_empty_isArray.
Qed.

(** On the table, an update the database accepts returns and stores the
    merged record with its status as a text. *)
Lemma updateIdea_supabase_stored w id c old payload :
  useSupabase w = true →
  uuid_in id = Some c →
  uuid_in c = Some c →
  ideas_table w !! c = Some old →
  payload ≠ JNull →
  update_texts payload = true →
  prop payload "status" ≠ Some JNull →
  let m := merged (api (selected c old)) payload (now w) in
  ∃ new,
    api (selected c new) = as_stored w m ∧
    updateIdea id payload w =
      Returned (Some (as_stored w m))
        (set_ideas_table (<[c := new]> (ideas_table w)) (tick w)).
Proof.
  intros E Hc Hcc Hold Hp Ht Hs m.
  destruct (updated_row_accepted w m c old Hcc) as (new & Hrow & Hback).
  { by apply merged_accepted. }
  { apply merged_plain, api_plain. }
  exists new. split; [done|].
  rewrite (updateIdea_supabase_found w id c old) by done. fold m.
  rewrite Hrow. rewrite bool_decide_true by done. by rewrite Hback.
Qed.

(** For an idea [getIdea] finds and a payload that is not [null], whose
    texts can be printed and which the table accepts, [updateIdea] returns
    the merged record as the store keeps it, and [getIdea] returns it
    afterwards. *)
Lemma updateIdea_found w id payload e :
  getIdea id w = Returned (Some e) w →
  payload ≠ JNull →
  update_texts payload = true →
  (useSupabase w = true → prop payload "status" ≠ Some JNull) →
  ∃ w',
    updateIdea id payload w =
      Returned (Some (recorded w (merged e payload (now w)))) w' ∧
    getIdea id w' = Returned (Some (recorded w (merged e payload (now w)))) w' ∧
    useSupabase w' = useSupabase w ∧
    clock_reads w' = S (clock_reads w) ∧
    JSON_text w' = JSON_text w.
Proof.
  intros Hget Hp Ht Hs. unfold recorded. destruct (useSupabase w) eqn:E.
  - destruct (getIdea_supabase_found w id e w E Hget)
      as (c & old & Hc & Hcc & Hold & ->).
    destruct (updateIdea_supabase_stored w id c old payload)
      as (new & Hback & Hupd); try done. { by apply Hs. }
    eexists. split; [exact Hupd|]. split; [|done].
    rewrite (getIdea_supabase _ id c) by done.
    cbn [ideas_table set_ideas_table].
    rewrite lookup_insert_eq. cbn [fmap option_fmap option_map].
    by rewrite Hback.
  - rewrite getIdea_file in Hget by done.
    assert (find (has_id id) (file_ideas w) = Some e) as Hfind by congruence.
    destruct (findIndex (has_id id) (file_ideas w)) as [idx|] eqn:Hidx.
    2: { apply findIndex_None in Hidx. congruence. }
    destruct (findIndex_find _ _ _ Hidx) as [Hcur _]. rewrite Hfind in Hcur.
    eexists. split; [by rewrite (updateIdea_file_found w id payload idx e)|].
    split; [|done].
    + rewrite getIdea_file by done. f_equal.
      rewrite file_ideas_written.
      * apply find_insert; [done|].
        apply find_Some in Hfind as [_ Hid]. unfold has_id in *.
        by rewrite merged_id.
      * apply Forall_insert; [apply file_ideas_normalized|].
        apply merged_normalized.
Qed.

Lemma getIdea_same_world w id res w' :
  getIdea id w = Returned res w' → w' = w.
Proof.
  destruct (useSupabase w) eqn:E.
  - destruct (uuid_in id) as [c|] eqn:Hc.
    + rewrite (getIdea_supabase w id c) by done. congruence.
    + rewrite getIdea_supabase_invalid by done. discriminate.
  - rewrite getIdea_file by done. congruence.
Qed.

(** A record [getIdea] returns is normalised, and on the table its title
    and its status are texts. *)
Lemma getIdea_normalized w id e u :
  getIdea id w = Returned (Some e) u → normalized e.
Proof.
  intros Hget. destruct (useSupabase w) eqn:E.
  - destruct (getIdea_supabase_found w id e u E Hget)
      as (c & old & _ & _ & _ & ->). apply api_normalized.
  - rewrite getIdea_file in Hget by done.
    assert (find (has_id id) (file_ideas w) = Some e) as Hfind by congruence.
    apply find_Some in Hfind as [Hin _].
    pose proof (file_ideas_normalized w) as Hall.
    rewrite Forall_forall in Hall. by apply Hall.
Qed.

Lemma getIdea_texts w id e u :
  useSupabase w = true →
  getIdea id w = Returned (Some e) u →
  is_text (e !! "title") = true ∧ is_text (e !! "status") = true.
Proof.
  intros E Hget.
  destruct (getIdea_supabase_found w id e u E Hget)
    as (c & old & _ & _ & _ & ->).
  by rewrite read_title, read_status.
Qed.
End results.

Section empty_update.
Context `{JsNumber number}.
Implicit Types (o i row e : object number) (w : world number) (id : string).

Lemma or_else_settled_id (l : value number) :
  settled_label l → or_else (Some l) (JStr "") = l.
Proof. done. Qed.

(** With an empty payload the merged record is the existing one with a new
    [updatedAt]. *)
Lemma merged_empty e stamp :
  normalized e →
  merged e (JObj ∅) stamp = <["updatedAt" := JStr stamp]> e.
Proof.
  intros [[l [El Sl]] [Et [Ea Ec]]]%normalized_iff.
  apply map_eq. intros k. unfold merged, prop.
  rewrite !lookup_empty. cbn [trimmed_text given_or].
  rewrite lookup_insert.
  lookups; repeat case_decide; subst; try congruence;
    rewrite ?El, ?Sl, ?array_or_empty_id; done.
Qed.
End empty_update.

Section claims_lookup.
Context `{JsNumber number}.
Implicit Types (o i e : object number) (w : world number) (id c : string).


End claims_lookup.

Section claim_C4.
Context `{JsNumber number}.
Implicit Types (o i row e old : object number) (w : world number) (id : string).

(** C4: for an existing idea, [updateIdea(id, {})] returns and stores the
    record [getIdea(id)] returned before with [updatedAt] set to the clock
    reading; every other field, known or not, is the one it was. *)
Theorem updateIdea_empty_payload w id existing :
  getIdea id w = Returned (Some existing) w →
  ∃ updated w',
    updateIdea id (JObj ∅) w = Returned (Some updated) w' ∧
    (∀ k, k ≠ "updatedAt" → updated !! k = existing !! k) ∧
    updated !! "updatedAt" = Some (JStr (now w)) ∧
    getIdea id w' = Returned (Some updated) w'.
Proof.
  intros Hget.
  destruct (updateIdea_found w id (JObj ∅) existing Hget)
    as (w' & Hupd & Hget' & _); [done|done|done|].
  assert (recorded w (merged existing (JObj ∅) (now w))
          = <["updatedAt" := JStr (now w)]> existing) as Hrec.
  { rewrite merged_empty by (by eapply getIdea_normalized).
    unfold recorded. destruct (useSupabase w) eqn:E; [|done].
    destruct (getIdea_texts w id existing w E Hget) as [Ht Hs].
    apply as_stored_id; by rewrite lookup_insert_ne. }
  rewrite Hrec in Hupd, Hget'.
  exists (<["updatedAt" := JStr (now w)]> existing), w'.
  repeat split; [done| |by rewrite lookup_insert_eq|done].
  intros k Hk. by rewrite lookup_insert_ne.
Qed.
End claim_C4.

(** ** Labels *)

Section labels.
Context `{JsNumber number}.
Implicit Types (w : world number) (name : string) (l : list (value number)).

Lemma strict_eq_str_true (x : value number) name :
  strict_eq_str (Some x) name = true ↔ x = JStr name.
Proof.
  destruct x; simpl; try (split; [discriminate|intros [=]]).
  rewrite String.eqb_eq. split; [by intros ->|by intros [= ->]].
Qed.





Lemma listLabels_file w :
  useSupabase w = false →
  listLabels w =
    Returned (match LABELS_FILE w with
              | Parsed (JArr labels) => labels
              | _ => DEFAULT_LABELS w
              end) w.
Proof.
  intros E. unfold listLabels, readLabelsFile, contents. js_run. rewrite E.
  simpl. by destruct (LABELS_FILE w) as [|[]].
Qed.

Lemma listLabels_supabase w :
  useSupabase w = true →
  listLabels w = Returned (JStr <$> sorted_names (labels_table w)) w.
Proof.
  intros E. unfold listLabels, labels_select_ordered, sorted_names. js_run.
  rewrite E. simpl. f_equal. rewrite <- list_fmap_compose.
  apply list_fmap_ext. intros _ n _. simpl. by rewrite lookup_singleton_eq.
Qed.



Lemma sorted_names_elem (t : gset string) n : n ∈ sorted_names t ↔ n ∈ t.
Proof.
  unfold sorted_names. rewrite merge_sort_Permutation. apply elem_of_elements.
Qed.


End labels.

Section claim_C6.
Context `{JsNumber number}.
Implicit Types (w : world number) (name : string) (l : list (value number)).

End claim_C6.

(** ** [removeLabel] on the file store *)

Section remove_file.
Context `{JsNumber number}.
Implicit Types (w : world number) (name id : string) (i : object number).

Lemma clear_label_eq name i :
  clear_label name i =
    if has_label name i then <["label" := JStr ""]> i else i.
Proof. reflexivity. Qed.

Lemma clear_label_id name i id :
  has_id id (clear_label name i) = has_id id i.
Proof.
  rewrite clear_label_eq. destruct (has_label name i); [|done].
  unfold has_id. by rewrite lookup_insert_ne.
Qed.

Lemma clear_label_normalized name i :
  normalized i → normalized (clear_label name i).
Proof.
  rewrite clear_label_eq. destruct (has_label name i); [|done].
  rewrite !normalized_iff. intros [_ [Et [Ea Ec]]].
  rewrite lookup_insert_eq, !lookup_insert_ne by done.
  repeat split; try done. by exists (JStr "").
Qed.

Lemma clear_label_label name i :
  has_label name i = true → clear_label name i !! "label" = Some (JStr "").
Proof.
  intros Hl. rewrite clear_label_eq, Hl. apply lookup_insert_eq.
Qed.

Lemma clear_label_other name i :
  has_label name i = false → clear_label name i = i.
Proof. intros Hl. by rewrite clear_label_eq, Hl. Qed.

Lemma removeLabel_file w name :
  useSupabase w = false →
  let next :=
    List.filter (λ l, negb (strict_eq_str (Some l) name)) (listed_labels w) in
  removeLabel name w =
    Returned next
      (set_DATA_FILE
         (Parsed (JArr (JObj <$> (clear_label name <$> file_ideas w))))
         (set_LABELS_FILE (Parsed (JArr next)) w)).
Proof.
  intros E next. subst next. unfold listed_labels.
  rewrite listLabels_file by done. cbn [returned default].
  unfold removeLabel, readLabelsFile, contents, writeLabelsFile, readIdeasFile,
    writeIdeasFile, clear_label, file_ideas, readIdeasFile.
  js_run. rewrite E. simpl. by destruct (LABELS_FILE w) as [|[]].
Qed.

Lemma filter_not_name name (l : list (value number)) :
  JStr name ∉ List.filter (λ l, negb (strict_eq_str (Some l) name)) l.
Proof.
  rewrite list_elem_of_In, filter_In. intros [_ Hn].
  assert (strict_eq_str (Some (@JStr number name)) name = true) as Ht
    by by apply strict_eq_str_true.
  by rewrite Ht in Hn.
Qed.


(** After [removeLabel] on the file store the ideas read back are the ones
    read before, each with its label cleared if it was [name]. *)
Lemma file_ideas_after_removeLabel w name :
  useSupabase w = false →
  file_ideas (state_after (removeLabel name w)) =
    clear_label name <$> file_ideas w.
Proof.
  intros E. rewrite removeLabel_file by done. cbn [state_after].
  apply file_ideas_written. apply Forall_fmap.
  eapply Forall_impl; [apply file_ideas_normalized|].
  intros i Hi. by apply clear_label_normalized.
Qed.

Lemma getIdea_after_removeLabel_file w name id :
  useSupabase w = false →
  getIdea id (state_after (removeLabel name w)) =
    Returned (clear_label name <$> find (has_id id) (file_ideas w))
      (state_after (removeLabel name w)).
Proof.
  intros E. rewrite getIdea_file.
  - rewrite file_ideas_after_removeLabel by done.
    rewrite find_fmap; [done|]. intros i. apply clear_label_id.
  - by rewrite removeLabel_file.
Qed.
End remove_file.

(** ** [removeLabel] on the Supabase store *)

Section remove_supabase.
Context `{JsNumber number}.
Implicit Types (w u : world number) (name id k c : string).
Implicit Types (i idea : object number) (r old : row number).

(** One turn of the cascade loop on a listed idea whose row is there. *)
Lemma clear_stored_found w c r old :
  useSupabase w = true →
  uuid_in c = Some c →
  ideas_table w !! c = Some old →
  ∃ new,
    clear_stored (api (selected c r)) w =
      Returned tt (set_ideas_table (<[c := new]> (ideas_table w)) (tick w)) ∧
    label new = "" ∧ updated_at new = now w.
Proof.
  intros E Hc Hold.
  set (payload := JObj (literal (api (selected c r)) [("label", Some (JStr ""))])).
  assert (∀ k, k ≠ "label" → prop payload k = api (selected c r) !! k) as Hk.
  { intros k ?. unfold payload. cbn [prop]. by lookups. }
  destruct (updateIdea_supabase_stored w c c old payload E Hc Hc Hold)
    as (new & Hback & Hupd).
  { done. }
  { unfold update_texts, printable_field.
    rewrite !Hk by done. rewrite read_title, read_description.
    unfold payload. cbn [prop]. by lookups. }
  { rewrite Hk by done. by rewrite read_status. }
  exists new. split; [|split].
  - unfold clear_stored. rewrite read_id.
    unfold mbind at 1, js_bind at 1. fold payload. by rewrite Hupd.
  - apply (f_equal (λ o, o !! "label")) in Hback.
    rewrite read_label, as_stored_other, merged_label in Hback by done.
    assert (prop payload "label" = Some (JStr "")) as Hl
      by (unfold payload; cbn [prop]; by lookups).
    rewrite Hl in Hback. change (Some (JStr (label new)) = Some (@JStr number ""))
      in Hback. congruence.
  - apply (f_equal (λ o, o !! "updatedAt")) in Hback.
    rewrite read_updatedAt, as_stored_other, merged_updatedAt in Hback by done.
    congruence.
Qed.

Lemma cascade w (todo : list (object number)) :
  useSupabase w = true →
  (∀ idea, idea ∈ todo →
     ∃ c r, idea = api (selected c r) ∧ uuid_in c = Some c ∧
            is_Some (ideas_table w !! c)) →
  ∃ u,
    for_of todo clear_stored w = Returned tt u ∧
    useSupabase u = true ∧
    labels_table u = labels_table w ∧
    (∀ k, is_Some (ideas_table u !! k) ↔ is_Some (ideas_table w !! k)) ∧
    (∀ k, mentions todo k ∨ label_cleared w k → label_cleared u k) ∧
    (∀ k, ¬ mentions todo k → ideas_table u !! k = ideas_table w !! k).
Proof.
  revert w. induction todo as [|idea todo IH]; intros w E Hall.
  - exists w. repeat split; try done.
    intros k [(i & Hin & _)|Hc]; [by apply elem_of_nil in Hin|done].
  - destruct (Hall idea) as (k & r & -> & Hk & [old Hold]); [left|].
    destruct (clear_stored_found w k r old E Hk Hold)
      as (new & Hstep & Hnew & _).
    set (w1 := set_ideas_table (<[k := new]> (ideas_table w)) (tick w)) in *.
    assert (∀ k', is_Some (ideas_table w1 !! k') ↔ is_Some (ideas_table w !! k'))
      as Hdom.
    { intros k'. cbn [w1 ideas_table set_ideas_table].
      destruct (decide (k = k')) as [<-|Hne].
      - rewrite lookup_insert_eq, Hold. split; eauto.
      - by rewrite lookup_insert_ne. }
    destruct (IH w1) as (u & Hrest & Eu & Hlab & Hdomu & Hclr & Hframe).
    { done. }
    { intros i Hi. destruct (Hall i) as (k' & r' & -> & Hk' & Hsome); [by right|].
      exists k', r'. split; [done|]. split; [done|]. by apply Hdom. }
    exists u. split; [|split; [done|split; [done|split; [|split]]]].
    + cbn [for_of]. unfold mbind at 1, js_bind at 1. by rewrite Hstep.
    + intros k'. by rewrite Hdomu, Hdom.
    + intros k' [(i & Hin & Hi)|Hc].
      * apply elem_of_cons in Hin as [->|Hin].
        -- rewrite read_id in Hi. assert (k' = k) as -> by congruence.
           apply Hclr. right. exists new. split; [|done].
           cbn [w1 ideas_table set_ideas_table]. apply lookup_insert_eq.
        -- apply Hclr. left. by exists i.
      * apply Hclr. right. destruct Hc as (row & Hrow & Hl).
        destruct (decide (k = k')) as [<-|Hne].
        -- exists new. split; [|done].
           cbn [w1 ideas_table set_ideas_table]. apply lookup_insert_eq.
        -- exists row. split; [|done].
           cbn [w1 ideas_table set_ideas_table]. by rewrite lookup_insert_ne.
    + intros k' Hno. rewrite Hframe.
      * cbn [w1 ideas_table set_ideas_table]. rewrite lookup_insert_ne; [done|].
        intros <-. apply Hno. exists (api (selected k r)).
        split; [left|apply read_id].
      * intros (i & Hin & Hi). apply Hno. exists i. split; [by right|done].
Qed.

Lemma removeLabel_supabase_eq w name :
  useSupabase w = true →
  removeLabel name w =
    (labels_delete name;;
     ideas ← listIdeas;
     for_of (List.filter (has_label name) ideas) clear_stored;;
     listLabels) w.
Proof.
  intros E. unfold removeLabel. unfold mbind at 1, js_bind at 1, reads.
  by rewrite E.
Qed.

Lemma listed_todo w name idea :
  useSupabase w = true →
  idea ∈ List.filter (has_label name) (listed_ideas w) →
  ∃ c r, idea = api (selected c r) ∧ uuid_in c = Some c ∧
         ideas_table w !! c = Some r.
Proof.
  intros E Hin.
  apply list_elem_of_In in Hin. apply filter_In in Hin as [Hin _].
  apply list_elem_of_In in Hin.
  apply elem_of_listed_supabase in Hin as (k & r & Hk & Hrow & ->); [|done].
  by exists k, r.
Qed.

Lemma removeLabel_supabase w name :
  useSupabase w = true →
  let todo := List.filter (has_label name) (listed_ideas w) in
  ∃ u,
    removeLabel name w =
      Returned (JStr <$> sorted_names (labels_table w ∖ {[ name ]})) u ∧
    useSupabase u = true ∧
    labels_table u = labels_table w ∖ {[ name ]} ∧
    (∀ k, is_Some (ideas_table u !! k) ↔ is_Some (ideas_table w !! k)) ∧
    (∀ k, mentions todo k → label_cleared u k) ∧
    (∀ k, ¬ mentions todo k → ideas_table u !! k = ideas_table w !! k).
Proof.
  intros E todo.
  set (w1 := set_labels_table (labels_table w ∖ {[ name ]}) w).
  assert (listed_ideas w1 = listed_ideas w) as Hsame.
  { by rewrite !listed_ideas_supabase. }
  destruct (cascade w1 todo) as (u & Hloop & Eu & Hlab & Hdom & Hclr & Hframe).
  { done. }
  { intros idea Hin.
    destruct (listed_todo w name idea E Hin) as (k & r & -> & Hk & Hrow).
    exists k, r. split; [done|]. split; [done|].
    cbn [w1 ideas_table set_labels_table]. rewrite Hrow; eauto. }
  exists u. split; [|split; [done|split; [done|split; [done|split]]]].
  - rewrite removeLabel_supabase_eq by done.
    unfold mbind at 1, js_bind at 1, labels_delete, modify. fold w1.
    unfold mbind at 1, js_bind at 1.
    rewrite (listIdeas_supabase w1) by done.
    rewrite <- (listed_ideas_supabase w1), Hsame by done. fold todo.
    unfold mbind at 1, js_bind at 1. rewrite Hloop.
    rewrite listLabels_supabase by done. by rewrite Hlab.
  - intros k Hk. apply Hclr. by left.
  - done.
Qed.
End remove_supabase.

Section claims_removeLabel.
Context `{JsNumber number}.
Implicit Types (w u : world number) (name id k c L : string).
Implicit Types (i idea : object number) (r old : row number).

Lemma listLabels_after_removeLabel_file w name :
  useSupabase w = false →
  listLabels (state_after (removeLabel name w)) =
    Returned
      (List.filter (λ l, negb (strict_eq_str (Some l) name)) (listed_labels w))
      (state_after (removeLabel name w)).
Proof.
  intros E. rewrite removeLabel_file by done. cbn [state_after].
  by rewrite listLabels_file.
Qed.

Lemma mentioned_idea w name c old :
  useSupabase w = true →
  uuid_in c = Some c →
  ideas_table w !! c = Some old →
  mentions (List.filter (has_label name) (listed_ideas w)) c ↔
    has_label name (api (selected c old)) = true.
Proof.
  intros E Hc Hold. split.
  - intros (idea & Hin & Hid).
    apply list_elem_of_In in Hin. apply filter_In in Hin as [Hin Hl].
    apply list_elem_of_In in Hin.
    apply elem_of_listed_supabase in Hin as (k & r & Hk & Hrow & ->); [|done].
    rewrite read_id in Hid.
    assert (k = c) as -> by congruence.
    assert (r = old) as -> by congruence. done.
  - intros Hl. exists (api (selected c old)). split.
    + apply list_elem_of_In, filter_In. split; [|done].
      apply list_elem_of_In, elem_of_listed_supabase; [done|]. eauto.
    + apply read_id.
Qed.

(** C1: for an idea that [getIdea] returns with label [L], [removeLabel(L)]
    returns, after which [getIdea] returns the idea with an empty label and
    [L] is not in the sequence [listLabels()] returns, in both backends. *)
Theorem removeLabel_cascade w L id i :
  getIdea id w = Returned (Some i) w →
  has_label L i = true →
  ∃ labels w' cleared,
    removeLabel L w = Returned labels w' ∧
    getIdea id w' = Returned (Some cleared) w' ∧
    cleared !! "label" = Some (JStr "") ∧
    listLabels w' = Returned labels w' ∧
    JStr L ∉ labels.
Proof.
  intros Hget Hl. destruct (useSupabase w) eqn:E.
  - destruct (getIdea_supabase_found w id i w E Hget)
      as (c & old & Hc & Hcc & Hold & ->).
    destruct (removeLabel_supabase w L E)
      as (u & Hrm & Eu & Hlab & _ & Hclr & _).
    destruct (Hclr c) as (row & Hrow & Hrl).
    { by apply (mentioned_idea w L c old). }
    exists (JStr <$> sorted_names (labels_table w ∖ {[ L ]})), u,
      (api (selected c row)).
    split; [done|]. split; [|split; [|split]].
    + rewrite (getIdea_supabase u id c) by done. by rewrite Hrow.
    + by rewrite read_label, Hrl.
    + rewrite listLabels_supabase by done. by rewrite Hlab.
    + rewrite list_elem_of_fmap. intros (n & [= <-] & Hin).
      apply sorted_names_elem, elem_of_difference in Hin as [_ Hn].
      apply Hn. by apply elem_of_singleton.
  - rewrite getIdea_file in Hget by done.
    assert (find (has_id id) (file_ideas w) = Some i) as Hfind by congruence.
    exists (List.filter (λ l, negb (strict_eq_str (Some l) L)) (listed_labels w)),
      (state_after (removeLabel L w)), (clear_label L i).
    split; [by rewrite removeLabel_file|]. split; [|split; [|split]].
    + rewrite getIdea_after_removeLabel_file by done. by rewrite Hfind.
    + by apply clear_label_label.
    + by apply listLabels_after_removeLabel_file.
    + apply filter_not_name.
Qed.

End claims_removeLabel.

(** ** [createIdea] *)

Section create.
Context `{JsNumber number}.
Implicit Types (w u : world number) (id k c : string) (payload p : value number).
Implicit Types (i idea : object number) (t : string).

Lemma createIdea_null w : createIdea JNull w = Thrown TypeError (draw (tick w)).
Proof. reflexivity. Qed.

Lemma createIdea_eq w payload :
  payload ≠ JNull →
  create_texts payload = true →
  let idea := created payload (next_uuid w) (now w) in
  createIdea payload w =
    (if negb (useSupabase w) then
       ideas ← readIdeasFile;
       writeIdeasFile (idea :: ideas);;
       mret idea
     else
       data ← ideas_insert (apiIdeaToDb idea);
       lift (dbIdeaToApi data)) (draw (tick w)).
Proof.
  intros Hp Ht idea. unfold create_texts in Ht.
  apply andb_true_iff in Ht as [Hd Hl].
  unfold createIdea. unfold mbind at 1, js_bind at 1, toISOString.
  unfold mbind at 1, js_bind at 1, randomUUID.
  rewrite !get_prop by done.
  rewrite lift_Normal; cbv beta. rewrite lift_Normal; cbv beta.
  rewrite (text_or_empty_printable (prop payload "description")) by done.
  rewrite lift_Normal; cbv beta. rewrite lift_Normal; cbv beta.
  rewrite lift_Normal; cbv beta.
  rewrite (text_or_empty_printable (prop payload "label")) by done.
  reflexivity.
Qed.

(** When the conversion of the description or of the label throws,
    [createIdea] throws after the clock has been read and the identifier
    drawn, and stores nothing. *)
Lemma createIdea_throws w payload :
  payload ≠ JNull →
  create_texts payload = false →
  ∃ e, createIdea payload w = Thrown e (draw (tick w)).
Proof.
  intros Hp Ht. unfold create_texts in Ht.
  unfold createIdea. unfold mbind at 1, js_bind at 1, toISOString.
  unfold mbind at 1, js_bind at 1, randomUUID.
  rewrite !get_prop by done.
  rewrite lift_Normal; cbv beta. rewrite lift_Normal; cbv beta.
  destruct (printable (or_else (prop payload "description") (JStr ""))) eqn:Hd.
  - rewrite (text_or_empty_printable (prop payload "description")) by done.
    rewrite lift_Normal; cbv beta. rewrite lift_Normal; cbv beta.
    rewrite lift_Normal; cbv beta. cbn [andb] in Ht.
    destruct (text_or_empty_unprintable _ Ht) as [e ->]. by exists e.
  - destruct (text_or_empty_unprintable _ Hd) as [e ->]. by exists e.
Qed.

Lemma createIdea_file w payload :
  useSupabase w = false →
  payload ≠ JNull →
  create_texts payload = true →
  createIdea payload w =
    Returned (created payload (next_uuid w) (now w))
      (set_DATA_FILE
         (Parsed (JArr (JObj <$>
            (created payload (next_uuid w) (now w) :: file_ideas w))))
         (draw (tick w))).
Proof.
  intros E Hp Ht. rewrite createIdea_eq by done. cbv zeta. rewrite E.
  reflexivity.
Qed.

Lemma created_id p id t : created p id t !! "id" = Some (JStr id).
Proof. unfold created. by lookups. Qed.
Lemma created_title p id t : created p id t !! "title" = prop p "title".
Proof. unfold created. by lookups. Qed.
Lemma created_description p id t :
  created p id t !! "description" = Some (blank_or_text (prop p "description")).
Proof. unfold created. by lookups. Qed.
Lemma created_status p id t :
  created p id t !! "status" = Some (or_else (prop p "status") (JStr "new")).
Proof. unfold created. by lookups. Qed.
Lemma created_label p id t :
  created p id t !! "label" = Some (blank_or_text (prop p "label")).
Proof. unfold created. by lookups. Qed.
Lemma created_tags p id t :
  created p id t !! "tags" = Some (array_or_empty (prop p "tags")).
Proof. unfold created. by lookups. Qed.
Lemma created_attachments p id t :
  created p id t !! "attachments" = Some (JArr []).
Proof. unfold created. by lookups. Qed.
Lemma created_aiChat p id t : created p id t !! "aiChat" = Some (JArr []).
Proof. unfold created. by lookups. Qed.
Lemma created_createdAt p id t :
  created p id t !! "createdAt" = Some (JStr t).
Proof. unfold created. by lookups. Qed.
Lemma created_updatedAt p id t :
  created p id t !! "updatedAt" = Some (JStr t).
Proof. unfold created. by lookups. Qed.

Lemma created_plain p id t : plain (created p id t).
Proof.
  intros k Hk. unfold idea_fields in Hk. rewrite !not_elem_of_cons in Hk.
  destruct Hk as (?&?&?&?&?&?&?&?&?&?&_).
  unfold created. by lookups.
Qed.

Lemma created_normalized p id t : normalized (created p id t).
Proof.
  apply normalized_iff.
  rewrite created_label, created_tags, created_attachments, created_aiChat.
  repeat split; try done; [|apply array_or_empty_isArray].
  eexists. split; [done|]. apply or_else_text.
Qed.

Lemma or_else_not_null (x : option (value number)) (s : string) :
  s ≠ "" → not_null (Some (or_else x (JStr s))) = true.
Proof.
  intros Hs. destruct x as [[| [] | | | |]|]; try done;
    unfold or_else; cbn [truthy]; try (by destruct s);
    match goal with |- context [if ?b then _ else _] => destruct b end;
    try done; by destruct s.
Qed.

(** The table accepts the record [createIdea] builds when the payload has
    a title that is not [null]. *)
Lemma created_accepted p id t :
  not_null (prop p "title") = true → accepted (created p id t) id.
Proof.
  intros Ht. unfold accepted.
  rewrite created_id, created_title, created_description, created_status,
    created_label, created_tags, created_attachments, created_aiChat,
    created_createdAt, created_updatedAt.
  repeat split; try done.
  - by apply or_else_not_null.
  - apply array_or_empty_isArray.
Qed.

Lemma createIdea_supabase w payload :
  useSupabase w = true →
  payload ≠ JNull →
  create_texts payload = true →
  ideas_table w !! next_uuid w = None →
  not_null (prop payload "title") = true →
  let m := created payload (next_uuid w) (now w) in
  ∃ new,
    api (selected (next_uuid w) new) = as_stored w m ∧
    createIdea payload w =
      Returned (as_stored w m)
        (set_ideas_table (<[next_uuid w := new]> (ideas_table w))
           (draw (tick w))).
Proof.
  intros E Hp Ht Hfresh Hnn m.
  destruct (inserted_row_accepted (draw (tick w)) m (next_uuid w))
    as (new & Hrow & Hback).
  { apply uuid_in_uuid_of_bits. }
  { by apply created_accepted. }
  { apply created_plain. }
  exists new. split; [exact Hback|].
  rewrite createIdea_eq by done. cbv zeta. rewrite E. cbn [negb]. fold m.
  unfold mbind at 1, js_bind at 1, ideas_insert.
  rewrite Hrow. cbn [ideas_table draw tick]. rewrite Hfresh.
  rewrite dbIdeaToApi_eq. cbn [lift]. by rewrite Hback.
Qed.

End create.

Section claims_create_update.
Context `{JsNumber number}.
Implicit Types (w u : world number) (id k : string) (payload p : value number).
Implicit Types (i m e idea : object number) (t : string).







End claims_create_update.

(** ** The claims on concrete states *)

Lemma newest_first_test_complete {number} (ideas : list (object number)) :
  newest_first_ideas ideas → newest_first_test ideas = true.
Proof.
  induction 1 as [|a l Hs IH Hhd]; [done|].
  cbn [newest_first_test]. rewrite IH, andb_true_r.
  destruct Hhd as [|b l' Hab]; [done|]. by apply Is_true_true_1.
Qed.

(** C2: on the file store [listIdeas] returns the document order.  After
    two creations and an update of the older idea, the updated idea is
    second although its [updatedAt] is the latest: the result is not ordered
    by [updatedAt] descending. *)
Theorem listIdeas_file_not_ordered :
  let w := state_after (updateIdea first_id (JObj ∅) file_store_with_two) in
  (λ i, (i !! "id", i !! "updatedAt")) <$> listed_ideas w =
    [(Some (JStr second_id), Some (JStr "2024-01-02T00:00:00.000Z"));
     (Some (JStr first_id), Some (JStr "2024-01-03T00:00:00.000Z"))] ∧
  ¬ newest_first_ideas (listed_ideas w).
Proof.
  split; [vm_compute; reflexivity|].
  intros Hs%newest_first_test_complete.
  assert (newest_first_test (listed_ideas
            (state_after (updateIdea first_id (JObj ∅) file_store_with_two)))
          = false) as Hf by reflexivity.
  congruence.
Qed.

(** C3: on the file store the cascade of [removeLabel] clears the label of
    an idea and leaves its [updatedAt] at the creation stamp, without reading
    the clock. *)
Theorem removeLabel_file_keeps_updatedAt :
  let w := file_store_with_idea in
  let w' := state_after (removeLabel "Growth" w) in
  field_of w first_id "label" = Some (JStr "Growth") ∧
  field_of w' first_id "label" = Some (JStr "") ∧
  field_of w' first_id "updatedAt" = field_of w first_id "updatedAt" ∧
  field_of w' first_id "updatedAt" = Some (JStr "2024-01-01T00:00:00.000Z") ∧
  now w = "2024-01-02T00:00:00.000Z" ∧
  clock_reads w' = clock_reads w.
Proof. vm_compute. repeat split; reflexivity. Qed.

(** C8: [readLabelsFile] hands out the array [DEFAULT_LABELS] itself, and
    [addLabel] pushes onto what it is handed.  Once a label has been added
    while the labels document was not a sequence, a later read of an
    unreadable labels document returns four labels, not the three
    defaults. *)
Theorem default_labels_grow :
  let w := state_after (addLabel "Growth" file_store_bad_labels) in
  let damaged := set_LABELS_FILE Unreadable w in
  returned (listLabels file_store_bad_labels) = Some initial_DEFAULT_LABELS ∧
  labels_document_ok damaged = false ∧
  returned (listLabels damaged) =
    Some [JStr "Agent"; JStr "Automation"; JStr "Research"; JStr "Growth"].
Proof. vm_compute. repeat split; reflexivity. Qed.




(** Where the amended C10 does not reach: a title that cannot be converted
    to text makes [updateIdea] throw and store nothing; the table refuses
    an idea without a title and a status set to [null], and keeps a number
    given as status as its text. *)
Example updateIdea_unprintable_title :
  let payload : value Z :=
    JObj {[ "title" := JObj {[ "toString" := JNum 1%Z ]} ]} in
  update_texts payload = false ∧
  updateIdea first_id payload file_store_with_idea =
    Thrown TypeError file_store_with_idea.
Proof. split; reflexivity. Qed.

Example table_refuses_null :
  let w := supabase_store_with_idea in
  createIdea (JObj {[ "label" := JStr "Growth" ]}) w =
    Thrown null_value (draw (tick w)) ∧
  updateIdea first_id (JObj {[ "status" := JNull ]}) w =
    Thrown null_value (tick w).
Proof. split; reflexivity. Qed.

Example table_keeps_status_as_text :
  let w := supabase_store_with_idea in
  let w' := state_after (updateIdea first_id (JObj {[ "status" := JNum 3%Z ]}) w) in
  field_of w' first_id "status" = Some (JStr "3").
Proof. reflexivity. Qed.

(** ** Instances of the theorems above *)

Lemma removeLabel_cascade_witness :
  getIdea first_id supabase_store_with_idea =
    Returned (Some growth_idea) supabase_store_with_idea ∧
  has_label "Growth" growth_idea = true ∧
  ∃ labels w' cleared,
    removeLabel "Growth" supabase_store_with_idea = Returned labels w' ∧
    getIdea first_id w' = Returned (Some cleared) w' ∧
    cleared !! "label" = Some (JStr "") ∧
    listLabels w' = Returned labels w' ∧
    JStr "Growth" ∉ labels.
Proof.
  assert (getIdea first_id supabase_store_with_idea =
            Returned (Some growth_idea) supabase_store_with_idea) as H1
    by reflexivity.
  assert (has_label "Growth" growth_idea = true) as H2
    by reflexivity.
  split; [exact H1|]. split; [exact H2|].
  exact (removeLabel_cascade supabase_store_with_idea "Growth" first_id
           growth_idea H1 H2).
Defined.

Lemma updateIdea_empty_payload_witness :
  getIdea first_id supabase_store_with_idea =
    Returned (Some growth_idea) supabase_store_with_idea ∧
  ∃ updated w',
    updateIdea first_id (JObj ∅) supabase_store_with_idea =
      Returned (Some updated) w' ∧
    (∀ k, k ≠ "updatedAt" → updated !! k = growth_idea !! k) ∧
    updated !! "updatedAt" = Some (JStr (now supabase_store_with_idea)) ∧
    getIdea first_id w' = Returned (Some updated) w'.
Proof.
  assert (getIdea first_id supabase_store_with_idea =
            Returned (Some growth_idea) supabase_store_with_idea) as H1
    by reflexivity.
  split; [exact H1|].
  exact (updateIdea_empty_payload supabase_store_with_idea first_id
           growth_idea H1).
Defined.






(** * Further properties of the store *)

(** ** Reading documents *)

Section reading.
Context `{JsNumber number}.
Implicit Types (w : world number) (id k : string) (v : value number).
Implicit Types (o i : object number).

Lemma mapM_normalizeIdea_null (xs : list (value number)) :
  JNull ∈ xs → ∃ e, mapM normalizeIdea xs = Abrupt e.
Proof.
  induction xs as [|x xs IH]; [by intros ?%elem_of_nil|].
  intros [<-|Hin]%elem_of_cons.
  - by exists TypeError.
  - destruct (IH Hin) as [e He]. cbn [mapM].
    fold (mapM normalizeIdea xs). rewrite He.
    destruct (normalizeIdea x) as [o|e']; eauto.
Qed.

Lemma mapM_normalizeIdea_total (xs : list (value number)) :
  JNull ∉ xs →
  ∃ l, mapM normalizeIdea xs = Normal l ∧ List.length l = List.length xs.
Proof.
  induction xs as [|x xs IH]; [by exists []|].
  rewrite not_elem_of_cons. intros [Hx Hxs].
  destruct (IH Hxs) as (l & Hl & Hlen).
  eexists. cbn [mapM]. fold (mapM normalizeIdea xs).
  rewrite (normalizeIdea_eq x) by done. cbn [mbind completion_bind].
  rewrite Hl. split; [reflexivity|]. cbn [List.length]. by rewrite Hlen.
Qed.

(** X1: normalisation is idempotent: a record that [normalizeIdea] returned
    is returned unchanged when it is normalised again. *)
Theorem normalizeIdea_idempotent v o :
  normalizeIdea v = Normal o → normalizeIdea (JObj o) = Normal o.
Proof. apply normalizeIdea_normalized. Qed.

(** X2: [normalizeIdea] throws exactly for [null]; for every other value,
    a primitive or an array included, it returns a record. *)
Theorem normalizeIdea_throws_on_null_only v :
  normalizeIdea JNull = Abrupt TypeError ∧
  ((∃ o, normalizeIdea v = Normal o) ↔ v ≠ JNull).
Proof.
  split; [done|]. split.
  - intros [o Ho] ->. discriminate Ho.
  - intros Hv. rewrite normalizeIdea_eq by done. eauto.
Qed.

(** X3: on an object [normalizeIdea] keeps every field other than [label],
    [tags], [attachments] and [aiChat]; the label is kept when truthy and is
    the empty text otherwise; each of the three others is kept when it is a
    sequence and is the empty sequence otherwise. *)
Theorem normalizeIdea_object_fields o :
  ∃ r, normalizeIdea (JObj o) = Normal r ∧
    r !! "label" = Some (if truthy (o !! "label")
                         then default (JStr "") (o !! "label") else JStr "") ∧
    r !! "tags" = Some (if isArray (o !! "tags")
                        then default (JArr []) (o !! "tags") else JArr []) ∧
    r !! "attachments" =
      Some (if isArray (o !! "attachments")
            then default (JArr []) (o !! "attachments") else JArr []) ∧
    r !! "aiChat" = Some (if isArray (o !! "aiChat")
                          then default (JArr []) (o !! "aiChat") else JArr []) ∧
    ∀ k, k ∉ ["label"; "tags"; "attachments"; "aiChat"] → r !! k = o !! k.
Proof.
  eexists. split; [apply normalizeIdea_obj|].
  split; [|split; [|split; [|split]]].
  - lookups. f_equal. unfold or_else. destruct (o !! "label"); [|done].
    by destruct (truthy (Some v)).
  - lookups. f_equal. by destruct (o !! "tags") as [[]|].
  - lookups. f_equal. by destruct (o !! "attachments") as [[]|].
  - lookups. f_equal. by destruct (o !! "aiChat") as [[]|].
  - intros k Hk. rewrite !not_elem_of_cons in Hk.
    destruct Hk as (?&?&?&?&_). by lookups.
Qed.

(** X4: the [try] of [readIdeasFile] covers the normalisation: when the
    ideas document is a sequence with a [null] entry, [listIdeas] on the
    file store returns the empty sequence, whatever the other entries are,
    and [getIdea] finds nothing. *)
Theorem null_entry_hides_all_ideas w (xs : list (value number)) id :
  useSupabase w = false →
  DATA_FILE w = Parsed (JArr xs) →
  JNull ∈ xs →
  listIdeas w = Returned [] w ∧ getIdea id w = Returned None w.
Proof.
  intros E Hdoc Hnull.
  assert (file_ideas w = []) as Hempty.
  { unfold file_ideas, readIdeasFile, reads. cbn [returned default].
    rewrite Hdoc. by destruct (mapM_normalizeIdea_null xs Hnull) as [e ->]. }
  split.
  - rewrite listIdeas_file by done. by rewrite Hempty.
  - rewrite getIdea_file by done. by rewrite Hempty.
Qed.

(** X5: when the ideas document is a sequence without [null] entries,
    [listIdeas] on the file store returns one normalised record per entry. *)
Theorem listIdeas_file_one_per_entry w (xs : list (value number)) :
  useSupabase w = false →
  DATA_FILE w = Parsed (JArr xs) →
  JNull ∉ xs →
  ∃ ideas, listIdeas w = Returned ideas w ∧
    List.length ideas = List.length xs ∧ Forall normalized ideas.
Proof.
  intros E Hdoc Hnull.
  destruct (mapM_normalizeIdea_total xs Hnull) as (l & Hl & Hlen).
  assert (file_ideas w = l) as Hfile.
  { unfold file_ideas, readIdeasFile, reads. cbn [returned default].
    by rewrite Hdoc, Hl. }
  exists l. rewrite listIdeas_file by done. rewrite Hfile.
  split; [done|]. split; [done|].
  rewrite <- Hfile. apply file_ideas_normalized.
Qed.

Lemma listIdeas_fallback w :
  useSupabase w = false → ideas_document_ok w = false →
  listIdeas w = Returned [] w.
Proof.
  intros E Hbad. rewrite listIdeas_file by done. f_equal.
  unfold file_ideas, readIdeasFile, reads, ideas_document_ok in *.
  cbn [returned default]. by destruct (DATA_FILE w) as [|[]].
Qed.

Lemma labels_fallback w :
  useSupabase w = false → labels_document_ok w = false →
  listLabels w = Returned (DEFAULT_LABELS w) w.
Proof.
  intros E Hbad. rewrite listLabels_file by done. f_equal.
  unfold labels_document_ok in Hbad. by destruct (LABELS_FILE w) as [|[]].
Qed.

(** A normalised record with the ten fields only survives the mapping to a
    row and back. *)
Lemma api_apiIdeaToDb i :
  normalized i → plain i → api (apiIdeaToDb i) = i.
Proof.
  intros [[l [El Sl]] [Et [Ea Ec]]]%normalized_iff Hplain.
  apply map_eq. intros k.
  destruct (decide (k ∈ idea_fields)) as [Hk|Hk].
  - unfold idea_fields in Hk. rewrite !elem_of_cons in Hk.
    destruct Hk as [->|[->|[->|[->|[->|[->|[->|[->|[->|[->|Hk]]]]]]]]]];
      [..|by apply elem_of_nil in Hk].
    + by rewrite api_id, apiIdeaToDb_id.
    + by rewrite api_title, apiIdeaToDb_title.
    + by rewrite api_description, apiIdeaToDb_description.
    + by rewrite api_status, apiIdeaToDb_status.
    + rewrite api_label, apiIdeaToDb_label, El. by rewrite Sl.
    + rewrite api_tags, apiIdeaToDb_tags. by apply array_or_empty_id.
    + rewrite api_attachments, apiIdeaToDb_attachments.
      by apply array_or_empty_id.
    + rewrite api_aiChat, apiIdeaToDb_ai_chat. by apply array_or_empty_id.
    + by rewrite api_createdAt, apiIdeaToDb_created_at.
    + by rewrite api_updatedAt, apiIdeaToDb_updated_at.
  - rewrite api_other by done. symmetry. by apply Hplain.
Qed.

(** X6: a normalised record that has no field beyond the ten survives the
    column mapping: [dbIdeaToApi(apiIdeaToDb(i))] is [i]. *)
Theorem column_mapping_roundtrip i :
  normalized i → plain i → dbIdeaToApi (apiIdeaToDb i) = Normal i.
Proof.
  intros Hn Hp. rewrite dbIdeaToApi_eq. f_equal. by apply api_apiIdeaToDb.
Qed.
End reading.

(** ** More on [find] and [findIndex] *)

Lemma findIndex_Some {A} (p : A → bool) (l : list A) n :
  findIndex p l = Some n → ∃ x, l !! n = Some x ∧ p x = true.
Proof.
  intros Hn. destruct (findIndex_find p l n Hn) as [Heq [x Hx]].
  exists x. rewrite Heq. split; [done|]. by apply find_Some in Hx as [_ ?].
Qed.

Lemma find_insert_other {A} (p : A → bool) (l : list A) n x y :
  l !! n = Some x → p x = false → p y = false →
  find p (<[n := y]> l) = find p l.
Proof.
  revert n. induction l as [|z l IH]; intros [|n]; simpl; try done.
  - intros [= ->] Hx Hy. by rewrite Hx, Hy.
  - intros Hn Hx Hy. destruct (p z); [done|]. by eapply IH.
Qed.

Lemma find_filter {A} (p q : A → bool) (l : list A) :
  (∀ x, p x = true → q x = true) →
  find p (List.filter q l) = find p l.
Proof.
  intros Hpq. induction l as [|x l IH]; simpl; [done|].
  destruct (p x) eqn:Hp.
  - rewrite (Hpq x Hp). simpl. by rewrite Hp.
  - destruct (q x); simpl; [by rewrite Hp|done].
Qed.

Lemma find_filter_out {A} (p : A → bool) (l : list A) :
  find p (List.filter (λ x, negb (p x)) l) = None.
Proof.
  induction l as [|x l IH]; simpl; [done|].
  destruct (p x) eqn:Hp; simpl; [done|]. by rewrite Hp.
Qed.

Lemma filter_all {A} (q : A → bool) (l : list A) :
  List.length (List.filter q l) = List.length l → List.filter q l = l.
Proof.
  induction l as [|x l IH]; simpl; [done|].
  destruct (q x); simpl.
  - intros [= Hlen]. by rewrite IH.
  - intros Hlen. pose proof (List.filter_length_le q l). lia.
Qed.

Lemma filter_none_found {A} (p : A → bool) (l : list A) :
  List.filter (λ x, negb (p x)) l = l ↔ find p l = None.
Proof.
  induction l as [|x l IH]; simpl; [done|].
  destruct (p x) eqn:Hp; simpl.
  - split; [|done]. intros Heq.
    pose proof (List.filter_length_le (λ x, negb (p x)) l) as Hle.
    rewrite Heq in Hle. simpl in Hle. lia.
  - rewrite <- IH. split; [by intros [= ->]|by intros ->].
Qed.

Section ids.
Context `{JsNumber number}.
Implicit Types (w u : world number) (id k c : string) (i e : object number).

Lemma has_id_unique id id' i :
  has_id id i = true → id' ≠ id → has_id id' i = false.
Proof.
  unfold has_id, strict_eq_str. destruct (i !! "id") as [[]|]; try done.
  intros ->%String.eqb_eq Hne. by apply String.eqb_neq.
Qed.

Lemma has_id_same_id id i i' :
  i' !! "id" = i !! "id" → has_id id i' = has_id id i.
Proof. unfold has_id. by intros ->. Qed.

(** The idea [getIdea] finds carries the key under which the store looked
    the id up. *)
Lemma getIdea_has_id w id e :
  getIdea id w = Returned (Some e) w →
  ∃ c, key w id = Some c ∧ e !! "id" = Some (JStr c).
Proof.
  unfold key. intros Hget. destruct (useSupabase w) eqn:E.
  - destruct (getIdea_supabase_found w id e w E Hget)
      as (c & old & Hc & _ & _ & ->).
    exists c. split; [done|apply read_id].
  - rewrite getIdea_file in Hget by done.
    assert (find (has_id id) (file_ideas w) = Some e) as Hf by congruence.
    apply find_Some in Hf as [_ Hid]. unfold has_id, strict_eq_str in Hid.
    destruct (e !! "id") as [[]|]; try done.
    apply String.eqb_eq in Hid as ->. by exists id.
Qed.

(** [getIdea] returns, or throws the error of the database; either way it
    leaves the state as it is. *)
Lemma getIdea_outcome w id :
  (∃ r, getIdea id w = Returned r w) ∨ getIdea id w = Thrown invalid_uuid w.
Proof.
  destruct (useSupabase w) eqn:E.
  - destruct (uuid_in id) as [c|] eqn:Hc.
    + left. rewrite (getIdea_supabase w id c) by done. eauto.
    + right. by apply getIdea_supabase_invalid.
  - left. rewrite getIdea_file by done. eauto.
Qed.

(** What [getIdea] returns depends on the table at the key of the id
    only. *)
Lemma getIdea_frame w u id :
  useSupabase w = true → useSupabase u = true →
  (∀ c, uuid_in id = Some c → ideas_table u !! c = ideas_table w !! c) →
  returned (getIdea id u) = returned (getIdea id w).
Proof.
  intros E Eu Hsame. destruct (uuid_in id) as [c|] eqn:Hc.
  - rewrite (getIdea_supabase w id c), (getIdea_supabase u id c) by done.
    cbn [returned]. by rewrite Hsame.
  - by rewrite !getIdea_supabase_invalid.
Qed.

(** The key of the row an update or an insert makes is the uuid that the
    id sent denotes. *)
Lemma updated_row_key print (sent : object number) c old c' new s :
  sent !! "id" = Some (JStr s) → uuid_in s = Some c →
  updated_row print sent c old = Normal (c', new) → c' = c.
Proof.
  intros Hid Hs. unfold updated_row. rewrite Hid. cbn [uuid_column].
  rewrite Hs. unfold mbind, completion_bind, mret, completion_ret.
  repeat match goal with
         | |- context [text_column ?p ?m ?v] =>
             destruct (text_column p m v); [|discriminate]
         | |- context [jsonb_column ?m ?v] =>
             destruct (jsonb_column m v); [|discriminate]
         | |- context [timestamptz_column ?m ?v] =>
             destruct (timestamptz_column m v); [|discriminate]
         end.
  congruence.
Qed.

Lemma inserted_row_key print (sent : object number) c c' new s :
  sent !! "id" = Some (JStr s) → uuid_in s = Some c →
  inserted_row print sent = Normal (c', new) → c' = c.
Proof.
  intros Hid Hs. unfold inserted_row. rewrite Hid. cbn [uuid_column].
  rewrite Hs. unfold mbind, completion_bind, mret, completion_ret.
  repeat match goal with
         | |- context [text_column ?p ?m ?v] =>
             destruct (text_column p m v); [|discriminate]
         | |- context [jsonb_column ?m ?v] =>
             destruct (jsonb_column m v); [|discriminate]
         | |- context [timestamptz_column ?m ?v] =>
             destruct (timestamptz_column m v); [|discriminate]
         end.
  congruence.
Qed.
End ids.

(** ** [updateIdea], continued *)

Section updating.
Context `{JsNumber number}.
Implicit Types (w : world number) (id k c : string) (i e : object number).
Implicit Types (payload : value number).

Lemma updateIdea_null w id e :
  getIdea id w = Returned (Some e) w →
  updateIdea id JNull w = Thrown TypeError w.
Proof.
  intros Hget. destruct (useSupabase w) eqn:E.
  - unfold updateIdea. unfold mbind at 1, js_bind at 1, reads.
    rewrite E. cbn [negb]. unfold mbind at 1, js_bind at 1. rewrite Hget.
    unfold mbind at 1, js_bind at 1. by rewrite merge_null.
  - rewrite getIdea_file in Hget by done.
    assert (find (has_id id) (file_ideas w) = Some e) as Hfind by congruence.
    destruct (findIndex (has_id id) (file_ideas w)) as [idx|] eqn:Hidx.
    2: { apply findIndex_None in Hidx. congruence. }
    destruct (findIndex_Some _ _ _ Hidx) as (cur & Hcur & _).
    unfold updateIdea. unfold mbind at 1, js_bind at 1, reads.
    rewrite E. cbn [negb]. unfold mbind at 1, js_bind at 1.
    rewrite readIdeasFile_eq, Hidx, Hcur.
    unfold mbind at 1, js_bind at 1. by rewrite merge_null.
Qed.

(** When a conversion to text throws, [updateIdea] of an existing idea
    throws before anything is written or the clock is read. *)
Lemma updateIdea_unprintable w id e payload :
  getIdea id w = Returned (Some e) w →
  payload ≠ JNull →
  update_texts payload = false →
  ∃ x, updateIdea id payload w = Thrown x w.
Proof.
  intros Hget Hp Ht. destruct (useSupabase w) eqn:E.
  - destruct (merge_throws e payload w Hp Ht) as [x Hx]. exists x.
    unfold updateIdea. unfold mbind at 1, js_bind at 1, reads.
    rewrite E. cbn [negb]. unfold mbind at 1, js_bind at 1. rewrite Hget.
    unfold mbind at 1, js_bind at 1. by rewrite Hx.
  - rewrite getIdea_file in Hget by done.
    assert (find (has_id id) (file_ideas w) = Some e) as Hfind by congruence.
    destruct (findIndex (has_id id) (file_ideas w)) as [idx|] eqn:Hidx.
    2: { apply findIndex_None in Hidx. congruence. }
    destruct (findIndex_Some _ _ _ Hidx) as (cur & Hcur & _).
    destruct (merge_throws cur payload w Hp Ht) as [x Hx]. exists x.
    rewrite (updateIdea_file_step w id payload idx cur) by done.
    unfold mbind at 1, js_bind at 1. by rewrite Hx.
Qed.





(** X9: [updateIdea] touches one idea only: whatever the payload and
    whether or not the call returns, [getIdea] of an id that the store
    looks up under another key returns afterwards what it returned
    before. *)
Theorem updateIdea_leaves_other_ideas w id id' payload :
  key w id' ≠ key w id →
  returned (getIdea id' (state_after (updateIdea id payload w))) =
  returned (getIdea id' w).
Proof.
  unfold key. intros Hne.
  destruct (getIdea_outcome w id) as [[[e|] Hget]|Hget].
  3: { assert (updateIdea id payload w = Thrown invalid_uuid w) as ->; [|done].
       unfold updateIdea. unfold mbind at 1, js_bind at 1, reads.
       destruct (useSupabase w) eqn:E.
       - cbn [negb]. unfold mbind at 1, js_bind at 1. by rewrite Hget.
       - rewrite getIdea_file in Hget by done. discriminate Hget. }
  2: { assert (updateIdea id payload w = Returned None w) as ->; [|done].
       destruct (useSupabase w) eqn:E.
       - unfold updateIdea. unfold mbind at 1, js_bind at 1, reads.
         rewrite E. cbn [negb]. unfold mbind at 1, js_bind at 1.
         by rewrite Hget.
       - rewrite getIdea_file in Hget by done.
         apply updateIdea_file_absent; [done|]. congruence. }
  assert (payload = JNull ∨ payload ≠ JNull) as [->|Hp]
    by (destruct payload; auto).
  { by rewrite (updateIdea_null w id e). }
  destruct (update_texts payload) eqn:Ht.
  2: { by destruct (updateIdea_unprintable w id e payload Hget Hp Ht)
         as [x ->]. }
  destruct (useSupabase w) eqn:E.
  - destruct (getIdea_supabase_found w id e w E Hget)
      as (c & old & Hc & Hcc & Hold & ->).
    rewrite (updateIdea_supabase_found w id c old payload) by done.
    destruct (updated_row _ _ c old) as [[c' new]|x] eqn:Hrow.
    2: { cbn [state_after]. by apply getIdea_frame. }
    apply (updated_row_key _ _ c old c' new c) in Hrow as ->;
      [|by rewrite apiIdeaToDb_id, merged_id, read_id|done].
    rewrite bool_decide_true by done. cbn [state_after].
    apply getIdea_frame; [done..|].
    intros c2 Hc2. cbn [ideas_table set_ideas_table].
    rewrite lookup_insert_ne; [done|]. intros <-. apply Hne. congruence.
  - assert (id' ≠ id) as Hid by congruence.
    rewrite getIdea_file in Hget by done.
    assert (find (has_id id) (file_ideas w) = Some e) as Hfind by congruence.
    destruct (findIndex (has_id id) (file_ideas w)) as [idx|] eqn:Hidx.
    2: { apply findIndex_None in Hidx. congruence. }
    destruct (findIndex_Some _ _ _ Hidx) as (cur & Hcur & Hhas).
    rewrite (updateIdea_file_found w id payload idx cur) by done.
    cbn [state_after]. rewrite !getIdea_file by done. cbn [returned].
    f_equal. rewrite file_ideas_written.
    + apply (find_insert_other _ _ _ cur); [done| |].
      * by apply (has_id_unique id).
      * rewrite (has_id_same_id id' cur) by apply merged_id.
        by apply (has_id_unique id).
    + apply Forall_insert; [apply file_ideas_normalized|].
      apply merged_normalized.
Qed.

(** X10: with the payload [null], [updateIdea] of an existing idea throws
    a [TypeError] before anything is written or the clock is read: the state
    is the one before the call. *)
Theorem updateIdea_null_payload_throws w id e :
  getIdea id w = Returned (Some e) w →
  updateIdea id JNull w = Thrown TypeError w.
Proof. apply updateIdea_null. Qed.
End updating.

(** ** [createIdea], continued *)

Section creating.
Context `{JsNumber number}.
Implicit Types (w : world number) (id k : string) (i e : object number).
Implicit Types (payload : value number).


(** X12: [createIdea] leaves the ideas already stored as they are: under
    the conditions of X11, on the file store the new idea is put in front
    of the ones [listIdeas] returned before, and in both backends [getIdea]
    of an id that the store does not look up under the drawn identifier
    returns what it returned before. *)
Theorem createIdea_keeps_existing w payload :
  payload ≠ JNull →
  create_texts payload = true →
  (useSupabase w = true →
     ideas_table w !! next_uuid w = None ∧
     not_null (prop payload "title") = true) →
  let w' := state_after (createIdea payload w) in
  (useSupabase w = false →
   listed_ideas w' =
     created payload (next_uuid w) (now w) :: listed_ideas w) ∧
  ∀ id, key w id ≠ Some (next_uuid w) →
    returned (getIdea id w') = returned (getIdea id w).
Proof.
  intros Hp Ht Hsupa w'. subst w'. unfold key.
  destruct (useSupabase w) eqn:E.
  - split; [done|]. intros id Hne. destruct Hsupa as [Hfresh Hnn]; [done|].
    destruct (createIdea_supabase w payload E Hp Ht Hfresh Hnn)
      as (new & _ & ->).
    cbn [state_after]. apply getIdea_frame; [done..|].
    intros c Hc. cbn [ideas_table set_ideas_table draw tick].
    rewrite lookup_insert_ne; [done|]. congruence.
  - rewrite createIdea_file by done. cbn [state_after].
    assert (file_ideas
              (set_DATA_FILE
                 (Parsed (JArr (JObj <$>
                    created payload (next_uuid w) (now w) :: file_ideas w)))
                 (draw (tick w)))
            = created payload (next_uuid w) (now w) :: file_ideas w) as Hfile.
    { apply file_ideas_written.
      constructor; [apply created_normalized|apply file_ideas_normalized]. }
    split.
    + intros _. rewrite !listed_ideas_file by done. exact Hfile.
    + intros id Hne. rewrite !getIdea_file by done. cbn [returned].
      f_equal. rewrite Hfile. cbn [find].
      assert (has_id id (created payload (next_uuid w) (now w)) = false)
        as ->; [|done].
      unfold has_id. rewrite created_id. cbn [strict_eq_str].
      apply String.eqb_neq. congruence.
Qed.

(** X13: with the payload [null], [createIdea] throws a [TypeError] and
    stores nothing: the documents, the tables and the ideas [listIdeas]
    returns are the ones before the call. *)
Theorem createIdea_null_payload_throws w :
  ∃ w',
    createIdea JNull w = Thrown TypeError w' ∧
    DATA_FILE w' = DATA_FILE w ∧ LABELS_FILE w' = LABELS_FILE w ∧
    ideas_table w' = ideas_table w ∧ labels_table w' = labels_table w ∧
    listed_ideas w' = listed_ideas w.
Proof.
  exists (draw (tick w)). split; [apply createIdea_null|].
  repeat split; try done.
  destruct (useSupabase w) eqn:E.
  - by rewrite !listed_ideas_supabase.
  - by rewrite !listed_ideas_file.
Qed.
End creating.

(** ** [deleteIdea] *)

Section deleting.
Context `{JsNumber number}.
Implicit Types (w : world number) (id k : string) (i e : object number).

Lemma deleteIdea_file w id :
  useSupabase w = false →
  deleteIdea id w =
    if Nat.eqb
         (List.length (List.filter (λ i, negb (has_id id i)) (file_ideas w)))
         (List.length (file_ideas w))
    then Returned false w
    else Returned true
           (set_DATA_FILE
              (Parsed (JArr (JObj <$>
                 List.filter (λ i, negb (has_id id i)) (file_ideas w)))) w).
Proof.
  intros E. unfold deleteIdea. unfold mbind at 1, js_bind at 1, reads.
  rewrite E. cbn [negb]. unfold mbind at 1, js_bind at 1.
  rewrite readIdeasFile_eq.
  by destruct (Nat.eqb _ _).
Qed.

Lemma deleteIdea_supabase w id c :
  useSupabase w = true →
  uuid_in id = Some c →
  deleteIdea id w =
    match ideas_table w !! c with
    | Some _ =>
        Returned true (set_ideas_table (delete c (ideas_table w)) w)
    | None => Returned false w
    end.
Proof.
  intros E Hc. unfold deleteIdea. unfold mbind at 1, js_bind at 1, reads.
  rewrite E. cbn [negb]. unfold mbind at 1, js_bind at 1, ideas_delete.
  rewrite Hc. by destruct (ideas_table w !! c).
Qed.

Lemma deleteIdea_supabase_invalid w id :
  useSupabase w = true →
  uuid_in id = None →
  deleteIdea id w = Thrown invalid_uuid w.
Proof.
  intros E Hc. unfold deleteIdea. unfold mbind at 1, js_bind at 1, reads.
  rewrite E. cbn [negb]. unfold mbind at 1, js_bind at 1, ideas_delete.
  by rewrite Hc.
Qed.

(** X14: where the store can look the id up (the ideas document looks up
    every text, the table the texts that denote a uuid), [deleteIdea]
    returns [true] exactly when [getIdea] found the id; afterwards [getIdea]
    of that id returns [null] and [getIdea] of an id looked up under another
    key returns what it returned before; when it returns [false] the state
    is unchanged.  Where the table cannot look the id up, [deleteIdea]
    throws the error of the database and the state is unchanged. *)
Theorem deleteIdea_removes_that_idea w id :
  match key w id with
  | None => deleteIdea id w = Thrown invalid_uuid w
  | Some _ =>
      ∃ deleted w',
        deleteIdea id w = Returned deleted w' ∧
        (deleted = true ↔ is_Some (found (getIdea id w))) ∧
        (deleted = false → w' = w) ∧
        getIdea id w' = Returned None w' ∧
        ∀ id', key w id' ≠ key w id →
          returned (getIdea id' w') = returned (getIdea id' w)
  end.
Proof.
  unfold key. destruct (useSupabase w) eqn:E.
  - destruct (uuid_in id) as [c|] eqn:Hc;
      [|by apply deleteIdea_supabase_invalid].
    rewrite (deleteIdea_supabase w id c), (getIdea_supabase w id c) by done.
    destruct (ideas_table w !! c) as [old|] eqn:Hold.
    + eexists. eexists. split; [reflexivity|].
      split; [split; eauto|]. split; [done|]. split.
      * rewrite (getIdea_supabase _ id c) by done.
        cbn [ideas_table set_ideas_table]. by rewrite lookup_delete_eq.
      * intros id' Hne. apply getIdea_frame; [done..|].
        intros c2 Hc2. cbn [ideas_table set_ideas_table].
        rewrite lookup_delete_ne; [done|]. intros <-. apply Hne. congruence.
    + exists false, w. split; [done|].
      split; [split; [done|by intros [? ?]]|]. split; [done|]. split.
      * rewrite (getIdea_supabase w id c) by done. by rewrite Hold.
      * done.
  - rewrite deleteIdea_file, getIdea_file by done.
    set (next := List.filter (λ i, negb (has_id id i)) (file_ideas w)).
    destruct (Nat.eqb (List.length next) (List.length (file_ideas w))) eqn:Hlen.
    + apply Nat.eqb_eq, filter_all in Hlen. fold next in Hlen.
      assert (find (has_id id) (file_ideas w) = None) as Hnone.
      { by apply filter_none_found. }
      exists false, w. split; [done|]. rewrite Hnone.
      split; [split; [done|by intros [? ?]]|]. split; [done|]. split.
      * rewrite getIdea_file by done. by rewrite Hnone.
      * done.
    + assert (file_ideas (set_DATA_FILE (Parsed (JArr (JObj <$> next))) w)
              = next) as Hfile.
      { apply file_ideas_written. apply Forall_forall. intros i Hin.
        apply list_elem_of_In, filter_In in Hin as [Hin _].
        pose proof (file_ideas_normalized w) as Hall.
        rewrite Forall_forall in Hall. by apply Hall, list_elem_of_In. }
      eexists. eexists. split; [reflexivity|]. split; [|split; [done|split]].
      * split; [intros _|done].
        destruct (find (has_id id) (file_ideas w)) as [e|] eqn:Hf; [by eauto|].
        apply filter_none_found in Hf. fold next in Hf.
        rewrite Hf, Nat.eqb_refl in Hlen. discriminate Hlen.
      * rewrite getIdea_file by done. rewrite Hfile. f_equal.
        apply find_filter_out.
      * intros id' Hne. assert (id' ≠ id) as Hid by congruence.
        rewrite !getIdea_file by done. cbn [returned].
        rewrite Hfile. f_equal. apply find_filter.
        intros i Hi. apply negb_true_iff. by apply (has_id_unique id').
Qed.
End deleting.

(** ** Labels, continued *)

Section more_labels.
Context `{JsNumber number}.
Implicit Types (w u : world number) (name id k : string).
Implicit Types (i e idea : object number) (l : value number).



(** X17: [removeLabel] leaves alone every idea that does not carry the
    label: an idea [getIdea] returned with another label is returned
    unchanged after the call, in both backends and whether or not the name
    was in the label set. *)
Theorem removeLabel_leaves_other_ideas w name id i :
  getIdea id w = Returned (Some i) w →
  has_label name i = false →
  getIdea id (state_after (removeLabel name w)) =
    Returned (Some i) (state_after (removeLabel name w)).
Proof.
  intros Hget Hno. destruct (useSupabase w) eqn:E.
  - destruct (removeLabel_supabase w name E)
      as (u & Hrm & Eu & _ & _ & _ & Hframe).
    rewrite Hrm. cbn [state_after].
    destruct (getIdea_supabase_found w id i w E Hget)
      as (c & old & Hc & Hcc & Hold & ->).
    rewrite (getIdea_supabase u id c) by done.
    rewrite Hframe; [by rewrite Hold|].
    rewrite (mentioned_idea w name c old) by done. by rewrite Hno.
  - rewrite getIdea_after_removeLabel_file by done.
    rewrite getIdea_file in Hget by done.
    assert (find (has_id id) (file_ideas w) = Some i) as -> by congruence.
    cbn [fmap option_fmap option_map]. by rewrite clear_label_other.
Qed.

(** X18: on the file store the cascade of [removeLabel] changes the label
    and nothing else: an idea that carried the label is afterwards the same
    record with the empty label; its [updatedAt] and every other field are
    the ones before. *)
Theorem removeLabel_file_clears_label_only w name id i :
  useSupabase w = false →
  getIdea id w = Returned (Some i) w →
  has_label name i = true →
  getIdea id (state_after (removeLabel name w)) =
    Returned (Some (<["label" := JStr ""]> i))
      (state_after (removeLabel name w)).
Proof.
  intros E Hget Hl. rewrite getIdea_after_removeLabel_file by done.
  rewrite getIdea_file in Hget by done.
  assert (find (has_id id) (file_ideas w) = Some i) as -> by congruence.
  cbn [fmap option_fmap option_map]. by rewrite clear_label_eq, Hl.
Qed.
End more_labels.

(** ** The Supabase store, continued *)

Section supabase_order.
Context `{JsNumber number}.
Implicit Types (w u : world number) (name id k c : string).
Implicit Types (i e idea : object number) (r old : row number).

Lemma cascade_stamps w0 lo (todo : list (object number)) w :
  useSupabase w = true →
  clock w = clock w0 →
  lo ≤ clock_reads w →
  (∀ idea, idea ∈ todo →
     ∃ c r, idea = api (selected c r) ∧ uuid_in c = Some c ∧
            is_Some (ideas_table w !! c)) →
  ∃ u,
    for_of todo clear_stored w = Returned tt u ∧
    useSupabase u = true ∧
    clock u = clock w0 ∧
    clock_reads u = clock_reads w + List.length todo ∧
    (∀ k, mentions todo k ∨ stamped w0 lo w k → stamped w0 lo u k).
Proof.
  revert w. induction todo as [|idea todo IH]; intros w E Hclock Hlo Hall.
  - exists w. split; [done|]. split; [done|]. split; [done|].
    split; [cbn; lia|].
    intros k [(i & Hin & _)|Hs]; [by apply elem_of_nil in Hin|done].
  - destruct (Hall idea) as (k & r & -> & Hk & [old Hold]); [left|].
    destruct (clear_stored_found w k r old E Hk Hold)
      as (new & Hstep & _ & Hnew).
    set (w1 := set_ideas_table (<[k := new]> (ideas_table w)) (tick w)) in *.
    destruct (IH w1) as (u & Hrest & Eu & Hcu & Hru & Hst).
    { done. }
    { done. }
    { cbn [w1 clock_reads set_ideas_table tick]. lia. }
    { intros i Hi. destruct (Hall i) as (k' & r' & -> & Hk' & Hsome); [by right|].
      exists k', r'. split; [done|]. split; [done|].
      cbn [w1 ideas_table set_ideas_table].
      destruct (decide (k = k')) as [<-|Hne].
      - rewrite lookup_insert_eq. eauto.
      - by rewrite lookup_insert_ne. }
    assert (stamped w0 lo w1 k) as Hstamp.
    { exists new, (clock_reads w). split; [|split; [|split]].
      - cbn [w1 ideas_table set_ideas_table]. apply lookup_insert_eq.
      - rewrite Hnew. unfold now. by rewrite Hclock.
      - done.
      - cbn [w1 clock_reads set_ideas_table tick]. lia. }
    exists u. split; [|split; [done|split; [done|split]]].
    + cbn [for_of]. unfold mbind at 1, js_bind at 1. by rewrite Hstep.
    + rewrite Hru. cbn [w1 clock_reads set_ideas_table tick List.length]. lia.
    + intros k' [(i & Hin & Hi)|Hs].
      * apply elem_of_cons in Hin as [->|Hin].
        -- rewrite read_id in Hi. assert (k' = k) as -> by congruence.
           apply Hst. by right.
        -- apply Hst. left. by exists i.
      * apply Hst. right. destruct (decide (k = k')) as [<-|Hne]; [done|].
        destruct Hs as (row & n & Hrow & Hr & Hn1 & Hn2).
        exists row, n. split; [|split; [done|split; [done|]]].
        -- cbn [w1 ideas_table set_ideas_table]. by rewrite lookup_insert_ne.
        -- cbn [w1 clock_reads set_ideas_table tick]. lia.
Qed.

(** X20: on Supabase the cascade of [removeLabel] goes through
    [updateIdea]: an idea that carried the label has afterwards, as
    [updatedAt], a reading of the clock taken during the call. *)
Theorem removeLabel_supabase_refreshes_updatedAt w name id i :
  useSupabase w = true →
  getIdea id w = Returned (Some i) w →
  has_label name i = true →
  let w' := state_after (removeLabel name w) in
  ∃ n, clock_reads w ≤ n ∧ n < clock_reads w' ∧
       field_of w' id "updatedAt" = Some (JStr (clock w n)).
Proof.
  intros E Hget Hl w'. subst w'.
  destruct (getIdea_supabase_found w id i w E Hget)
    as (c & old & Hc & Hcc & Hold & ->).
  set (todo := List.filter (has_label name) (listed_ideas w)).
  set (w1 := set_labels_table (labels_table w ∖ {[ name ]}) w).
  assert (listed_ideas w1 = listed_ideas w) as Hsame.
  { by rewrite !listed_ideas_supabase. }
  destruct (cascade_stamps w (clock_reads w) todo w1)
    as (u & Hloop & Eu & Hcu & Hru & Hst); [done|done|done| |].
  { intros idea Hin.
    destruct (listed_todo w name idea E Hin) as (k & r & -> & Hk & Hrow).
    exists k, r. split; [done|]. split; [done|].
    cbn [w1 ideas_table set_labels_table]. rewrite Hrow; eauto. }
  assert (removeLabel name w = Returned (listed_labels u) u) as Hrm.
  { rewrite removeLabel_supabase_eq by done.
    unfold mbind at 1, js_bind at 1, labels_delete, modify. fold w1.
    unfold mbind at 1, js_bind at 1.
    rewrite (listIdeas_supabase w1) by done.
    rewrite <- (listed_ideas_supabase w1), Hsame by done. fold todo.
    unfold mbind at 1, js_bind at 1. rewrite Hloop.
    unfold listed_labels. rewrite !listLabels_supabase by done. done. }
  rewrite Hrm. cbn [state_after].
  destruct (Hst c) as (row & n & Hrow & Hr & Hn1 & Hn2).
  { left. by apply (mentioned_idea w name c old). }
  exists n. split; [done|]. split; [done|].
  unfold field_of. rewrite (getIdea_supabase u id c) by done. rewrite Hrow.
  cbn [fmap option_fmap option_map found].
  by rewrite read_updatedAt, Hr.
Qed.
End supabase_order.


(** * The request handler *)

(** ** Dispatch *)

Ltac method_tests :=
  repeat match goal with
  | |- context [String.eqb (String ?c ?s) ?b] =>
      let v := eval vm_compute in (String.eqb (String c s) b) in
      change (String.eqb (String c s) b) with v
  end;
  rewrite ?andb_false_r, ?andb_true_r; cbn [andb].

Section dispatch.
Context `{JsNumber number}.
Variable decode : string → option string.
Implicit Types (w : world number) (r : request number) (id path rest : string).

Lemma routes_post_idea r :
  method r = "POST" → pathname r = "/api/ideas" →
  routes decode r = post_idea r.
Proof. intros Hm Hp. unfold routes. rewrite Hm, Hp. reflexivity. Qed.

Lemma routes_post_label r :
  method r = "POST" → pathname r = "/api/labels" →
  routes decode r = post_label r.
Proof. intros Hm Hp. unfold routes. rewrite Hm, Hp. reflexivity. Qed.

Lemma ideas_path_tests rest :
  String.eqb ("/api/ideas/" +:+ rest) "/api/health" = false ∧
  String.eqb ("/api/ideas/" +:+ rest) "/api/labels" = false ∧
  String.eqb ("/api/ideas/" +:+ rest) "/api/ideas" = false ∧
  String.prefix "/api/labels/" ("/api/ideas/" +:+ rest) = false ∧
  String.prefix "/api/ideas/" ("/api/ideas/" +:+ rest) = true.
Proof. repeat split; try reflexivity. by destruct rest. Qed.

Lemma routes_get_idea r rest :
  method r = "GET" → pathname r = "/api/ideas/" +:+ rest →
  routes decode r = get_idea r.
Proof.
  intros Hm Hp. unfold routes. rewrite Hm, Hp.
  destruct (ideas_path_tests rest) as (-> & -> & -> & -> & ->).
  by method_tests.
Qed.

Lemma routes_put_idea r rest :
  method r = "PUT" → pathname r = "/api/ideas/" +:+ rest →
  routes decode r = put_idea r.
Proof.
  intros Hm Hp. unfold routes. rewrite Hm, Hp.
  destruct (ideas_path_tests rest) as (-> & -> & -> & -> & ->).
  by method_tests.
Qed.

Lemma routes_delete_idea r rest :
  method r = "DELETE" → pathname r = "/api/ideas/" +:+ rest →
  routes decode r = delete_idea r.
Proof.
  intros Hm Hp. unfold routes. rewrite Hm, Hp.
  destruct (ideas_path_tests rest) as (-> & -> & -> & -> & ->).
  by method_tests.
Qed.
Lemma split_nonempty sep s : split sep s ≠ [].
Proof.
  destruct s as [|c s]; simpl; [done|].
  destruct (Ascii.eqb c sep); [done|]. by destruct (split sep s).
Qed.

Lemma unsplit_split sep s : unsplit sep (split sep s) = s.
Proof.
  induction s as [|c s IH]; [done|]. cbn [split].
  destruct (Ascii.eqb c sep) eqn:Ec.
  - apply Ascii.eqb_eq in Ec as ->. pose proof (split_nonempty sep s).
    destruct (split sep s) as [|h t] eqn:Hs; [done|].
    cbn [unsplit]. cbn [unsplit] in IH. by rewrite IH.
  - pose proof (split_nonempty sep s).
    destruct (split sep s) as [|h t] eqn:Hs; [done|].
    destruct t as [|h' t]; cbn [unsplit] in *; [by rewrite IH|].
    by rewrite append_cons, IH.
Qed.

Lemma idea_action_path action path :
  idea_action action path = true →
  ∃ id, id ≠ "" ∧ split "/" path = [""; "api"; "ideas"; id; action] ∧
        path = "/api/ideas/" +:+ (id +:+ "/" +:+ action).
Proof.
  unfold idea_action. intros Ha.
  destruct (split "/" path) as [|a [|b [|c [|d [|e [|f l]]]]]] eqn:Hs;
    try discriminate.
  rewrite !andb_true_iff, negb_true_iff, !String.eqb_eq, String.eqb_neq in Ha.
  destruct Ha as [[[[-> ->] ->] Hd] ->].
  exists d. split; [done|]. split; [done|].
  rewrite <- (unsplit_split "/" path), Hs. reflexivity.
Qed.


Lemma idea_action_fourth action path id :
  idea_action action path = true →
  fourth_segment path = Some id →
  path = "/api/ideas/" +:+ (id +:+ "/" +:+ action).
Proof.
  intros (id' & _ & Hs & Hp)%idea_action_path. unfold fourth_segment.
  rewrite Hs. by intros [= <-].
Qed.


Lemma routes_post_research r :
  method r = "POST" → idea_action "research" (pathname r) = true →
  routes decode r = post_research r.
Proof.
  intros Hm Ha.
  destruct (idea_action_path _ _ Ha) as (id & _ & _ & Hp).
  unfold routes. rewrite Hm, Ha. rewrite Hp.
  destruct (ideas_path_tests (id +:+ "/" +:+ "research"))
    as (-> & -> & -> & -> & ->).
  by method_tests.
Qed.
End dispatch.

(** ** Creating ideas and labels over HTTP *)

Section posting.
Context `{JsNumber number}.
Variable decode : string → option string.
Implicit Types (w : world number) (r : request number) (id path rest : string).
Implicit Types (payload : value number).

Lemma handle_not_options r w :
  String.eqb (method r) "OPTIONS" = false →
  handle decode r w =
    match routes decode r w with
    | Returned resp w' => (resp, w')
    | Thrown e w' => (InternalError (Raised e), w')
    end.
Proof. intros Hm. unfold handle. by rewrite Hm. Qed.

Lemma with_body_payload r payload (k : value number → js number (response number)) :
  request_payload r = Some payload → with_body r k = k payload.
Proof.
  unfold request_payload, with_body.
  destruct (body r) as [[|v]|]; [done|by intros [= ->]|by intros [= <-]].
Qed.


Lemma field_text_Normal payload k t :
  field_text payload k = Normal t →
  ∃ s, ToString (or_else (prop payload k) (JStr "")) = Normal s ∧ t = trim s.
Proof.
  unfold field_text. destruct (ToString _) as [s|x]; [|discriminate].
  intros [= <-]. by exists s.
Qed.

Lemma field_text_Abrupt payload k x :
  field_text payload k = Abrupt x →
  ToString (or_else (prop payload k) (JStr "")) = Abrupt x.
Proof.
  unfold field_text. destruct (ToString _) as [s|y]; [discriminate|].
  by intros [= <-].
Qed.

(** X21: [POST /api/ideas] requires a title: when the title of the payload
    is missing, falsy or blank once converted to text and trimmed, the
    reply is 400 with the error ["title is required"] and the state is
    unchanged. *)
Theorem post_idea_without_title_is_refused r w payload :
  method r = "POST" → pathname r = "/api/ideas" →
  request_payload r = Some payload → payload ≠ JNull →
  field_text payload "title" = Normal "" →
  handle decode r w = (Json 400 (error "title is required"), w).
Proof.
  intros Hm Hp Hb Hn Ht. rewrite handle_not_options by by rewrite Hm.
  rewrite routes_post_idea by done. unfold post_idea.
  rewrite (with_body_payload r payload) by done.
  rewrite get_prop by done. rewrite lift_Normal. cbv beta.
  destruct (field_text_Normal _ _ _ Ht) as (s & Hs & Htrim).
  rewrite Hs, lift_Normal. cbv beta.
  by rewrite <- Htrim.
Qed.



End posting.

(** ** Reading and changing ideas over HTTP *)

Section idea_routes.
Context `{JsNumber number}.
Variable decode : string → option string.
Implicit Types (w : world number) (r : request number) (id path rest : string).
Implicit Types (payload : value number) (e idea : object number).

Lemma updateIdea_not_found w id payload :
  getIdea id w = Returned None w → updateIdea id payload w = Returned None w.
Proof.
  intros Hget. destruct (useSupabase w) eqn:E.
  - unfold updateIdea. unfold mbind at 1, js_bind at 1, reads.
    rewrite E. cbn [negb]. unfold mbind at 1, js_bind at 1.
    by rewrite Hget.
  - rewrite getIdea_file in Hget by done.
    apply updateIdea_file_absent; [done|]. congruence.
Qed.

Lemma deleteIdea_not_found w id :
  getIdea id w = Returned None w → deleteIdea id w = Returned false w.
Proof.
  intros Hget. destruct (useSupabase w) eqn:E.
  - destruct (uuid_in id) as [c|] eqn:Hc.
    + rewrite (getIdea_supabase w id c) in Hget by done.
      rewrite (deleteIdea_supabase w id c) by done.
      by destruct (ideas_table w !! c).
    + rewrite getIdea_supabase_invalid in Hget by done. discriminate Hget.
  - rewrite getIdea_file in Hget by done.
    assert (find (has_id id) (file_ideas w) = None) as Hnone by congruence.
    rewrite deleteIdea_file by done.
    apply filter_none_found in Hnone. rewrite Hnone.
    by rewrite Nat.eqb_refl.
Qed.

(** X24: an unknown idea is a 404, not an error: when [getIdea] does not
    find the last segment of the path, [GET], [PUT] (with a readable body)
    and [DELETE] on [/api/ideas/...] reply 404 with the error ["not found"]
    and leave the state unchanged. *)
Theorem unknown_idea_is_404 rest b w :
  let path := "/api/ideas/" +:+ rest in
  getIdea (last_segment path) w = Returned None w →
  handle decode (Request "GET" path b) w = (Json 404 (error "not found"), w) ∧
  handle decode (Request "DELETE" path b) w
    = (Json 404 (error "not found"), w) ∧
  (b ≠ Some Unreadable →
   handle decode (Request "PUT" path b) w
     = (Json 404 (error "not found"), w)).
Proof.
  intros path Hget. split; [|split].
  - rewrite handle_not_options by done.
    rewrite (routes_get_idea decode _ rest) by done.
    unfold get_idea. unfold mbind at 1, js_bind at 1.
    cbn [pathname]. by rewrite Hget.
  - rewrite handle_not_options by done.
    rewrite (routes_delete_idea decode _ rest) by done.
    unfold delete_idea. unfold mbind at 1, js_bind at 1.
    cbn [pathname]. by rewrite deleteIdea_not_found.
  - intros Hb. rewrite handle_not_options by done.
    rewrite (routes_put_idea decode _ rest) by done.
    unfold put_idea, with_body. cbn [pathname body].
    destruct b as [[|payload]|]; [done|..];
      unfold mbind at 1, js_bind at 1;
      by rewrite updateIdea_not_found.
Qed.

Lemma listLabels_returns w : ∃ l, listLabels w = Returned l w.
Proof.
  destruct (useSupabase w) eqn:E.
  - rewrite listLabels_supabase by done. eauto.
  - rewrite listLabels_file by done. eauto.
Qed.

Lemma listIdeas_returns w : ∃ l, listIdeas w = Returned l w.
Proof.
  destruct (useSupabase w) eqn:E.
  - rewrite listIdeas_supabase by done. eauto.
  - rewrite listIdeas_file by done. eauto.
Qed.

(** X25: a [GET] request never changes the state, whatever its path and
    body, and neither does [OPTIONS]. *)
Theorem get_requests_are_read_only r w :
  method r = "GET" ∨ method r = "OPTIONS" →
  (handle decode r w).2 = w.
Proof.
  intros [Hm|Hm]; [|by unfold handle; rewrite Hm].
  rewrite handle_not_options by by rewrite Hm.
  unfold routes. rewrite Hm. method_tests.
  repeat match goal with
  | |- context [if ?c then _ else _] => destruct c
  end.
  - done.
  - unfold mbind at 1, js_bind at 1.
    by destruct (listLabels_returns w) as [l ->].
  - unfold mbind at 1, js_bind at 1.
    by destruct (listIdeas_returns w) as [l ->].
  - unfold get_idea. unfold mbind at 1, js_bind at 1.
    destruct (getIdea_outcome w (last_segment (pathname r)))
      as [[[i|] ->]| ->]; done.
  - done.
Qed.
End idea_routes.

(** ** The chat and research routes *)

Section chat.
Context `{JsNumber number}.
Variable decode : string → option string.
Implicit Types (w : world number) (r : request number) (id path rest : string).
Implicit Types (payload p : value number) (e idea : object number).



Lemma prefix_append a b : String.prefix a (a +:+ b) = true.
Proof.
  induction a as [|c a IH]; [by destruct b|].
  rewrite append_cons. cbn [String.prefix].
  destruct (ascii_dec c c); [exact IH|done].
Qed.

(** X27: the research route reads only: for an existing idea
    [POST /api/ideas/<id>/research] replies 200 with the brief
    [buildResearchBrief] makes of the idea, which opens with the project
    line; when making the brief throws (a title, status, label, description
    or tag that cannot be converted to text, tags that are a text), the
    reply is the one of the [catch] block; the state is unchanged either
    way. *)
Theorem research_brief_is_read_only r w id e :
  method r = "POST" →
  idea_action "research" (pathname r) = true →
  fourth_segment (pathname r) = Some id →
  getIdea id w = Returned (Some e) w →
  match buildResearchBrief e with
  | Normal brief =>
      (∃ title, interpolate (e !! "title") = Normal title ∧
                String.prefix ("Project: " +:+ title) brief = true) ∧
      handle decode r w =
        (Json 200 (JObj {[ "research" := JStr brief ]}), w)
  | Abrupt x => handle decode r w = (InternalError (Raised x), w)
  end.
Proof.
  intros Hm Ha Hid Hget.
  assert (handle decode r w =
          match buildResearchBrief e with
          | Normal brief =>
              (Json 200 (JObj {[ "research" := JStr brief ]}), w)
          | Abrupt x => (InternalError (Raised x), w)
          end) as ->.
  { rewrite handle_not_options by by rewrite Hm.
    rewrite routes_post_research by done. unfold post_research.
    rewrite Hid. unfold mbind at 1, js_bind at 1. rewrite Hget.
    unfold mbind at 1, js_bind at 1.
    by destruct (buildResearchBrief e). }
  destruct (buildResearchBrief e) as [brief|x] eqn:Hbrief; [|done].
  split; [|done].
  unfold buildResearchBrief in Hbrief.
  unfold mbind, completion_bind, mret, completion_ret in Hbrief.
  destruct (join_or_throw ", " (e !! "tags")); [|discriminate].
  destruct (interpolate (e !! "title")) as [title|]; [|discriminate].
  destruct (ToString (or_else (e !! "status") _)); [|discriminate].
  destruct (ToString (or_else (e !! "label") _)); [|discriminate].
  destruct (ToString (or_else (e !! "description") _)); [|discriminate].
  injection Hbrief as <-. exists title. split; [done|].
  cbn [join_lines]. apply prefix_append.
Qed.
End chat.

(** ** The reply generator *)

Lemma lower_char_idem c : lower_char (lower_char c) = lower_char c.
Proof. by destruct c as [[] [] [] [] [] [] [] []]. Qed.

Lemma is_white_lower_char c : is_white (lower_char c) = is_white c.
Proof. by destruct c as [[] [] [] [] [] [] [] []]. Qed.

Lemma toLowerCase_idem s : toLowerCase (toLowerCase s) = toLowerCase s.
Proof.
  induction s as [|c s IH]; [done|]. cbn [toLowerCase].
  by rewrite lower_char_idem, IH.
Qed.

Lemma toLowerCase_empty s : toLowerCase s = "" ↔ s = "".
Proof. by destruct s. Qed.

Lemma trimStart_toLowerCase s :
  trimStart (toLowerCase s) = toLowerCase (trimStart s).
Proof.
  induction s as [|c s IH]; [done|]. cbn [toLowerCase trimStart].
  rewrite is_white_lower_char. by destruct (is_white c).
Qed.

Lemma trimEnd_toLowerCase s :
  trimEnd (toLowerCase s) = toLowerCase (trimEnd s).
Proof.
  induction s as [|c s IH]; [done|]. cbn [toLowerCase trimEnd].
  rewrite IH, is_white_lower_char.
  destruct (trimEnd s); cbn [toLowerCase]; [by destruct (is_white c)|done].
Qed.

Lemma trim_toLowerCase s : trim (toLowerCase s) = toLowerCase (trim s).
Proof. unfold trim. by rewrite trimStart_toLowerCase, trimEnd_toLowerCase. Qed.

Lemma trimStart_white pre s :
  all_white pre = true → trimStart (pre +:+ s) = trimStart s.
Proof.
  induction pre as [|c pre IH]; [done|]. cbn [all_white].
  intros [Hc Hpre]%andb_true_iff. rewrite append_cons. cbn [trimStart].
  rewrite Hc. by apply IH.
Qed.

Lemma trimStart_all_white s : all_white s = true → trimStart s = "".
Proof.
  induction s as [|c s IH]; [done|]. cbn [all_white trimStart].
  intros [-> Hs]%andb_true_iff. by apply IH.
Qed.

Lemma trimEnd_all_white s : all_white s = true → trimEnd s = "".
Proof.
  induction s as [|c s IH]; [done|]. cbn [all_white trimEnd].
  intros [-> Hs]%andb_true_iff. by rewrite IH.
Qed.

Lemma trimEnd_white s post :
  all_white post = true → trimEnd (s +:+ post) = trimEnd s.
Proof.
  intros Hpost. induction s as [|c s IH].
  - by apply trimEnd_all_white.
  - rewrite append_cons. cbn [trimEnd]. by rewrite IH.
Qed.

Lemma trimStart_append s t :
  trimStart (s +:+ t) =
    match trimStart s with
    | EmptyString => trimStart t
    | kept => kept +:+ t
    end.
Proof.
  induction s as [|c s IH]; [done|]. rewrite append_cons. cbn [trimStart].
  destruct (is_white c); [exact IH|done].
Qed.

Lemma trim_padding pre s post :
  all_white pre = true → all_white post = true →
  trim (pre +:+ s +:+ post) = trim s.
Proof.
  intros Hpre Hpost. unfold trim.
  rewrite trimStart_white, trimStart_append by done.
  destruct (trimStart s) as [|c kept] eqn:Hs.
  - by rewrite trimStart_all_white.
  - by apply trimEnd_white.
Qed.

Section replies.
Context `{JsNumber number}.
Implicit Types (idea : object number) (s : string).

Lemma generateAIReply_text idea s :
  generateAIReply idea (Some (JStr s)) =
  generateAIReply idea (Some (JStr (trim s))).
Proof.
  unfold generateAIReply. rewrite !or_else_text. cbn [ToString].
  cbn [mbind completion_bind].
  assert (trim (trim s) = trim s) as ->; [|done].
  rewrite <- (trim_padding "" (trim s) "") by done.
  destruct (trim_strips s) as (pre & post & Hs & Hpre & Hpost & _).
  rewrite Hs at 2. rewrite trim_padding by done.
  by rewrite trim_padding.
Qed.

(** X28: the reply does not depend on the letter case of the message nor
    on white space around it: a message and the same message in lower case,
    or padded with white space, get the same reply. *)
Theorem generateAIReply_ignores_case_and_padding idea s pre post :
  all_white pre = true → all_white post = true →
  generateAIReply idea (Some (JStr (toLowerCase s))) =
    generateAIReply idea (Some (JStr s)) ∧
  generateAIReply idea (Some (JStr (pre +:+ s +:+ post))) =
    generateAIReply idea (Some (JStr s)).
Proof.
  intros Hpre Hpost. split.
  - unfold generateAIReply. rewrite !or_else_text. cbn [ToString].
    cbn [mbind completion_bind].
    rewrite trim_toLowerCase, toLowerCase_idem.
    destruct (String.eqb (trim s) "") eqn:Es.
    + apply String.eqb_eq in Es. by rewrite Es.
    + assert (String.eqb (toLowerCase (trim s)) "" = false) as ->; [|done].
      apply String.eqb_neq. rewrite toLowerCase_empty.
      by apply String.eqb_neq.
  - unfold generateAIReply. rewrite !or_else_text. cbn [ToString].
    cbn [mbind completion_bind].
    by rewrite trim_padding.
Qed.

Lemma mvp_plan_nonempty title : mvp_plan title ≠ "".
Proof. discriminate. Qed.

Lemma good_question_nonempty title : good_question title ≠ "".
Proof. discriminate. Qed.

(** X29: the keywords are tried in a fixed order: a message that mentions
    [mvp], in any letter case, gets the MVP plan for the idea's title, also
    when it mentions a stack, a risk or a problem as well, and the call
    throws when that title cannot be converted to text; a message that
    cannot be converted to text makes the call throw; and no reply is
    empty. *)
Theorem generateAIReply_mvp_comes_first idea message :
  match ToString (or_else message (JStr "")) with
  | Normal msg =>
      str_includes "mvp" (toLowerCase (trim msg)) = true →
      generateAIReply idea message =
        match interpolate (idea !! "title") with
        | Normal title =>
            Normal
              ("MVP plan for " +:+ QUOTE +:+ title +:+ QUOTE
                 +:+ ":" +:+ LF +:+ "1) Single core workflow only"
                 +:+ LF +:+ "2) Manual fallback for weak AI parts"
                 +:+ LF +:+ "3) Capture user feedback + one quality metric"
                 +:+ LF +:+ "4) Ship in 7 days, then iterate.")
        | Abrupt x => Abrupt x
        end
  | Abrupt x => generateAIReply idea message = Abrupt x
  end ∧
  ∀ reply, generateAIReply idea message = Normal reply → reply ≠ "".
Proof.
  split.
  - unfold generateAIReply.
    destruct (ToString (or_else message (JStr ""))) as [msg|x]; [|done].
    intros Hmvp. cbn [mbind completion_bind]. rewrite Hmvp. cbn [orb].
    destruct (String.eqb _ "") eqn:Es.
    { apply String.eqb_eq in Es. by rewrite Es in Hmvp. }
    by destruct (interpolate (idea !! "title")).
  - intros reply. unfold generateAIReply.
    destruct (ToString (or_else message (JStr ""))) as [msg|x]; [|done].
    cbn [mbind completion_bind].
    repeat match goal with
    | |- context [if ?c then _ else _] => destruct c
    end;
    try (destruct (interpolate (idea !! "title")) as [title|];
         cbn [mbind completion_bind mret completion_ret]);
    intros [= <-]; discriminate.
Qed.
End replies.


(** ** Unreadable bodies *)

Section unreadable.
Context `{JsNumber number}.
Variable decode : string → option string.
Implicit Types (w : world number) (r : request number) (id path rest : string).

Lemma with_body_unreadable r k w :
  body r = Some Unreadable →
  with_body r k w = Returned (InternalError MalformedBody) w.
Proof. intros Hb. unfold with_body. by rewrite Hb. Qed.

(** X30: a body that is not JSON stores nothing: a request with such a body
    and a method other than [DELETE] leaves the state unchanged, and where
    the route reads the body ([POST /api/labels], [POST /api/ideas],
    [PUT /api/ideas/...]) the reply is the one of the [catch] block. *)
Theorem unreadable_body_stores_nothing r w :
  body r = Some Unreadable →
  method r ≠ "DELETE" →
  (handle decode r w).2 = w ∧
  (method r = "POST" →
   pathname r = "/api/labels" ∨ pathname r = "/api/ideas" →
   (handle decode r w).1 = InternalError MalformedBody) ∧
  (∀ rest, method r = "PUT" → pathname r = "/api/ideas/" +:+ rest →
   (handle decode r w).1 = InternalError MalformedBody).
Proof.
  intros Hb Hm. split; [|split].
  - unfold handle. destruct (String.eqb (method r) "OPTIONS"); [done|].
    unfold routes. apply String.eqb_neq in Hm. rewrite Hm, !andb_false_r.
    repeat match goal with
    | |- context [if ?c then _ else _] => destruct c
    end; try done.
    + unfold mbind at 1, js_bind at 1.
      by destruct (listLabels_returns w) as [l ->].
    + unfold post_label. by rewrite with_body_unreadable.
    + unfold mbind at 1, js_bind at 1.
      by destruct (listIdeas_returns w) as [l ->].
    + unfold post_idea. by rewrite with_body_unreadable.
    + unfold post_research.
      destruct (fourth_segment (pathname r)) as [id|]; [|done].
      unfold mbind at 1, js_bind at 1.
      destruct (getIdea_outcome w id) as [[[i|] ->]| ->]; [|done..].
      unfold mbind, js_bind, lift. by destruct (buildResearchBrief i).
    + unfold post_ai_chat.
      destruct (fourth_segment (pathname r)) as [id|]; [|done].
      unfold mbind at 1, js_bind at 1.
      destruct (getIdea_outcome w id) as [[[i|] ->]| ->]; [|done..].
      by rewrite with_body_unreadable.
    + unfold get_idea. unfold mbind at 1, js_bind at 1.
      destruct (getIdea_outcome w (last_segment (pathname r)))
        as [[[i|] ->]| ->]; done.
    + unfold put_idea. by rewrite with_body_unreadable.
  - intros Hpost [Hp|Hp]; rewrite handle_not_options by by rewrite Hpost.
    + rewrite routes_post_label by done.
      unfold post_label. by rewrite with_body_unreadable.
    + rewrite routes_post_idea by done.
      unfold post_idea. by rewrite with_body_unreadable.
  - intros rest Hput Hp. rewrite handle_not_options by by rewrite Hput.
    rewrite (routes_put_idea decode _ rest) by done.
    unfold put_idea. by rewrite with_body_unreadable.
Qed.
End unreadable.

(** ** Instances of the further properties *)

Lemma normalizeIdea_idempotent_witness :
  normalizeIdea raw_idea = Normal raw_idea_normalized ∧
  normalizeIdea (JObj raw_idea_normalized) = Normal raw_idea_normalized.
Proof.
  assert (normalizeIdea raw_idea = Normal raw_idea_normalized) as H1
    by reflexivity.
  split; [exact H1|].
  exact (normalizeIdea_idempotent raw_idea raw_idea_normalized H1).
Defined.

Lemma null_entry_hides_all_ideas_witness :
  JNull ∈ [raw_idea; @JNull Z] ∧
  listIdeas file_store_with_null_entry =
    Returned [] file_store_with_null_entry ∧
  getIdea first_id file_store_with_null_entry =
    Returned None file_store_with_null_entry.
Proof.
  assert (JNull ∈ [raw_idea; @JNull Z]) as H1 by repeat constructor.
  split; [exact H1|].
  exact (null_entry_hides_all_ideas file_store_with_null_entry
           [raw_idea; JNull] first_id eq_refl eq_refl H1).
Defined.

Lemma listIdeas_file_one_per_entry_witness :
  (JNull ∉ [raw_idea; JNum 5%Z; JStr "ab"]) ∧
  ∃ ideas,
    listIdeas file_store_with_raw_entries =
      Returned ideas file_store_with_raw_entries ∧
    List.length ideas = 3 ∧ Forall normalized ideas.
Proof.
  assert (JNull ∉ [raw_idea; JNum 5%Z; JStr "ab"]) as H1.
  { unfold raw_idea. intros Hin.
    repeat (apply elem_of_cons in Hin as [Heq|Hin]; [discriminate Heq|]).
    by apply elem_of_nil in Hin. }
  split; [exact H1|].
  exact (listIdeas_file_one_per_entry file_store_with_raw_entries
           [raw_idea; JNum 5%Z; JStr "ab"] eq_refl eq_refl H1).
Defined.

Lemma column_mapping_roundtrip_witness :
  normalized growth_idea ∧ plain growth_idea ∧
  dbIdeaToApi (apiIdeaToDb growth_idea) = Normal growth_idea.
Proof.
  assert (normalized growth_idea) as H1 by reflexivity.
  assert (plain growth_idea) as H2.
  { intros k Hk. destruct (growth_idea !! k) eqn:E; [|reflexivity].
    exfalso. apply Hk. apply (elem_of_dom_2 (D := gset string)) in E.
    assert (dom growth_idea = list_to_set idea_fields) as Hdom
      by reflexivity.
    rewrite Hdom in E. by apply elem_of_list_to_set in E. }
  split; [exact H1|]. split; [exact H2|].
  exact (column_mapping_roundtrip growth_idea H1 H2).
Defined.



Lemma updateIdea_leaves_other_ideas_witness :
  key file_store_with_two second_id ≠ key file_store_with_two first_id ∧
  returned (getIdea second_id
              (state_after (updateIdea first_id
                              (JObj {[ "title" := JStr "Ship v3" ]})
                              file_store_with_two))) =
  returned (getIdea second_id file_store_with_two).
Proof.
  assert (key file_store_with_two second_id ≠ key file_store_with_two first_id)
    as H1 by discriminate.
  split; [exact H1|].
  exact (updateIdea_leaves_other_ideas file_store_with_two first_id second_id
           (JObj {[ "title" := JStr "Ship v3" ]}) H1).
Defined.

(** On the table two spellings of one uuid are one idea: an update under
    the one is seen under the other. *)
Example updateIdea_reaches_other_spelling :
  let w := supabase_store_with_idea in
  let id' := "{00000000-0000-4000-8000-000000000000}" in
  let payload : value Z := JObj {[ "title" := JStr "Ship v3" ]} in
  id' ≠ first_id ∧
  key w id' = key w first_id ∧
  (λ i, i !! "title") <$>
    found (getIdea id' w) = Some (Some (JStr "Ship v2")) ∧
  (λ i, i !! "title") <$>
    found (getIdea id' (state_after (updateIdea first_id payload w)))
    = Some (Some (JStr "Ship v3")).
Proof.
  intros w id' payload. split; [discriminate|].
  split; [reflexivity|]. split; reflexivity.
Qed.

Lemma updateIdea_null_payload_throws_witness :
  getIdea first_id supabase_store_with_idea =
    Returned (Some growth_idea) supabase_store_with_idea ∧
  updateIdea first_id JNull supabase_store_with_idea =
    Thrown TypeError supabase_store_with_idea.
Proof.
  assert (getIdea first_id supabase_store_with_idea =
            Returned (Some growth_idea) supabase_store_with_idea) as H1
    by reflexivity.
  split; [exact H1|].
  exact (updateIdea_null_payload_throws supabase_store_with_idea first_id
           growth_idea H1).
Defined.


Lemma createIdea_keeps_existing_witness :
  let w := supabase_store_with_idea in
  let w' := state_after (createIdea title_payload w) in
  create_texts title_payload = true ∧
  ideas_table w !! next_uuid w = None ∧
  not_null (prop title_payload "title") = true ∧
  key w first_id ≠ Some (next_uuid w) ∧
  returned (getIdea first_id w') = returned (getIdea first_id w).
Proof.
  intros w w'.
  assert (title_payload ≠ JNull) as H1 by discriminate.
  assert (create_texts title_payload = true) as H2 by reflexivity.
  assert (ideas_table w !! next_uuid w = None) as H3 by reflexivity.
  assert (not_null (prop title_payload "title") = true) as H4 by reflexivity.
  assert (key w first_id ≠ Some (next_uuid w)) as H5 by discriminate.
  split; [exact H2|]. split; [exact H3|]. split; [exact H4|].
  split; [exact H5|].
  exact (proj2 (createIdea_keeps_existing w title_payload H1 H2
                  (λ _, conj H3 H4)) first_id H5).
Defined.

Lemma removeLabel_leaves_other_ideas_witness :
  let w := file_store_with_two in
  getIdea second_id w = Returned (Some docs_idea) w ∧
  has_label "Growth" docs_idea = false ∧
  getIdea second_id (state_after (removeLabel "Growth" w)) =
    Returned (Some docs_idea) (state_after (removeLabel "Growth" w)).
Proof.
  intros w.
  assert (getIdea second_id w = Returned (Some docs_idea) w) as H1
    by reflexivity.
  assert (has_label "Growth" docs_idea = false) as H2
    by reflexivity.
  split; [exact H1|]. split; [exact H2|].
  exact (removeLabel_leaves_other_ideas w "Growth" second_id docs_idea H1 H2).
Defined.

Lemma removeLabel_file_clears_label_only_witness :
  let w := file_store_with_two in
  getIdea first_id w = Returned (Some growth_idea) w ∧
  has_label "Growth" growth_idea = true ∧
  getIdea first_id (state_after (removeLabel "Growth" w)) =
    Returned (Some (<["label" := JStr ""]> growth_idea))
      (state_after (removeLabel "Growth" w)).
Proof.
  intros w.
  assert (getIdea first_id w = Returned (Some growth_idea) w) as H1
    by reflexivity.
  assert (has_label "Growth" growth_idea = true) as H2
    by reflexivity.
  split; [exact H1|]. split; [exact H2|].
  exact (removeLabel_file_clears_label_only w "Growth" first_id growth_idea
           eq_refl H1 H2).
Defined.

Lemma removeLabel_supabase_refreshes_updatedAt_witness :
  let w := supabase_store_with_idea in
  let w' := state_after (removeLabel "Growth" w) in
  getIdea first_id w = Returned (Some growth_idea) w ∧
  has_label "Growth" growth_idea = true ∧
  ∃ n, clock_reads w ≤ n ∧ n < clock_reads w' ∧
       field_of w' first_id "updatedAt" = Some (JStr (clock w n)).
Proof.
  intros w w'.
  assert (getIdea first_id w = Returned (Some growth_idea) w) as H1
    by reflexivity.
  assert (has_label "Growth" growth_idea = true) as H2
    by reflexivity.
  split; [exact H1|]. split; [exact H2|].
  exact (removeLabel_supabase_refreshes_updatedAt w "Growth" first_id
           growth_idea eq_refl H1 H2).
Defined.

Lemma post_idea_without_title_is_refused_witness :
  let r := Request "POST" "/api/ideas" (Some (Parsed blank_title_payload)) in
  field_text blank_title_payload "title" = Normal "" ∧
  handle plain_decode r file_store_with_idea =
    (Json 400 (error "title is required"), file_store_with_idea).
Proof.
  intros r.
  assert (blank_title_payload ≠ JNull) as H1 by discriminate.
  assert (field_text blank_title_payload "title" = Normal "") as H2
    by reflexivity.
  split; [exact H2|].
  exact (post_idea_without_title_is_refused plain_decode r
           file_store_with_idea blank_title_payload
           eq_refl eq_refl eq_refl H1 H2).
Defined.



Lemma unknown_idea_is_404_witness :
  let path := "/api/ideas/" +:+ second_id in
  let w := file_store_with_idea in
  getIdea (last_segment path) w = Returned None w ∧
  handle plain_decode (Request "GET" path None) w
    = (Json 404 (error "not found"), w) ∧
  handle plain_decode (Request "DELETE" path None) w
    = (Json 404 (error "not found"), w) ∧
  handle plain_decode (Request "PUT" path None) w
    = (Json 404 (error "not found"), w).
Proof.
  intros path w.
  assert (getIdea (last_segment path) w = Returned None w) as H1
    by reflexivity.
  assert (None ≠ Some (@Unreadable Z)) as H2 by discriminate.
  destruct (unknown_idea_is_404 plain_decode second_id None w H1)
    as (Hget & Hdelete & Hput).
  split; [exact H1|]. split; [exact Hget|]. split; [exact Hdelete|].
  exact (Hput H2).
Defined.

Lemma get_requests_are_read_only_witness :
  (handle plain_decode (Request "GET" "/api/ideas" None)
     file_store_with_two).2 = file_store_with_two.
Proof.
  exact (get_requests_are_read_only plain_decode
           (Request "GET" "/api/ideas" None) file_store_with_two
           (or_introl eq_refl)).
Defined.


Lemma research_brief_is_read_only_witness :
  let r := Request "POST" research_path None in
  let w := supabase_store_with_idea in
  getIdea first_id w = Returned (Some growth_idea) w ∧
  ∃ brief,
    buildResearchBrief growth_idea = Normal brief ∧
    String.prefix "Project: Ship v2" brief = true ∧
    handle plain_decode r w =
      (Json 200 (JObj {[ "research" := JStr brief ]}), w).
Proof.
  intros r w.
  assert (getIdea first_id w = Returned (Some growth_idea) w) as H1
    by reflexivity.
  assert (idea_action "research" (pathname r) = true) as H2
    by reflexivity.
  assert (fourth_segment (pathname r) = Some first_id) as H3
    by reflexivity.
  split; [exact H1|].
  pose proof (research_brief_is_read_only plain_decode r w first_id
                growth_idea eq_refl H2 H3 H1) as Hr.
  destruct (buildResearchBrief growth_idea) as [brief|x] eqn:Hb.
  - exists brief. destruct Hr as [(title & Ht & Hprefix) Hreply].
    split; [reflexivity|]. split; [|exact Hreply].
    assert (title = "Ship v2") as <-; [|exact Hprefix].
    assert (interpolate (growth_idea !! "title") = Normal "Ship v2") as Hi
      by reflexivity.
    congruence.
  - exfalso.
    assert (∃ brief, buildResearchBrief growth_idea = Normal brief)
      as [brief Hn] by (eexists; reflexivity).
    congruence.
Defined.

Lemma generateAIReply_ignores_case_and_padding_witness :
  generateAIReply growth_idea (Some (JStr "what is the mvp?")) =
    generateAIReply growth_idea (Some (JStr "What is the MVP?")) ∧
  generateAIReply growth_idea (Some (JStr " What is the MVP?  ")) =
    generateAIReply growth_idea (Some (JStr "What is the MVP?")).
Proof.
  exact (generateAIReply_ignores_case_and_padding growth_idea
           "What is the MVP?" " " "  " eq_refl eq_refl).
Defined.

Lemma generateAIReply_mvp_comes_first_witness :
  str_includes "mvp" (toLowerCase (trim "MVP or a stack?")) = true ∧
  generateAIReply growth_idea (Some (JStr "MVP or a stack?")) =
    Normal (mvp_plan "Ship v2").
Proof.
  assert (str_includes "mvp" (toLowerCase (trim "MVP or a stack?")) = true)
    as H1 by reflexivity.
  split; [exact H1|].
  exact (proj1 (generateAIReply_mvp_comes_first growth_idea
                  (Some (JStr "MVP or a stack?"))) H1).
Defined.

Lemma unreadable_body_stores_nothing_witness :
  let r : request Z :=
    Request "PUT" ("/api/ideas/" +:+ first_id) (Some Unreadable) in
  let w := file_store_with_idea in
  (handle plain_decode r w).2 = w ∧
  (handle plain_decode r w).1 = InternalError MalformedBody.
Proof.
  intros r w.
  assert (method r ≠ "DELETE") as H1 by discriminate.
  destruct (unreadable_body_stores_nothing plain_decode r w eq_refl H1)
    as (Hstate & _ & Hput).
  split; [exact Hstate|].
  exact (Hput first_id eq_refl eq_refl).
Defined.
